(** * Tissue Culture Explant Tracker (explant.py): lifecycle store and
      derived quantities

    A shallow embedding of the SQLite-backed record store of
    [src/explant.py], of the Streamlit form handlers that guard writes to
    it, and of the Gantt timeline assembly, followed by the properties the
    specification states about them.

    Conventions of the embedding.
    - Python and SQLite integers are [Z].
    - ISO calendar dates (TEXT columns, [pd.to_datetime] values) are day
      numbers in [Z]; [pd.Timedelta(days=1)] is [+ 1], and [.days] of a
      difference is the difference.
    - A nullable column is an [option].
    - A table is the list of its rows in rowid (insertion) order together
      with its AUTOINCREMENT counter.
    - [ORDER BY] and [sort_values] are a stable insertion sort; SQLite and
      pandas leave the order of rows with equal keys open, and nothing
      proved below depends on it. *)

From Stdlib Require Import ZArith List String Bool Lia.
From Stdlib Require Import DecimalString.
Import ListNotations.

#[local] Open Scope string_scope.
#[local] Open Scope list_scope.
#[local] Open Scope Z_scope.

(** ** Outcomes of a form submission *)

(** A Streamlit form run either performs its write and reports
    [st.success], shows [st.error]/[st.warning] and writes nothing, dies with
    a Python exception, or cannot be submitted with the given values at all
    because a widget ([number_input] bounds, [selectbox] options) does not
    offer them. *)
Inductive outcome (A : Type) : Type :=
| Success (a : A)
| Rejected (msg : string)
| Raised (exn : string)
| NotOffered (widget : string).

Arguments Success {A} a.
Arguments Rejected {A} msg.
Arguments Raised {A} exn.
Arguments NotOffered {A} widget.

Definition bind {A B : Type} (m : outcome A) (k : A -> outcome B) : outcome B :=
  match m with
  | Success a => k a
  | Rejected msg => Rejected msg
  | Raised exn => Raised exn
  | NotOffered w => NotOffered w
  end.

Declare Scope outcome_scope.
Delimit Scope outcome_scope with outcome.
Notation "x <- m ;; k" := (bind m (fun x => k))
  (at level 61, m at next level, right associativity) : outcome_scope.
Notation "m ;;; k" := (bind m (fun _ => k))
  (at level 61, right associativity) : outcome_scope.
#[local] Open Scope outcome_scope.

Definition accepted {A : Type} (o : outcome A) : bool :=
  match o with Success _ => true | _ => false end.

(** ** Widgets *)

Definition in_bounds (min_value max_value : option Z) (v : Z) : bool :=
  match min_value with Some lo => lo <=? v | None => true end
  && match max_value with Some hi => v <=? hi | None => true end.

(** [st.number_input(label, min_value=, max_value=)]: the value the user
    can submit lies within the bounds. *)
Definition number_input (label : string) (min_value max_value : option Z)
    (v : Z) : outcome Z :=
  if in_bounds min_value max_value v then Success v else NotOffered label.

(** [st.selectbox(label, options)] over integer-valued options. *)
Definition selectbox (label : string) (options : list Z) (v : Z) : outcome Z :=
  if existsb (Z.eqb v) options then Success v else NotOffered label.

(** [st.selectbox(label, options)] over a fixed list of strings. *)
Definition selectbox_str (label : string) (options : list string)
    (v : string) : outcome string :=
  if existsb (String.eqb v) options then Success v else NotOffered label.

(** ** SQL and pandas helpers *)

Definition date := Z.

Definition coalesce {A : Type} (a : option A) (d : A) : A :=
  match a with Some v => v | None => d end.

(** SQL [SUM]: NULLs are skipped, and the sum of no non-NULL value is NULL. *)
Fixpoint sql_sum (l : list (option Z)) : option Z :=
  match l with
  | [] => None
  | None :: l' => sql_sum l'
  | Some v :: l' => Some (v + coalesce (sql_sum l') 0)
  end.

(** pandas [Series.sum()] over an integer column. *)
Definition series_sum (l : list Z) : Z := fold_right Z.add 0 l.

(** [df.iloc[0]]: IndexError on an empty frame. *)
Definition iloc0 {R : Type} (df : list R) : outcome R :=
  match df with
  | r :: _ => Success r
  | [] => Raised "IndexError: single positional indexer is out-of-bounds"
  end.

(** The last row of a frame: what a finished [for ... in df.iterrows()]
    leaves in its loop variables. *)
Definition iloc_last {R : Type} (df : list R) : option R :=
  last (map Some df) None.

Fixpoint insert_by {R : Type} (le : R -> R -> bool) (x : R) (l : list R) : list R :=
  match l with
  | [] => [x]
  | y :: l' => if le x y then x :: l else y :: insert_by le x l'
  end.

Definition sort_by {R : Type} (le : R -> R -> bool) (l : list R) : list R :=
  fold_right (insert_by le) [] l.

(** [ORDER BY key DESC]. *)
Definition order_by_desc {R : Type} (key : R -> Z) (l : list R) : list R :=
  sort_by (fun x y => key y <=? key x) l.

(** [df.sort_values(key)]. *)
Definition sort_values {R : Type} (key : R -> Z) (l : list R) : list R :=
  sort_by (fun x y => key x <=? key y) l.

(** An optional foreign key compared with an id ([WHERE col = ?],
    [df[col] == id]): NULL/NaN equals nothing. *)
Definition fk_eqb (fk : option Z) (i : Z) : bool :=
  match fk with Some v => v =? i | None => false end.

(** Python truthiness of an optional integer argument ([if batch_id:]). *)
Definition truthy (a : option Z) : bool :=
  match a with Some v => negb (v =? 0) | None => false end.

(** A table: rows in rowid order, and the AUTOINCREMENT counter. *)
Record table (R : Type) : Type := mk_table { rows : list R; seq : Z }.
Arguments mk_table {R} rows seq.
Arguments rows {R} t.
Arguments seq {R} t.

Definition empty_table {R : Type} : table R := mk_table [] 0.

(** [INSERT]: the new row gets the next id, returned as [lastrowid]. *)
Definition sql_insert {R : Type} (mk : Z -> R) (t : table R) : table R * Z :=
  let i := seq t + 1 in (mk_table (rows t ++ [mk i]) i, i).

(** [UPDATE ... SET ... WHERE p]. *)
Definition sql_update {R : Type} (p : R -> bool) (f : R -> R) (t : table R) : table R :=
  mk_table (map (fun r => if p r then f r else r) (rows t)) (seq t).

(** [DELETE FROM ... WHERE p]. *)
Definition sql_delete {R : Type} (p : R -> bool) (t : table R) : table R :=
  mk_table (filter (fun r => negb (p r)) (rows t)) (seq t).

(** ** Schema ([init_db]) *)

Module Order.
Record t : Type := mk {
  id : Z;
  client_name : string;
  cultivar : string;
  num_plants : Z;
  plant_size : string;
  order_date : date;
  delivery_quantity : option Z;
  is_recurring : Z;
  completed : Z;
  completion_date : option date;
  notes : option string;
  created_at : Z
}.
End Order.

Module Batch.
(** Column 3 of [SELECT *] (the [batch[3]] of [get_batch_summary]) is
    [num_explants]. *)
Record t : Type := mk {
  id : Z;
  order_id : option Z;
  batch_name : string;
  num_explants : Z;
  explant_type : string;
  media_type : string;
  hormones : option string;
  additional_elements : option string;
  initiation_date : date;
  notes : option string;
  created_at : Z;
  pathogen_status : option string
}.
End Batch.

Module Infection.
Record t : Type := mk {
  id : Z;
  batch_id : Z;
  num_infected : Z;
  infection_type : string;
  identification_date : date;
  notes : option string;
  created_at : Z;
  num_lost : option Z;
  num_affected : option Z
}.
End Infection.

Module Transfer.
Record t : Type := mk {
  id : Z;
  batch_id : Z;
  parent_transfer_id : option Z;
  transfer_date : date;
  explants_in : Z;
  explants_out : Z;
  new_media : string;
  hormones : option string;
  additional_elements : option string;
  multiplication_occurred : Z;
  notes : option string;
  created_at : Z
}.
End Transfer.

Module Rooting.
Record t : Type := mk {
  id : Z;
  transfer_id : option Z;
  batch_id : Z;
  num_placed : Z;
  placement_date : date;
  num_rooted : option Z;
  rooting_date : option date;
  notes : option string;
  created_at : Z
}.
End Rooting.

Module Delivery.
Record t : Type := mk {
  id : Z;
  order_id : option Z;
  batch_id : option Z;
  num_delivered : Z;
  delivery_date : date;
  delivery_method : option string;
  notes : option string;
  created_at : Z
}.
End Delivery.

Module Label.
Record t : Type := mk {
  id : Z;
  order_id : Z;
  label_uuid : string;
  client_name : string;
  cultivar : string;
  order_date : date;
  initiation_date : date;
  stages : string;
  pathogen_status : option string;
  num_labels : option Z;
  notes : option string;
  created_at : Z
}.
End Label.

(** The database file: one table per [CREATE TABLE] of [init_db]. *)
Record Store : Type := mk_store {
  orders : table Order.t;
  explant_batches : table Batch.t;
  infection_records : table Infection.t;
  transfer_records : table Transfer.t;
  rooting_records : table Rooting.t;
  delivery_records : table Delivery.t;
  labels : table Label.t
}.

Definition empty_store : Store :=
  mk_store empty_table empty_table empty_table empty_table empty_table
           empty_table empty_table.

Definition with_orders (s : Store) (t : table Order.t) : Store :=
  mk_store t (explant_batches s) (infection_records s) (transfer_records s)
           (rooting_records s) (delivery_records s) (labels s).

Definition with_explant_batches (s : Store) (t : table Batch.t) : Store :=
  mk_store (orders s) t (infection_records s) (transfer_records s)
           (rooting_records s) (delivery_records s) (labels s).

Definition with_infection_records (s : Store) (t : table Infection.t) : Store :=
  mk_store (orders s) (explant_batches s) t (transfer_records s)
           (rooting_records s) (delivery_records s) (labels s).

Definition with_transfer_records (s : Store) (t : table Transfer.t) : Store :=
  mk_store (orders s) (explant_batches s) (infection_records s) t
           (rooting_records s) (delivery_records s) (labels s).

Definition with_rooting_records (s : Store) (t : table Rooting.t) : Store :=
  mk_store (orders s) (explant_batches s) (infection_records s)
           (transfer_records s) t (delivery_records s) (labels s).

Definition with_delivery_records (s : Store) (t : table Delivery.t) : Store :=
  mk_store (orders s) (explant_batches s) (infection_records s)
           (transfer_records s) (rooting_records s) t (labels s).

(** ** Database operations *)

(** The functions below take the store explicitly and return the new one;
    [now] stands for SQLite's [CURRENT_TIMESTAMP] at the insert. *)

Definition add_order (s : Store) (now : Z) (client_name cultivar : string)
    (num_plants : Z) (plant_size : string) (order_date : date)
    (delivery_quantity : Z) (is_recurring : bool) (notes : string) : Store * Z :=
  let (t, order_id) :=
    sql_insert (fun i =>
      Order.mk i client_name cultivar num_plants plant_size order_date
               (Some delivery_quantity) (if is_recurring then 1 else 0)
               0 None (Some notes) now) (orders s) in
  (with_orders s t, order_id).

(** [SELECT * FROM orders ORDER BY order_date DESC]. *)
Definition get_orders (s : Store) : list Order.t :=
  order_by_desc Order.order_date (rows (orders s)).

Definition update_order (s : Store) (order_id : Z) (client_name cultivar : string)
    (num_plants : Z) (plant_size : string) (order_date : date)
    (delivery_quantity : Z) (is_recurring : bool) (notes : string) : Store :=
  with_orders s
    (sql_update (fun o => Order.id o =? order_id)
       (fun o =>
          Order.mk (Order.id o) client_name cultivar num_plants plant_size
                   order_date (Some delivery_quantity)
                   (if is_recurring then 1 else 0)
                   (Order.completed o) (Order.completion_date o)
                   (Some notes) (Order.created_at o))
       (orders s)).

(** [DELETE FROM orders WHERE id = ?]; the connection never switches
    foreign-key enforcement on, so nothing else is touched or checked. *)
Definition delete_order (s : Store) (order_id : Z) : Store :=
  with_orders s (sql_delete (fun o => Order.id o =? order_id) (orders s)).

Definition mark_order_completed (s : Store) (order_id : Z)
    (completion_date : date) : Store :=
  with_orders s
    (sql_update (fun o => Order.id o =? order_id)
       (fun o =>
          Order.mk (Order.id o) (Order.client_name o) (Order.cultivar o)
                   (Order.num_plants o) (Order.plant_size o)
                   (Order.order_date o) (Order.delivery_quantity o)
                   (Order.is_recurring o) 1 (Some completion_date)
                   (Order.notes o) (Order.created_at o))
       (orders s)).

Definition mark_order_incomplete (s : Store) (order_id : Z) : Store :=
  with_orders s
    (sql_update (fun o => Order.id o =? order_id)
       (fun o =>
          Order.mk (Order.id o) (Order.client_name o) (Order.cultivar o)
                   (Order.num_plants o) (Order.plant_size o)
                   (Order.order_date o) (Order.delivery_quantity o)
                   (Order.is_recurring o) 0 None
                   (Order.notes o) (Order.created_at o))
       (orders s)).

Definition add_explant_batch (s : Store) (now : Z) (order_id : option Z)
    (batch_name : string) (num_explants : Z) (explant_type media_type : string)
    (hormones additional_elements : option string) (initiation_date : date)
    (notes : string) (pathogen_status : option string) : Store * Z :=
  let (t, batch_id) :=
    sql_insert (fun i =>
      Batch.mk i order_id batch_name num_explants explant_type media_type
               hormones additional_elements initiation_date (Some notes) now
               pathogen_status) (explant_batches s) in
  (with_explant_batches s t, batch_id).

(** [get_explant_batches(order_id=None)]; [if order_id:] is Python
    truthiness, so an id of 0 selects every batch. *)
Definition get_explant_batches (s : Store) (order_id : option Z) : list Batch.t :=
  if truthy order_id then
    order_by_desc Batch.initiation_date
      (filter (fun b => fk_eqb (Batch.order_id b) (coalesce order_id 0))
              (rows (explant_batches s)))
  else order_by_desc Batch.initiation_date (rows (explant_batches s)).

Definition update_explant_batch (s : Store) (batch_id : Z) (order_id : option Z)
    (batch_name : string) (num_explants : Z) (explant_type media_type : string)
    (hormones additional_elements : option string) (initiation_date : date)
    (notes : string) (pathogen_status : option string) : Store :=
  with_explant_batches s
    (sql_update (fun b => Batch.id b =? batch_id)
       (fun b =>
          Batch.mk (Batch.id b) order_id batch_name num_explants explant_type
                   media_type hormones additional_elements initiation_date
                   (Some notes) (Batch.created_at b) pathogen_status)
       (explant_batches s)).

Definition delete_explant_batch (s : Store) (batch_id : Z) : Store :=
  let s1 := with_infection_records s
              (sql_delete (fun r => Infection.batch_id r =? batch_id)
                          (infection_records s)) in
  let s2 := with_transfer_records s1
              (sql_delete (fun r => Transfer.batch_id r =? batch_id)
                          (transfer_records s1)) in
  let s3 := with_rooting_records s2
              (sql_delete (fun r => Rooting.batch_id r =? batch_id)
                          (rooting_records s2)) in
  with_explant_batches s3
    (sql_delete (fun b => Batch.id b =? batch_id) (explant_batches s3)).

Definition add_infection_record (s : Store) (now : Z) (batch_id num_lost
    num_affected : Z) (infection_type : string) (identification_date : date)
    (notes : string) : Store * Z :=
  let num_infected := num_lost + num_affected in
  let (t, record_id) :=
    sql_insert (fun i =>
      Infection.mk i batch_id num_infected infection_type identification_date
                   (Some notes) now (Some num_lost) (Some num_affected))
      (infection_records s) in
  (with_infection_records s t, record_id).

Definition get_infection_records (s : Store) (batch_id : option Z)
    : list Infection.t :=
  if truthy batch_id then
    order_by_desc Infection.identification_date
      (filter (fun r => Infection.batch_id r =? coalesce batch_id 0)
              (rows (infection_records s)))
  else order_by_desc Infection.identification_date (rows (infection_records s)).

(** [COALESCE(num_lost, num_infected)] of one row; [num_infected] is
    [NOT NULL]. *)
Definition lost_or_infected (r : Infection.t) : option Z :=
  match Infection.num_lost r with
  | Some v => Some v
  | None => Some (Infection.num_infected r)
  end.

(** [SELECT COALESCE(SUM(COALESCE(num_lost, num_infected)), 0)
     FROM infection_records WHERE batch_id = ?]. *)
Definition get_total_infections_for_batch (s : Store) (batch_id : Z) : Z :=
  coalesce
    (sql_sum (map lost_or_infected
                (filter (fun r => Infection.batch_id r =? batch_id)
                        (rows (infection_records s)))))
    0.

Definition update_infection_record (s : Store) (record_id batch_id num_lost
    num_affected : Z) (infection_type : string) (identification_date : date)
    (notes : string) : Store :=
  let num_infected := num_lost + num_affected in
  with_infection_records s
    (sql_update (fun r => Infection.id r =? record_id)
       (fun r =>
          Infection.mk (Infection.id r) batch_id num_infected infection_type
                       identification_date (Some notes) (Infection.created_at r)
                       (Some num_lost) (Some num_affected))
       (infection_records s)).

Definition delete_infection_record (s : Store) (record_id : Z) : Store :=
  with_infection_records s
    (sql_delete (fun r => Infection.id r =? record_id) (infection_records s)).

Definition add_transfer_record (s : Store) (now : Z) (batch_id : Z)
    (parent_transfer_id : option Z) (transfer_date : date) (explants_in
    explants_out : Z) (new_media : string) (hormones additional_elements :
    option string) (multiplication_occurred : Z) (notes : string) : Store * Z :=
  let (t, transfer_id) :=
    sql_insert (fun i =>
      Transfer.mk i batch_id parent_transfer_id transfer_date explants_in
                  explants_out new_media hormones additional_elements
                  multiplication_occurred (Some notes) now)
      (transfer_records s) in
  (with_transfer_records s t, transfer_id).

Definition get_transfer_records (s : Store) (batch_id : option Z)
    : list Transfer.t :=
  if truthy batch_id then
    order_by_desc Transfer.transfer_date
      (filter (fun r => Transfer.batch_id r =? coalesce batch_id 0)
              (rows (transfer_records s)))
  else order_by_desc Transfer.transfer_date (rows (transfer_records s)).

Definition delete_transfer_record (s : Store) (transfer_id : Z) : Store :=
  let s1 := with_rooting_records s
              (sql_delete (fun r => fk_eqb (Rooting.transfer_id r) transfer_id)
                          (rooting_records s)) in
  with_transfer_records s1
    (sql_delete (fun r => Transfer.id r =? transfer_id) (transfer_records s1)).

Definition add_rooting_record (s : Store) (now : Z) (transfer_id : option Z)
    (batch_id num_placed : Z) (placement_date : date) (num_rooted : option Z)
    (rooting_date : option date) (notes : string) : Store * Z :=
  let (t, record_id) :=
    sql_insert (fun i =>
      Rooting.mk i transfer_id batch_id num_placed placement_date num_rooted
                 rooting_date (Some notes) now)
      (rooting_records s) in
  (with_rooting_records s t, record_id).

Definition update_rooting_record (s : Store) (record_id : Z)
    (num_rooted : option Z) (rooting_date : option date) : Store :=
  with_rooting_records s
    (sql_update (fun r => Rooting.id r =? record_id)
       (fun r =>
          Rooting.mk (Rooting.id r) (Rooting.transfer_id r) (Rooting.batch_id r)
                     (Rooting.num_placed r) (Rooting.placement_date r)
                     num_rooted rooting_date (Rooting.notes r)
                     (Rooting.created_at r))
       (rooting_records s)).

Definition update_rooting_record_full (s : Store) (record_id : Z)
    (transfer_id : option Z) (batch_id num_placed : Z) (placement_date : date)
    (num_rooted : option Z) (rooting_date : option date) (notes : string)
    : Store :=
  with_rooting_records s
    (sql_update (fun r => Rooting.id r =? record_id)
       (fun r =>
          Rooting.mk (Rooting.id r) transfer_id batch_id num_placed
                     placement_date num_rooted rooting_date (Some notes)
                     (Rooting.created_at r))
       (rooting_records s)).

Definition delete_rooting_record (s : Store) (record_id : Z) : Store :=
  with_rooting_records s
    (sql_delete (fun r => Rooting.id r =? record_id) (rooting_records s)).

(** [get_rooting_records(batch_id=None, transfer_id=None)]: the batch
    filter wins, then the transfer filter, both by truthiness. *)
Definition get_rooting_records (s : Store) (batch_id transfer_id : option Z)
    : list Rooting.t :=
  if truthy batch_id then
    order_by_desc Rooting.placement_date
      (filter (fun r => Rooting.batch_id r =? coalesce batch_id 0)
              (rows (rooting_records s)))
  else if truthy transfer_id then
    order_by_desc Rooting.placement_date
      (filter (fun r => fk_eqb (Rooting.transfer_id r) (coalesce transfer_id 0))
              (rows (rooting_records s)))
  else order_by_desc Rooting.placement_date (rows (rooting_records s)).

Definition add_delivery_record (s : Store) (now : Z) (order_id batch_id :
    option Z) (num_delivered : Z) (delivery_date : date)
    (delivery_method : option string) (notes : string) : Store * Z :=
  let (t, record_id) :=
    sql_insert (fun i =>
      Delivery.mk i order_id batch_id num_delivered delivery_date
                  delivery_method (Some notes) now)
      (delivery_records s) in
  (with_delivery_records s t, record_id).

Definition get_delivery_records (s : Store) (order_id batch_id : option Z)
    : list Delivery.t :=
  if truthy order_id then
    order_by_desc Delivery.delivery_date
      (filter (fun r => fk_eqb (Delivery.order_id r) (coalesce order_id 0))
              (rows (delivery_records s)))
  else if truthy batch_id then
    order_by_desc Delivery.delivery_date
      (filter (fun r => fk_eqb (Delivery.batch_id r) (coalesce batch_id 0))
              (rows (delivery_records s)))
  else order_by_desc Delivery.delivery_date (rows (delivery_records s)).

(** The dictionary returned by [get_batch_summary]. *)
Record BatchSummary : Type := mk_summary {
  batch : Batch.t;
  total_infected : Z;
  total_transferred : Z;
  healthy : Z
}.

(** [get_batch_summary]: [None] when no batch has the id. [fetchone] takes
    the first row in rowid order; the infection total is
    [COALESCE(SUM(num_infected), 0)]. *)
Definition get_batch_summary (s : Store) (batch_id : Z) : option BatchSummary :=
  match filter (fun b => Batch.id b =? batch_id) (rows (explant_batches s)) with
  | [] => None
  | batch :: _ =>
      let total_infected :=
        coalesce
          (sql_sum (map (fun r => Some (Infection.num_infected r))
                      (filter (fun r => Infection.batch_id r =? batch_id)
                              (rows (infection_records s)))))
          0 in
      let total_transferred :=
        coalesce
          (sql_sum (map (fun r => Some (Transfer.explants_out r))
                      (filter (fun r => Transfer.batch_id r =? batch_id)
                              (rows (transfer_records s)))))
          0 in
      Some (mk_summary batch total_infected total_transferred
                       (Batch.num_explants batch - total_infected))
  end.

(** ** Contamination Tracking page *)

(** The figure the page shows as "Remaining healthy" and checks a new loss against
    ([batch_info['num_explants'] - total_lost], with [batch_info] the first
    row of [batches] carrying the id); [None] when no batch has the id. *)
Definition healthy_remaining (s : Store) (batch_id : Z) : option Z :=
  match filter (fun b => Batch.id b =? batch_id) (get_explant_batches s None) with
  | batch_info :: _ =>
      Some (Batch.num_explants batch_info - get_total_infections_for_batch s batch_id)
  | [] => None
  end.

(** The [if submitted:] block of the "Record Contamination" form. *)
Definition infection_form_submitted (s : Store) (now : Z) (batch_id remaining
    num_lost num_affected : Z) (infection_type : string)
    (identification_date : date) (notes : string) : outcome (Store * Z) :=
  if (num_lost =? 0) && (num_affected =? 0) then
    Rejected "Please enter at least one explant lost or affected"
  else if remaining >=? num_lost then
    Success (add_infection_record s now batch_id num_lost num_affected
               infection_type identification_date notes)
  else Rejected "Cannot lose more explants than remaining healthy count".

(** "Record Contamination" ([infection_form]), submitted with the given
    widget values. *)
Definition infection_form (s : Store) (now : Z) (batch_id num_lost
    num_affected : Z) (infection_type : string) (identification_date : date)
    (notes : string) : outcome (Store * Z) :=
  let batches := get_explant_batches s None in
  match batches with
  | [] => Rejected "No batches available. Please initiate a batch first."
  | _ :: _ =>
      batch_id <- selectbox "Select Batch*" (map Batch.id batches) batch_id ;;
      let total_lost := get_total_infections_for_batch s batch_id in
      batch_info <- iloc0 (filter (fun b => Batch.id b =? batch_id) batches) ;;
      let remaining := Batch.num_explants batch_info - total_lost in
      num_lost <- number_input "Number of Explants Lost to Contamination*"
                    (Some 0) (Some (if remaining >? 0 then remaining else 0))
                    num_lost ;;
      num_affected <- number_input "Number of Explants Affected by Contamination*"
                        (Some 0) None num_affected ;;
      infection_type <- selectbox_str "Contamination Type*"
                          ["Bacterial"; "Fungal"] infection_type ;;
      infection_form_submitted s now batch_id remaining num_lost num_affected
        infection_type identification_date notes
  end.

(** What one row adds to the total: [num_lost], or the legacy
    [num_infected] when [num_lost] is NULL. *)
Definition contribution (r : Infection.t) : Z :=
  coalesce (Infection.num_lost r) (Infection.num_infected r).


(** ** Sample stores *)

(** One batch of 100 explants, entered through [add_explant_batch]. *)
Definition store_batch100 : Store :=
  fst (add_explant_batch empty_store 0 None "B-100" 100 "Node" "50% MS"
         None None 20 EmptyString None).

(** The same batch after a record that lost 30 explants. *)
Definition store_lost30 : Store :=
  fst (add_infection_record store_batch100 0 1 30 0 "Fungal" 25 EmptyString).

(** The batch with one pre-migration contamination row: [num_lost] and
    [num_affected] are NULL, [num_infected] is 12. *)
Definition legacy_row : Infection.t :=
  Infection.mk 1 1 12 "Bacterial" 22 None 0 None None.

Definition store_legacy : Store :=
  with_infection_records store_batch100 (mk_table [legacy_row] 1).

(** The batch of 100 after one record entered on the "Record Contamination"
    form with 10 explants lost and 5 affected. *)
Definition store_lost10_affected5 : Store :=
  match infection_form store_batch100 0 1 10 5 "Fungal" 25 EmptyString with
  | Success (s, _) => s
  | _ => store_batch100
  end.

(** ** Rooting Tracking page *)

(** [st.number_input(..., value=default)]: Streamlit refuses to render a
    widget whose default lies outside its bounds. *)
Definition number_input_value (label : string) (min_value max_value : option Z)
    (value v : Z) : outcome Z :=
  if in_bounds min_value max_value value then
    number_input label min_value max_value v
  else Raised "StreamlitAPIException: default value outside the bounds".

Definition rooting_media : string := "Rooting Media".

(** [transfers[transfers['new_media'] == 'Rooting Media']]. *)
Definition rooting_transfers_of (transfers : list Transfer.t) : list Transfer.t :=
  filter (fun t => String.eqb (Transfer.new_media t) rooting_media) transfers.

(** [existing_rooting['num_placed'].sum()] for one transfer. *)
Definition cumulative_num_placed (s : Store) (transfer_id : Z) : Z :=
  series_sum (map Rooting.num_placed
                (get_rooting_records s None (Some transfer_id))).

(** The [if submitted:] block of the "Record Rooting" form. *)
Definition rooting_form_submitted (s : Store) (now : Z) (transfer_id batch_id
    remaining num_placed : Z) (placement_date : date) (num_rooted : Z)
    (rooting_date : option date) (notes : string) : outcome (Store * Z) :=
  if num_placed <=? remaining then
    Success (add_rooting_record s now (Some transfer_id) batch_id num_placed
               placement_date
               (if num_rooted >? 0 then Some num_rooted else None)
               rooting_date notes)
  else Rejected "Cannot place more explants than available".

(** "Record Rooting" ([rooting_form]). *)
Definition rooting_form (s : Store) (now : Z) (transfer_id num_placed : Z)
    (placement_date : date) (num_rooted : Z) (rooting_date : option date)
    (notes : string) : outcome (Store * Z) :=
  let transfers := get_transfer_records s None in
  let rooting_transfers := rooting_transfers_of transfers in
  match rooting_transfers with
  | [] => Rejected "No transfers to rooting media found. Please create a transfer with 'Rooting Media' first."
  | _ :: _ =>
      let batches := get_explant_batches s None in
      let transfer_options :=
        map Transfer.id
          (filter (fun t =>
                     existsb (fun b => Batch.id b =? Transfer.batch_id t) batches)
                  rooting_transfers) in
      match transfer_options with
      | [] => Raised "KeyError: None"
      | _ :: _ =>
          transfer_id <- selectbox "Select Transfer*" transfer_options transfer_id ;;
          selected_transfer_data <-
            iloc0 (filter (fun t => Transfer.id t =? transfer_id) rooting_transfers) ;;
          let existing_rooting := get_rooting_records s None (Some transfer_id) in
          let remaining :=
            match existing_rooting with
            | _ :: _ =>
                Transfer.explants_out selected_transfer_data
                - series_sum (map Rooting.num_placed existing_rooting)
            | [] => Transfer.explants_out selected_transfer_data
            end in
          let default_placed := if remaining >? 0 then remaining else 1 in
          num_placed <- number_input_value "Number Placed in Rooting Media*"
                          (Some 1) (Some (if remaining >? 0 then remaining else 1))
                          default_placed num_placed ;;
          let batch_id := Transfer.batch_id selected_transfer_data in
          num_rooted <- number_input_value "Number Rooted (optional)"
                          (Some 0) None 0 num_rooted ;;
          rooting_form_submitted s now transfer_id batch_id remaining num_placed
            placement_date num_rooted rooting_date notes
      end
  end.

(** "Update Rooting Status" ([update_rooting_form]) on the records listed
    under the chosen batch filter ([None] is "All Batches"). *)
Definition update_rooting_form (s : Store) (filter_batch_id : option Z)
    (record_id new_num_rooted : Z) (new_rooting_date : date) : outcome Store :=
  let batches := get_explant_batches s None in
  match batches with
  | [] => Rejected "No batches available"
  | _ :: _ =>
      filter_batch_id <-
        match filter_batch_id with
        | None => Success None
        | Some b => b <- selectbox "Filter by Batch" (map Batch.id batches) b ;;
                    Success (Some b)
        end ;;
      let rooting_records := get_rooting_records s filter_batch_id None in
      match rooting_records with
      | [] => Rejected "No rooting records found"
      | _ :: _ =>
          record_id <- selectbox "Select Record to Update"
                         (map Rooting.id rooting_records) record_id ;;
          selected_record_data <-
            iloc0 (filter (fun r => Rooting.id r =? record_id) rooting_records) ;;
          let max_rooted := Rooting.num_placed selected_record_data in
          new_num_rooted <- number_input_value "Number Rooted*"
                              (Some 0) (Some max_rooted)
                              (coalesce (Rooting.num_rooted selected_record_data) 0)
                              new_num_rooted ;;
          Success (update_rooting_record s record_id (Some new_num_rooted)
                     (Some new_rooting_date))
      end
  end.

(** "Edit Rooting Record" ([edit_rooting_form]). *)
Definition edit_rooting_form (s : Store) (record_id edit_transfer_id
    edit_batch_id edit_num_placed : Z) (edit_placement_date : date)
    (edit_num_rooted : Z) (edit_rooting_date : option date)
    (edit_notes : string) : outcome Store :=
  let rooting_records := get_rooting_records s None None in
  let batches := get_explant_batches s None in
  let transfers := get_transfer_records s None in
  match rooting_records with
  | [] => Rejected "No rooting records found"
  | _ :: _ =>
      record_id <- selectbox "Select Rooting Record to Edit/Delete"
                     (map Rooting.id rooting_records) record_id ;;
      selected_record_data <-
        iloc0 (filter (fun r => Rooting.id r =? record_id) rooting_records) ;;
      let rooting_transfers := rooting_transfers_of transfers in
      edit_transfer_id <-
        match rooting_transfers with
        | _ :: _ =>
            t <- selectbox "Select Transfer*"
                   (map Transfer.id rooting_transfers) edit_transfer_id ;;
            Success (Some t)
        | [] => Success None
        end ;;
      edit_batch_id <-
        match batches with
        | [] => Raised "IndexError: list index out of range"
        | _ :: _ => selectbox "Select Batch*" (map Batch.id batches) edit_batch_id
        end ;;
      edit_num_placed <- number_input_value "Number Placed*" (Some 1) None
                           (Rooting.num_placed selected_record_data)
                           edit_num_placed ;;
      edit_num_rooted <- number_input_value "Number Rooted (optional)"
                           (Some 0) (Some edit_num_placed)
                           (coalesce (Rooting.num_rooted selected_record_data) 0)
                           edit_num_rooted ;;
      Success (update_rooting_record_full s record_id edit_transfer_id
                 edit_batch_id edit_num_placed edit_placement_date
                 (if edit_num_rooted >? 0 then Some edit_num_rooted else None)
                 edit_rooting_date edit_notes)
  end.

(** One batch, one transfer of 50 explants out onto rooting media. *)
Definition store_transfer50 : Store :=
  fst (add_transfer_record store_batch100 0 1 None 40 20 50 "Rooting Media"
         None None 1 EmptyString).

(** The same after placing 30 of them through the "Record Rooting" form. *)
Definition store_placed30 : Store :=
  match rooting_form store_transfer50 0 1 30 40 0 None EmptyString with
  | Success (s, _) => s
  | _ => store_transfer50
  end.

(** [num_rooted <= num_placed] when [num_rooted] is set. *)
Definition rooted_within_placed (r : Rooting.t) : Prop :=
  match Rooting.num_rooted r with
  | Some v => v <= Rooting.num_placed r
  | None => True
  end.

(** ** Order Management page *)

(** [orders[orders.get('completed', 0) == 1]]: the Archive page and the
    "Completed Orders" list. *)
Definition completed_orders (orders : list Order.t) : list Order.t :=
  filter (fun o => Order.completed o =? 1) orders.

(** [orders[orders.get('completed', 0) == 0]]: [incomplete_orders] of the
    "Mark Complete" tab, [active_orders] of the label generator and
    [active_order_ids] of the statistics pages. *)
Definition active_orders (orders : list Order.t) : list Order.t :=
  filter (fun o => Order.completed o =? 0) orders.

Definition archive_view (s : Store) : list Order.t :=
  completed_orders (get_orders s).

Definition active_view (s : Store) : list Order.t :=
  active_orders (get_orders s).

(** "Add New Order" ([new_order_form]). *)
Definition new_order_form (s : Store) (now : Z) (client_name cultivar : string)
    (num_plants delivery_quantity : Z) (plant_size : string) (order_date : date)
    (is_recurring : bool) (notes : string) : outcome (Store * Z) :=
  num_plants <- number_input_value "Number of Plants*" (Some 1) None 1 num_plants ;;
  delivery_quantity <- number_input_value
                         "Delivery Quantity (Tissue Culture Plants)*"
                         (Some 0) None 0 delivery_quantity ;;
  plant_size <- selectbox_str "Plant Size*"
                  ["In Vitro Shoots"; "Clones"; "Teens"; "Other"] plant_size ;;
  if negb (String.eqb client_name EmptyString) && negb (String.eqb cultivar EmptyString) then
    Success (add_order s now client_name cultivar num_plants plant_size
               order_date delivery_quantity is_recurring notes)
  else Rejected "Please fill in all required fields".

(** The "Delete Order" button. *)
Definition delete_order_button (s : Store) (order_id : Z) : outcome Store :=
  let orders := get_orders s in
  match orders with
  | [] => Rejected "No orders found"
  | _ :: _ =>
      order_id <- selectbox "Select Order to Edit/Delete"
                    (map Order.id orders) order_id ;;
      iloc0 (filter (fun o => Order.id o =? order_id) orders) ;;;
      Success (delete_order s order_id)
  end.

(** "Mark Order as Complete" ([complete_order_form]): only incomplete
    orders are offered. *)
Definition complete_order_form (s : Store) (order_id : Z)
    (completion_date : date) : outcome Store :=
  let orders := get_orders s in
  let incomplete_orders := active_orders orders in
  match incomplete_orders with
  | [] => Rejected "No incomplete orders found"
  | _ :: _ =>
      order_id <- selectbox "Select Order to Mark Complete"
                    (map Order.id incomplete_orders) order_id ;;
      iloc0 (filter (fun o => Order.id o =? order_id) orders) ;;;
      Success (mark_order_completed s order_id completion_date)
  end.

(** The "Mark as Incomplete" button: only completed orders are offered. *)
Definition mark_incomplete_button (s : Store) (completed_order_id : Z)
    : outcome Store :=
  match completed_orders (get_orders s) with
  | [] => Rejected "No completed orders found"
  | (_ :: _) as completed =>
      completed_order_id <- selectbox "Select Completed Order"
                              (map Order.id completed) completed_order_id ;;
      Success (mark_order_incomplete s completed_order_id)
  end.

(** An order as [mark_order_incomplete] leaves it. *)
Definition reopened (o : Order.t) : Order.t :=
  Order.mk (Order.id o) (Order.client_name o) (Order.cultivar o)
           (Order.num_plants o) (Order.plant_size o) (Order.order_date o)
           (Order.delivery_quantity o) (Order.is_recurring o) 0 None
           (Order.notes o) (Order.created_at o).

(** The "Open" state of an order. *)
Definition is_open (o : Order.t) : Prop :=
  Order.completed o = 0 /\ Order.completion_date o = None.

(** ** Explant Initiation page *)

Definition explant_types : list string :=
  ["Node"; "Microshoot"; "Meristem"; "Other"].

Definition media_types : list string :=
  ["50% EECN"; "100% EECN"; "50% MS"; "100% MS"; "50% DKW"; "100% DKW";
   "Rooting Media"].

Definition pathogen_options : list string :=
  ["Hop Latent Viroid"; "Arabis Mosaic Virus"; "Beet Curly Top Virus";
   "Lettuce Chlorosis Virus"; "Cannabis Cryptic Virus"; "Tomato Ringspot Virus";
   "Tobacco Mosaic Virus"; "Tomato Mosaic Virus"; "Botrytis cineria";
   "Pythium myriotylum"; "Fusarium oxysporum"; "Fusarium solani";
   "Golovinomyces ambrosiae"].

(** [text or None]. *)
Definition or_none (text : string) : option string :=
  if String.eqb text EmptyString then None else Some text.

(** The "Link to Order (optional)" selectbox: "None" or one of the orders;
    without orders there is no widget and the link is [None]. *)
Definition order_link (orders : list Order.t) (choice : option Z)
    : outcome (option Z) :=
  match orders with
  | [] => Success None
  | _ :: _ =>
      match choice with
      | None => Success None
      | Some o => o <- selectbox "Link to Order (optional)"
                         (map Order.id orders) o ;;
                  Success (Some o)
      end
  end.

(** The pathogen checkbox and selectbox: no pathogen, or one of the list. *)
Definition pathogen_choice (choice : option string) : outcome (option string) :=
  match choice with
  | None => Success None
  | Some p => p <- selectbox_str "Select Pathogen" pathogen_options p ;;
              Success (Some p)
  end.

(** "Initiate New Explant Batch" ([new_batch_form]). *)
Definition new_batch_form (s : Store) (now : Z) (order_id : option Z)
    (batch_name : string) (num_explants : Z) (explant_type media_type : string)
    (initiation_date : date) (hormones additional_elements notes : string)
    (pathogen_status : option string) : outcome (Store * Z) :=
  pathogen_status_val <- pathogen_choice pathogen_status ;;
  order_id <- order_link (get_orders s) order_id ;;
  num_explants <- number_input_value "Number of Explants*" (Some 1) None 1
                    num_explants ;;
  explant_type <- selectbox_str "Explant Type*" explant_types explant_type ;;
  media_type <- selectbox_str "Media Type*" media_types media_type ;;
  if negb (String.eqb batch_name EmptyString) && negb (String.eqb media_type EmptyString) then
    Success (add_explant_batch s now order_id batch_name num_explants
               explant_type media_type (or_none hormones)
               (or_none additional_elements) initiation_date notes
               pathogen_status_val)
  else Rejected "Please fill in all required fields".

(** The preselected entry of the edit form's order selectbox ([default_order]):
    a link whose order is gone shows as "None". *)
Definition default_order (orders : list Order.t) (selected_batch_data : Batch.t)
    : option Z :=
  match Batch.order_id selected_batch_data with
  | Some current_order_id =>
      match filter (fun o => Order.id o =? current_order_id) orders with
      | current_order :: _ => Some (Order.id current_order)
      | [] => None
      end
  | None => None
  end.

(** "Edit Batch" ([edit_batch_form]). *)
Definition edit_batch_form (s : Store) (batch_id : Z) (edit_order_id : option Z)
    (edit_batch_name : string) (edit_num_explants : Z) (edit_explant_type
    edit_media_type : string) (edit_initiation_date : date)
    (edit_pathogen_status : option string) (edit_hormones
    edit_additional_elements edit_notes : string) : outcome Store :=
  let batches := get_explant_batches s None in
  let orders := get_orders s in
  match batches with
  | [] => Rejected "No batches found"
  | _ :: _ =>
      batch_id <- selectbox "Select Batch to Edit/Delete"
                    (map Batch.id batches) batch_id ;;
      selected_batch_data <-
        iloc0 (filter (fun b => Batch.id b =? batch_id) batches) ;;
      edit_order_id <- order_link orders edit_order_id ;;
      edit_num_explants <- number_input_value "Number of Explants*" (Some 1) None
                             (Batch.num_explants selected_batch_data)
                             edit_num_explants ;;
      edit_explant_type <- selectbox_str "Explant Type*" explant_types
                             edit_explant_type ;;
      edit_media_type <- selectbox_str "Media Type*" media_types
                           edit_media_type ;;
      edit_pathogen_status <- pathogen_choice edit_pathogen_status ;;
      if negb (String.eqb edit_batch_name EmptyString)
         && negb (String.eqb edit_media_type EmptyString) then
        Success (update_explant_batch s batch_id edit_order_id edit_batch_name
                   edit_num_explants edit_explant_type edit_media_type
                   (or_none edit_hormones) (or_none edit_additional_elements)
                   edit_initiation_date edit_notes edit_pathogen_status)
      else Rejected "Please fill in all required fields"
  end.

(** ** Editing and deleting contamination records *)

(** "Edit Contamination Record" ([edit_infection_form]). The remaining
    count adds the edited record's own loss back to the total of the batch
    chosen in the form. *)
Definition edit_infection_form (s : Store) (record_id edit_batch_id
    edit_num_lost edit_num_affected : Z) (edit_infection_type : string)
    (edit_identification_date : date) (edit_notes : string) : outcome Store :=
  let infections := get_infection_records s None in
  let batches := get_explant_batches s None in
  match infections with
  | [] => Rejected "No infection records found"
  | _ :: _ =>
      record_id <- selectbox "Select Contamination Record to Edit/Delete"
                     (map Infection.id infections) record_id ;;
      selected_infection_data <-
        iloc0 (filter (fun r => Infection.id r =? record_id) infections) ;;
      edit_batch_id <-
        match batches with
        | [] => Raised "IndexError: list index out of range"
        | _ :: _ => selectbox "Select Batch*" (map Batch.id batches) edit_batch_id
        end ;;
      let total_lost := get_total_infections_for_batch s edit_batch_id in
      batch_info <- iloc0 (filter (fun b => Batch.id b =? edit_batch_id) batches) ;;
      let current_lost := contribution selected_infection_data in
      let remaining := Batch.num_explants batch_info - total_lost + current_lost in
      let current_num_lost := contribution selected_infection_data in
      let current_num_affected :=
        coalesce (Infection.num_affected selected_infection_data) 0 in
      edit_num_lost <- number_input_value
                         "Number of Explants Lost to Contamination*"
                         (Some 0) (Some (if remaining >? 0 then remaining else 0))
                         current_num_lost edit_num_lost ;;
      edit_num_affected <- number_input_value
                             "Number of Explants Affected by Contamination*"
                             (Some 0) None current_num_affected edit_num_affected ;;
      edit_infection_type <- selectbox_str "Contamination Type*"
                               ["Bacterial"; "Fungal"] edit_infection_type ;;
      if (edit_num_lost =? 0) && (edit_num_affected =? 0) then
        Rejected "Please enter at least one explant lost or affected"
      else if edit_num_lost <=? remaining then
        Success (update_infection_record s record_id edit_batch_id edit_num_lost
                   edit_num_affected edit_infection_type
                   edit_identification_date edit_notes)
      else Rejected "Cannot lose more explants than remaining healthy count"
  end.

(** The "Delete Contamination Record" button. *)
Definition delete_infection_button (s : Store) (record_id : Z) : outcome Store :=
  let infections := get_infection_records s None in
  match infections with
  | [] => Rejected "No infection records found"
  | _ :: _ =>
      record_id <- selectbox "Select Contamination Record to Edit/Delete"
                     (map Infection.id infections) record_id ;;
      iloc0 (filter (fun r => Infection.id r =? record_id) infections) ;;;
      Success (delete_infection_record s record_id)
  end.

(** ** Transfer Management page *)

(** "Record Transfer to New Media" ([transfer_form]). *)
Definition transfer_form (s : Store) (now : Z) (batch_id : Z)
    (parent_transfer_id : option Z) (explants_in explants_out : Z)
    (new_media : string) (transfer_date : date) (multiplication_occurred : bool)
    (hormones additional_elements notes : string) : outcome (Store * Z) :=
  let batches := get_explant_batches s None in
  match batches with
  | [] => Rejected "No batches available. Please initiate a batch first."
  | _ :: _ =>
      batch_id <- selectbox "Select Batch*" (map Batch.id batches) batch_id ;;
      let transfers := get_transfer_records s (Some batch_id) in
      parent_transfer_id <-
        match transfers, parent_transfer_id with
        | _ :: _, Some p => p <- selectbox "Parent Transfer"
                                   (map Transfer.id transfers) p ;;
                            Success (Some p)
        | _, _ => Success None
        end ;;
      explants_in <- number_input_value "Explants In*" (Some 1) None 1 explants_in ;;
      explants_out <- number_input_value "Explants Out*" (Some 1) None 1 explants_out ;;
      new_media <- selectbox_str "New Media Type*" media_types new_media ;;
      if negb (String.eqb new_media EmptyString) then
        Success (add_transfer_record s now batch_id parent_transfer_id
                   transfer_date explants_in explants_out new_media
                   (or_none hormones) (or_none additional_elements)
                   (if multiplication_occurred then 1 else 0) notes)
      else Rejected "Please specify the new media type"
  end.

(** ** The application as a transition system *)

(** One accepted user action of the pages modelled above. *)
Inductive step : Store -> Store -> Prop :=
| step_new_order s now client_name cultivar num_plants delivery_quantity
    plant_size order_date is_recurring notes s' order_id :
    new_order_form s now client_name cultivar num_plants delivery_quantity
      plant_size order_date is_recurring notes = Success (s', order_id) ->
    step s s'
| step_delete_order s order_id s' :
    delete_order_button s order_id = Success s' -> step s s'
| step_complete_order s order_id completion_date s' :
    complete_order_form s order_id completion_date = Success s' -> step s s'
| step_reopen_order s order_id s' :
    mark_incomplete_button s order_id = Success s' -> step s s'
| step_new_batch s now order_id batch_name num_explants explant_type media_type
    initiation_date hormones additional_elements notes pathogen_status s'
    batch_id :
    new_batch_form s now order_id batch_name num_explants explant_type
      media_type initiation_date hormones additional_elements notes
      pathogen_status = Success (s', batch_id) ->
    step s s'
| step_edit_batch s batch_id order_id batch_name num_explants explant_type
    media_type initiation_date pathogen_status hormones additional_elements
    notes s' :
    edit_batch_form s batch_id order_id batch_name num_explants explant_type
      media_type initiation_date pathogen_status hormones additional_elements
      notes = Success s' ->
    step s s'
| step_record_contamination s now batch_id num_lost num_affected infection_type
    identification_date notes s' record_id :
    infection_form s now batch_id num_lost num_affected infection_type
      identification_date notes = Success (s', record_id) ->
    step s s'
| step_edit_contamination s record_id batch_id num_lost num_affected
    infection_type identification_date notes s' :
    edit_infection_form s record_id batch_id num_lost num_affected
      infection_type identification_date notes = Success s' ->
    step s s'
| step_delete_contamination s record_id s' :
    delete_infection_button s record_id = Success s' -> step s s'
| step_record_transfer s now batch_id parent_transfer_id explants_in
    explants_out new_media transfer_date multiplication_occurred hormones
    additional_elements notes s' transfer_id :
    transfer_form s now batch_id parent_transfer_id explants_in explants_out
      new_media transfer_date multiplication_occurred hormones
      additional_elements notes = Success (s', transfer_id) ->
    step s s'
| step_record_rooting s now transfer_id num_placed placement_date num_rooted
    rooting_date notes s' record_id :
    rooting_form s now transfer_id num_placed placement_date num_rooted
      rooting_date notes = Success (s', record_id) ->
    step s s'
| step_update_rooting s filter_batch_id record_id num_rooted rooting_date s' :
    update_rooting_form s filter_batch_id record_id num_rooted rooting_date
      = Success s' ->
    step s s'
| step_edit_rooting s record_id transfer_id batch_id num_placed placement_date
    num_rooted rooting_date notes s' :
    edit_rooting_form s record_id transfer_id batch_id num_placed
      placement_date num_rooted rooting_date notes = Success s' ->
    step s s'.

(** The stores the application gets to from a fresh database. *)
Inductive reachable : Store -> Prop :=
| reach_init : reachable empty_store
| reach_step s s' : reachable s -> step s s' -> reachable s'.

(** Two orders, and a batch linked to the first of them. *)
Definition store_two_orders : Store :=
  let s1 := fst (add_order empty_store 0 "Acme" "Cascade" 10 "Clones" 5 10 false EmptyString) in
  let s2 := fst (add_order s1 0 "Birch" "Centennial" 20 "Teens" 6 20 false EmptyString) in
  fst (add_explant_batch s2 0 (Some 1) "B-1" 100 "Node" "50% MS" None None 20 EmptyString None).

(** ** Timeline page, "Batch Timeline" tab: the order of the batch *)

(** "Get order info if linked": the lookup guards on the orders frame being
    non-empty, then takes the first order carrying the batch's [order_id]. *)
Definition batch_timeline_order_info (s : Store) (batch_id : Z)
    : outcome (option Order.t) :=
  let batches := get_explant_batches s None in
  match batches with
  | [] => Rejected "No batches available"
  | _ :: _ =>
      batch_id <- selectbox "Select Batch" (map Batch.id batches) batch_id ;;
      batch_info <- iloc0 (filter (fun b => Batch.id b =? batch_id) batches) ;;
      match Batch.order_id batch_info with
      | Some order_id =>
          let orders := get_orders s in
          match orders with
          | [] => Success None
          | _ :: _ =>
              order_info <- iloc0 (filter (fun o => Order.id o =? order_id) orders) ;;
              Success (Some order_info)
          end
      | None => Success None
      end
  end.

(** ** Timeline page, "Gantt Chart by Cultivar" tab *)

(** [str(n)] of a Python integer. *)
Definition str_of_Z (n : Z) : string := NilZero.string_of_int (Z.to_int n).

(** One dictionary appended to [gantt_data]. *)
Record GanttRow : Type := mk_row {
  Cultivar : string;
  Task : string;
  Start : date;
  Finish : date;
  Duration : Z
}.

(** What the loop over the batches mutates: the [gantt_data] list, and the
    script-level variable [prev_date], unbound until its first assignment
    and kept from one batch to the next. *)
Record GanttEnv : Type := mk_env {
  gantt_data : list GanttRow;
  prev_date : option date
}.

Module Gantt.

(** State over [GanttEnv] with Python exceptions. *)
Definition M (A : Type) : Type := GanttEnv -> outcome (A * GanttEnv).

Definition ret {A : Type} (a : A) : M A := fun e => Success (a, e).

Definition bind {A B : Type} (m : M A) (k : A -> M B) : M B :=
  fun e =>
    match m e with
    | Success (a, e') => k a e'
    | Rejected msg => Rejected msg
    | Raised exn => Raised exn
    | NotOffered w => NotOffered w
    end.

(** [gantt_data.append(row)]. *)
Definition append (row : GanttRow) : M unit :=
  fun e => Success (tt, mk_env (gantt_data e ++ [row]) (prev_date e)).

(** [prev_date = d]. *)
Definition assign_prev_date (d : date) : M unit :=
  fun e => Success (tt, mk_env (gantt_data e) (Some d)).

(** A read of [prev_date]. *)
Definition read_prev_date : M date :=
  fun e =>
    match prev_date e with
    | Some d => Success (d, e)
    | None => Raised "NameError: name 'prev_date' is not defined"
    end.

Definition when (c : bool) (m : M unit) : M unit := if c then m else ret tt.

Fixpoint for_each {A : Type} (l : list A) (body : A -> M unit) : M unit :=
  match l with
  | [] => ret tt
  | x :: l' => bind (body x) (fun _ => for_each l' body)
  end.

End Gantt.

Declare Scope gantt_scope.
Delimit Scope gantt_scope with gantt.
Notation "x <- m ;; k" := (Gantt.bind m (fun x => k))
  (at level 61, m at next level, right associativity) : gantt_scope.
Notation "m ;;; k" := (Gantt.bind m (fun _ => k))
  (at level 61, right associativity) : gantt_scope.

Definition passive_time : string := "Passive Time".

(** A one-day marker. *)
Definition marker (cultivar task : string) (d : date) : GanttRow :=
  mk_row cultivar task d (d + 1) 1.

(** "Add passive time if there's a gap", then the marker, then
    [prev_date = d + 1]: the step shared by transfers, rooting placements
    and completions, deliveries and the order completion. The passive
    interval starts at [prev_date]. *)
Definition gap_then_marker (cultivar task : string) (d : date) : Gantt.M unit :=
  (prev <- Gantt.read_prev_date ;;
   Gantt.when (d >? prev + 1)
     (Gantt.append (mk_row cultivar passive_time prev d (d - prev))) ;;;
   Gantt.append (marker cultivar task d))%gantt.

Definition transfer_task (transfer : Transfer.t) : string :=
  ("Transfer #" ++ str_of_Z (Transfer.id transfer) ++ ": "
   ++ Transfer.new_media transfer
   ++ " (" ++ str_of_Z (Transfer.explants_in transfer)
   ++ str_of_Z (Transfer.explants_out transfer)
   ++ ", Mult: "
   ++ (if (Transfer.multiplication_occurred transfer =? 0)%Z then "No" else "Yes")
   ++ ")")%string.

(** [order_completion]: the completion date of the batch's order, when the
    order is found, completed and dated. *)
Definition order_completion_of (orders : list Order.t) (batch : Batch.t)
    : option date :=
  match Batch.order_id batch with
  | Some order_id =>
      match filter (fun o => Order.id o =? order_id) orders with
      | order_row :: _ =>
          if Order.completed order_row =? 1 then Order.completion_date order_row
          else None
      | [] => None
      end
  | None => None
  end.

(** The body of [for _, batch in filtered_batches.iterrows()]; a row of the
    merged frame is a batch with its order. *)
Definition gantt_batch (orders : list Order.t) (transfers : list Transfer.t)
    (rooting_records : list Rooting.t) (delivery_records : list Delivery.t)
    (row : Batch.t * Order.t) : Gantt.M unit :=
  let batch := fst row in
  let cultivar := Order.cultivar (snd row) in
  let batch_id := Batch.id batch in
  let order_date := Order.order_date (snd row) in
  let init_date := Batch.initiation_date batch in
  let batch_transfers :=
    filter (fun t => Transfer.batch_id t =? batch_id) transfers in
  let batch_rooting :=
    filter (fun r => Rooting.batch_id r =? batch_id) rooting_records in
  let batch_deliveries :=
    filter (fun d => fk_eqb (Delivery.batch_id d) batch_id) delivery_records in
  let order_completion := order_completion_of orders batch in
  let init_end := init_date + 1 in
  (Gantt.append (marker cultivar "Order Received" order_date) ;;;
   Gantt.when (init_date >? order_date + 1)
     (Gantt.append (mk_row cultivar passive_time (order_date + 1) init_date
                      (init_date - (order_date + 1)))) ;;;
   Gantt.append (mk_row cultivar "Explant Initiation" init_date init_end 1) ;;;
   match sort_values Transfer.transfer_date batch_transfers with
   | [] => Gantt.ret tt
   | (first_transfer :: _) as sorted_transfers =>
       let first_transfer_date := Transfer.transfer_date first_transfer in
       Gantt.when (first_transfer_date >? init_end)
         (Gantt.append (mk_row cultivar passive_time init_end first_transfer_date
                          (first_transfer_date - init_end))) ;;;
       Gantt.assign_prev_date init_end ;;;
       Gantt.for_each sorted_transfers (fun transfer =>
         gap_then_marker cultivar (transfer_task transfer)
           (Transfer.transfer_date transfer) ;;;
         Gantt.assign_prev_date (Transfer.transfer_date transfer + 1)) ;;;
       Gantt.for_each (sort_values Rooting.placement_date batch_rooting)
         (fun rooting =>
            let placement_date := Rooting.placement_date rooting in
            gap_then_marker cultivar
              ("Rooting Placement: " ++ str_of_Z (Rooting.num_placed rooting)
               ++ " placed")%string placement_date ;;;
            Gantt.assign_prev_date (placement_date + 1) ;;;
            match Rooting.rooting_date rooting with
            | Some rooting_date =>
                let num_rooted := coalesce (Rooting.num_rooted rooting) 0 in
                gap_then_marker cultivar
                  ("Rooting Complete: " ++ str_of_Z num_rooted ++ " rooted")%string
                  rooting_date ;;;
                Gantt.assign_prev_date (rooting_date + 1)
            | None => Gantt.ret tt
            end)
   end ;;;
   Gantt.for_each (sort_values Delivery.delivery_date batch_deliveries)
     (fun delivery =>
        gap_then_marker cultivar
          ("Delivery: " ++ str_of_Z (Delivery.num_delivered delivery)
           ++ " delivered")%string (Delivery.delivery_date delivery) ;;;
        Gantt.assign_prev_date (Delivery.delivery_date delivery + 1)) ;;;
   match order_completion with
   | Some completion => gap_then_marker cultivar "Order Completed" completion
   | None => Gantt.ret tt
   end)%gantt.

(** The [else:] that follows the loop. It is aligned with the [for], so it
    runs once, after the last batch, on the [cultivar] and [init_date] that
    batch left behind. *)
Definition gantt_loop_else (today : date) (filtered_batches : list (Batch.t * Order.t))
    : Gantt.M unit :=
  match iloc_last filtered_batches with
  | Some row =>
      let cultivar := Order.cultivar (snd row) in
      let init_date := Batch.initiation_date (fst row) in
      Gantt.when (today >? init_date + 1)
        (Gantt.append (mk_row cultivar passive_time (init_date + 1) today
                         (today - init_date - 1)))
  | None => fun _ => Raised "NameError: name 'init_date' is not defined"
  end.

(** [batches.merge(orders, left_on='order_id', right_on='id', how='left')]
    restricted to the rows whose [cultivar] is not NaN, that is, to the
    batches whose order exists. *)
Definition batches_with_orders_of (batches : list Batch.t) (orders : list Order.t)
    : list (Batch.t * Order.t) :=
  flat_map (fun b =>
              map (fun o => (b, o))
                  (filter (fun o => fk_eqb (Batch.order_id b) (Order.id o)) orders))
           batches.

(** [Series.unique()]: first occurrences, in order. *)
Fixpoint unique (l : list string) : list string :=
  match l with
  | [] => []
  | x :: l' => x :: filter (fun y => negb (String.eqb x y)) (unique l')
  end.

(** The rows of [gantt_data] the tab builds for the selected cultivars, as
    of [today]. *)
Definition gantt_chart_data (s : Store) (today : date)
    (selected_cultivars : list string) : outcome (list GanttRow) :=
  let orders := get_orders s in
  let batches := get_explant_batches s None in
  let transfers := get_transfer_records s None in
  let rooting_records := get_rooting_records s None None in
  let delivery_records := get_delivery_records s None None in
  match batches, orders with
  | _ :: _, _ :: _ =>
      let batches_with_orders := batches_with_orders_of batches orders in
      match batches_with_orders with
      | [] => Rejected "No batches linked to orders with cultivar information"
      | _ :: _ =>
          let all_cultivars :=
            unique (map (fun row => Order.cultivar (snd row)) batches_with_orders) in
          if forallb (fun c => existsb (String.eqb c) all_cultivars)
                     selected_cultivars then
            let selected_cultivars :=
              match selected_cultivars with
              | [] => all_cultivars
              | _ :: _ => selected_cultivars
              end in
            let filtered_batches :=
              filter (fun row =>
                        existsb (String.eqb (Order.cultivar (snd row)))
                                selected_cultivars)
                     batches_with_orders in
            match (Gantt.for_each filtered_batches
                     (gantt_batch orders transfers rooting_records
                                  delivery_records) ;;;
                   gantt_loop_else today filtered_batches)%gantt
                  (mk_env [] None) with
            | Success (_, e) => Success (gantt_data e)
            | Rejected msg => Rejected msg
            | Raised exn => Raised exn
            | NotOffered w => NotOffered w
            end
          else NotOffered "Select Cultivars (leave empty for all)"
      end
  | _, _ => Rejected "No data available for Gantt chart"
  end.

(** One order for cultivar "Cascade" received the day before its batch is
    initiated on day [D]; the batch's only transfer is on day [D + 5]. *)
Definition store_gap5 (D : date) : Store :=
  let s1 := fst (add_order empty_store 0 "Acme" "Cascade" 10 "Clones" (D - 1) 10
                   false EmptyString) in
  let s2 := fst (add_explant_batch s1 0 (Some 1) "B-1" 100 "Node" "50% MS"
                   None None D EmptyString None) in
  fst (add_transfer_record s2 0 1 None (D + 5) 20 50 "50% MS" None None 1 EmptyString).

(** Two orders with a batch each: "Cascade", initiated on day 10, has no
    transfer; "Centennial", initiated on day 5, was transferred on day 8. *)
Definition store_two_batches : Store :=
  let s1 := fst (add_order empty_store 0 "Acme" "Cascade" 10 "Clones" 9 10
                   false EmptyString) in
  let s2 := fst (add_order s1 0 "Birch" "Centennial" 20 "Teens" 4 20 false EmptyString) in
  let s3 := fst (add_explant_batch s2 0 (Some 1) "B-1" 100 "Node" "50% MS"
                   None None 10 EmptyString None) in
  let s4 := fst (add_explant_batch s3 0 (Some 2) "B-2" 60 "Node" "50% MS"
                   None None 5 EmptyString None) in
  fst (add_transfer_record s4 0 2 None 8 20 50 "50% MS" None None 1 EmptyString).

(** The "No transfers yet" interval of a cultivar: passive time from the
    day after [init_date] through [today]. *)
Definition is_idle_interval (cultivar : string) (init_date today : date)
    (r : GanttRow) : bool :=
  String.eqb (Cultivar r) cultivar && String.eqb (Task r) passive_time
  && (Start r =? init_date + 1) && (Finish r =? today).

(** A fresh database after three accepted actions: a batch of 10 explants
    is initiated, a contamination record loses 8 of them, and the batch is
    then edited down to 5 explants. *)
Definition store_new_batch10 : Store :=
  match new_batch_form empty_store 0 None "B-1" 10 "Node" "50% MS" 20 EmptyString EmptyString EmptyString
          None with
  | Success (s, _) => s
  | _ => empty_store
  end.

Definition store_batch10_lost8 : Store :=
  match infection_form store_new_batch10 0 1 8 0 "Fungal" 25 EmptyString with
  | Success (s, _) => s
  | _ => store_new_batch10
  end.

(** Batches "A" (100 explants) and "B" (10 explants), and one contamination
    record that lost 50 explants of "A". *)
Definition store_ab_lost50 : Store :=
  match new_batch_form empty_store 0 None "A" 100 "Node" "50% MS" 20 EmptyString EmptyString EmptyString
          None with
  | Success (s1, _) =>
      match new_batch_form s1 0 None "B" 10 "Node" "50% MS" 21 EmptyString EmptyString EmptyString None with
      | Success (s2, _) =>
          match infection_form s2 0 1 50 0 "Fungal" 25 EmptyString with
          | Success (s3, _) => s3
          | _ => s2
          end
      | _ => s1
      end
  | _ => empty_store
  end.

(** Every batch's remaining healthy count is at least 0. *)
Definition healthy_nonneg (s : Store) : Prop :=
  forall b h, healthy_remaining s b = Some h -> 0 <= h.

(** ** Well-formed stores *)

(** Primary keys of a table: no id twice, none above the AUTOINCREMENT
    counter. *)
Definition keys_ok {R : Type} (id : R -> Z) (t : table R) : Prop :=
  NoDup (map id (rows t)) /\ forall r, In r (rows t) -> id r <= seq t.

(** What the pages keep true of the orders and contamination tables: ids
    are keys, an open order carries no completion date, and no record
    contributes a negative loss. *)
Record wf_store (s : Store) : Prop := mk_wf {
  wf_order_keys : keys_ok Order.id (orders s);
  wf_open_undated :
    forall o, In o (rows (orders s)) -> Order.completed o = 0 ->
              Order.completion_date o = None;
  wf_infection_keys : keys_ok Infection.id (infection_records s);
  wf_losses_nonneg :
    forall r, In r (rows (infection_records s)) -> 0 <= contribution r
}.

(** What each accepted action does to the orders and contamination tables. *)
Inductive ledger_effect (s s' : Store) : Prop :=
| effect_none :
    orders s' = orders s -> infection_records s' = infection_records s ->
    ledger_effect s s'
| effect_add_order now c cv np ps od dq rec notes :
    s' = fst (add_order s now c cv np ps od dq rec notes) -> ledger_effect s s'
| effect_delete_order oid :
    s' = delete_order s oid -> ledger_effect s s'
| effect_complete oid d :
    s' = mark_order_completed s oid d -> ledger_effect s s'
| effect_reopen oid :
    s' = mark_order_incomplete s oid -> ledger_effect s s'
| effect_add_infection now b nl na ty d notes :
    0 <= nl ->
    s' = fst (add_infection_record s now b nl na ty d notes) -> ledger_effect s s'
| effect_update_infection rid b nl na ty d notes :
    0 <= nl ->
    s' = update_infection_record s rid b nl na ty d notes -> ledger_effect s s'
| effect_delete_infection rid :
    s' = delete_infection_record s rid -> ledger_effect s s'.

(** ** Further definitions: shapes of results *)

(** A Gantt row whose [Duration] is its span in days, at least one day. *)
Definition row_ok (r : GanttRow) : Prop :=
  Duration r = Finish r - Start r /\ 1 <= Duration r.

(** A piece of the assembly keeps every row of [gantt_data] well shaped. *)
Definition keeps_rows_ok {A : Type} (m : Gantt.M A) : Prop :=
  forall e a e', Forall row_ok (gantt_data e) -> m e = Success (a, e') ->
                 Forall row_ok (gantt_data e').

(** ** Remaining database operations *)

Definition with_labels (s : Store) (t : table Label.t) : Store :=
  mk_store (orders s) (explant_batches s) (infection_records s)
           (transfer_records s) (rooting_records s) (delivery_records s) t.

Definition update_transfer_record (s : Store) (transfer_id batch_id : Z)
    (parent_transfer_id : option Z) (transfer_date : date) (explants_in
    explants_out : Z) (new_media : string) (hormones additional_elements :
    option string) (multiplication_occurred : Z) (notes : string) : Store :=
  with_transfer_records s
    (sql_update (fun r => Transfer.id r =? transfer_id)
       (fun r =>
          Transfer.mk (Transfer.id r) batch_id parent_transfer_id transfer_date
                      explants_in explants_out new_media hormones
                      additional_elements multiplication_occurred (Some notes)
                      (Transfer.created_at r))
       (transfer_records s)).

Definition update_delivery_record (s : Store) (record_id : Z) (order_id
    batch_id : option Z) (num_delivered : Z) (delivery_date : date)
    (delivery_method : option string) (notes : string) : Store :=
  with_delivery_records s
    (sql_update (fun r => Delivery.id r =? record_id)
       (fun r =>
          Delivery.mk (Delivery.id r) order_id batch_id num_delivered
                      delivery_date delivery_method (Some notes)
                      (Delivery.created_at r))
       (delivery_records s)).

Definition delete_delivery_record (s : Store) (record_id : Z) : Store :=
  with_delivery_records s
    (sql_delete (fun r => Delivery.id r =? record_id) (delivery_records s)).

(** [add_label]: [label_uuid] is [UNIQUE NOT NULL], so an insert that
    repeats a stored uuid fails and writes nothing. *)
Definition add_label (s : Store) (now : Z) (order_id : Z) (label_uuid
    client_name cultivar : string) (order_date initiation_date : date)
    (stages : string) (pathogen_status : option string) (num_labels : Z)
    (notes : string) : outcome (Store * Z) :=
  if existsb (fun l => String.eqb (Label.label_uuid l) label_uuid)
             (rows (labels s)) then
    Raised "sqlite3.IntegrityError: UNIQUE constraint failed: labels.label_uuid"
  else
    let (t, label_id) :=
      sql_insert (fun i =>
        Label.mk i order_id label_uuid client_name cultivar order_date
                 initiation_date stages pathogen_status (Some num_labels)
                 (Some notes) now) (labels s) in
    Success (with_labels s t, label_id).

(** [get_labels(order_id=None)], newest first. *)
Definition get_labels (s : Store) (order_id : option Z) : list Label.t :=
  if truthy order_id then
    order_by_desc Label.created_at
      (filter (fun l => Label.order_id l =? coalesce order_id 0) (rows (labels s)))
  else order_by_desc Label.created_at (rows (labels s)).

(** [get_label_by_uuid]: the row as a dictionary, or [None]; the column
    names zipped onto the row are the table's columns in order. *)
Definition get_label_by_uuid (s : Store) (label_uuid : string) : option Label.t :=
  match filter (fun l => String.eqb (Label.label_uuid l) label_uuid)
               (rows (labels s)) with
  | label :: _ => Some label
  | [] => None
  end.

Definition delete_label (s : Store) (label_id : Z) : Store :=
  with_labels s (sql_delete (fun l => Label.id l =? label_id) (labels s)).

(** [get_pathogens_for_order]: the distinct non-empty [pathogen_status]
    values of the order's batches. The Python result is [list(set(...))],
    whose order is unspecified; the model lists first occurrences. *)
Definition get_pathogens_for_order (s : Store) (order_id : Z) : list string :=
  unique
    (flat_map (fun b =>
                 if fk_eqb (Batch.order_id b) order_id then
                   match Batch.pathogen_status b with
                   | Some p => if String.eqb p EmptyString then [] else [p]
                   | None => []
                   end
                 else [])
              (rows (explant_batches s))).

(** ** Remaining write paths of the pages *)

(** "Edit Order" ([edit_order_form]). *)
Definition edit_order_form (s : Store) (order_id : Z) (edit_client_name
    edit_cultivar : string) (edit_num_plants edit_delivery_quantity : Z)
    (edit_plant_size : string) (edit_order_date : date)
    (edit_is_recurring : bool) (edit_notes : string) : outcome Store :=
  let orders := get_orders s in
  match orders with
  | [] => Rejected "No orders found"
  | _ :: _ =>
      order_id <- selectbox "Select Order to Edit/Delete"
                    (map Order.id orders) order_id ;;
      selected_order_data <-
        iloc0 (filter (fun o => Order.id o =? order_id) orders) ;;
      edit_num_plants <- number_input_value "Number of Plants*" (Some 1) None
                           (Order.num_plants selected_order_data)
                           edit_num_plants ;;
      edit_delivery_quantity <-
        number_input_value "Delivery Quantity (Tissue Culture Plants)*"
          (Some 0) None
          (coalesce (Order.delivery_quantity selected_order_data) 0)
          edit_delivery_quantity ;;
      edit_plant_size <- selectbox_str "Plant Size*"
                           ["In Vitro Shoots"; "Clones"; "Teens"; "Other"]
                           edit_plant_size ;;
      if negb (String.eqb edit_client_name EmptyString)
         && negb (String.eqb edit_cultivar EmptyString) then
        Success (update_order s order_id edit_client_name edit_cultivar
                   edit_num_plants edit_plant_size edit_order_date
                   edit_delivery_quantity edit_is_recurring edit_notes)
      else Rejected "Please fill in all required fields"
  end.

(** The "Delete Batch" button. *)
Definition delete_batch_button (s : Store) (batch_id : Z) : outcome Store :=
  let batches := get_explant_batches s None in
  match batches with
  | [] => Rejected "No batches found"
  | _ :: _ =>
      batch_id <- selectbox "Select Batch to Edit/Delete"
                    (map Batch.id batches) batch_id ;;
      iloc0 (filter (fun b => Batch.id b =? batch_id) batches) ;;;
      Success (delete_explant_batch s batch_id)
  end.

(** "Edit Transfer" ([edit_transfer_form]). The parent may be any other
    transfer of the chosen batch. *)
Definition edit_transfer_form (s : Store) (transfer_id edit_batch_id : Z)
    (edit_parent_transfer_id : option Z) (edit_explants_in edit_explants_out : Z)
    (edit_new_media : string) (edit_transfer_date : date)
    (edit_multiplication_occurred : bool) (edit_hormones
    edit_additional_elements edit_notes : string) : outcome Store :=
  let transfers := get_transfer_records s None in
  let batches := get_explant_batches s None in
  match transfers with
  | [] => Rejected "No transfer records found"
  | _ :: _ =>
      transfer_id <- selectbox "Select Transfer to Edit/Delete"
                       (map Transfer.id transfers) transfer_id ;;
      selected_transfer_data <-
        iloc0 (filter (fun t => Transfer.id t =? transfer_id) transfers) ;;
      edit_batch_id <-
        match batches with
        | [] => Raised "IndexError: list index out of range"
        | _ :: _ => selectbox "Select Batch*" (map Batch.id batches) edit_batch_id
        end ;;
      let batch_transfers := get_transfer_records s (Some edit_batch_id) in
      edit_parent_transfer_id <-
        match batch_transfers, edit_parent_transfer_id with
        | _ :: _, Some p =>
            p <- selectbox "Parent Transfer"
                   (filter (fun i => negb (i =? transfer_id))
                           (map Transfer.id batch_transfers)) p ;;
            Success (Some p)
        | _, _ => Success None
        end ;;
      edit_explants_in <- number_input_value "Explants In*" (Some 1) None
                            (Transfer.explants_in selected_transfer_data)
                            edit_explants_in ;;
      edit_explants_out <- number_input_value "Explants Out*" (Some 1) None
                             (Transfer.explants_out selected_transfer_data)
                             edit_explants_out ;;
      edit_new_media <- selectbox_str "New Media Type*" media_types
                          edit_new_media ;;
      if negb (String.eqb edit_new_media EmptyString) then
        Success (update_transfer_record s transfer_id edit_batch_id
                   edit_parent_transfer_id edit_transfer_date edit_explants_in
                   edit_explants_out edit_new_media (or_none edit_hormones)
                   (or_none edit_additional_elements)
                   (if edit_multiplication_occurred then 1 else 0) edit_notes)
      else Rejected "Please specify the new media type"
  end.

(** The "Delete Transfer" button. *)
Definition delete_transfer_button (s : Store) (transfer_id : Z) : outcome Store :=
  let transfers := get_transfer_records s None in
  match transfers with
  | [] => Rejected "No transfer records found"
  | _ :: _ =>
      transfer_id <- selectbox "Select Transfer to Edit/Delete"
                       (map Transfer.id transfers) transfer_id ;;
      iloc0 (filter (fun t => Transfer.id t =? transfer_id) transfers) ;;;
      Success (delete_transfer_record s transfer_id)
  end.

(** The "Delete Rooting Record" button. *)
Definition delete_rooting_button (s : Store) (record_id : Z) : outcome Store :=
  let rooting_records := get_rooting_records s None None in
  match rooting_records with
  | [] => Rejected "No rooting records found"
  | _ :: _ =>
      record_id <- selectbox "Select Rooting Record to Edit/Delete"
                     (map Rooting.id rooting_records) record_id ;;
      iloc0 (filter (fun r => Rooting.id r =? record_id) rooting_records) ;;;
      Success (delete_rooting_record s record_id)
  end.

(** The "Select Batch (optional)" selectbox of the delivery forms: one of
    the chosen order's batches or "None"; without such batches there is no
    widget and the batch is [None]. *)
Definition order_batch_choice (batches : list Batch.t) (order_id : Z)
    (choice : option Z) : outcome (option Z) :=
  let order_batches := filter (fun b => fk_eqb (Batch.order_id b) order_id) batches in
  match order_batches, choice with
  | _ :: _, Some b => b <- selectbox "Select Batch (optional)"
                            (map Batch.id order_batches) b ;;
                      Success (Some b)
  | _, _ => Success None
  end.

(** "Record Delivery" ([delivery_form]). *)
Definition delivery_form (s : Store) (now : Z) (order_id : Z)
    (batch_id : option Z) (num_delivered : Z) (delivery_date : date)
    (delivery_method notes : string) : outcome (Store * Z) :=
  let orders := get_orders s in
  let batches := get_explant_batches s None in
  match orders with
  | [] => Rejected "No orders found. Please create an order first."
  | _ :: _ =>
      order_id <- selectbox "Select Order*" (map Order.id orders) order_id ;;
      batch_id <- order_batch_choice batches order_id batch_id ;;
      num_delivered <- number_input_value "Number Delivered*" (Some 1) None 1
                         num_delivered ;;
      Success (add_delivery_record s now (Some order_id) batch_id num_delivered
                 delivery_date (Some delivery_method) notes)
  end.

(** "Edit Delivery Record" ([edit_delivery_form]). *)
Definition edit_delivery_form (s : Store) (record_id edit_order_id : Z)
    (edit_batch_id : option Z) (edit_num_delivered : Z)
    (edit_delivery_date : date) (edit_delivery_method edit_notes : string)
    : outcome Store :=
  let delivery_records := get_delivery_records s None None in
  match delivery_records with
  | [] => Rejected "No delivery records found"
  | _ :: _ =>
      let orders := get_orders s in
      let batches := get_explant_batches s None in
      record_id <- selectbox "Select Delivery Record to Edit/Delete"
                     (map Delivery.id delivery_records) record_id ;;
      selected_record_data <-
        iloc0 (filter (fun r => Delivery.id r =? record_id) delivery_records) ;;
      edit_order_id <-
        match orders with
        | [] => Raised "IndexError: list index out of range"
        | _ :: _ => selectbox "Select Order*" (map Order.id orders) edit_order_id
        end ;;
      edit_batch_id <- order_batch_choice batches edit_order_id edit_batch_id ;;
      edit_num_delivered <- number_input_value "Number Delivered*" (Some 1) None
                              (Delivery.num_delivered selected_record_data)
                              edit_num_delivered ;;
      Success (update_delivery_record s record_id (Some edit_order_id)
                 edit_batch_id edit_num_delivered edit_delivery_date
                 (Some edit_delivery_method) edit_notes)
  end.

(** The "Delete Delivery Record" button. *)
Definition delete_delivery_button (s : Store) (record_id : Z) : outcome Store :=
  let delivery_records := get_delivery_records s None None in
  match delivery_records with
  | [] => Rejected "No delivery records found"
  | _ :: _ =>
      record_id <- selectbox "Select Delivery Record to Edit/Delete"
                     (map Delivery.id delivery_records) record_id ;;
      iloc0 (filter (fun r => Delivery.id r =? record_id) delivery_records) ;;;
      Success (delete_delivery_record s record_id)
  end.

(** ** Labels page *)

(** Python's [sep.join(l)]. *)
Fixpoint join (sep : string) (l : list string) : string :=
  match l with
  | [] => EmptyString
  | [x] => x
  | x :: l' => (x ++ sep ++ join sep l')%string
  end.

(** Python's [s.split(sep)] for a one-character separator. *)
Fixpoint split (sep : Ascii.ascii) (s : string) : list string :=
  match s with
  | EmptyString => [EmptyString]
  | String c s' =>
      if Ascii.eqb c sep then EmptyString :: split sep s'
      else match split sep s' with
           | hd :: tl => String c hd :: tl
           | [] => [String c EmptyString]
           end
  end.

Definition comma : Ascii.ascii := Ascii.ascii_of_N 44.

(** The ASCII characters [str.isspace] accepts. *)
Definition isspace (c : Ascii.ascii) : bool :=
  let n := Z.of_N (Ascii.N_of_ascii c) in
  ((9 <=? n) && (n <=? 13)) || ((28 <=? n) && (n <=? 32)).

Fixpoint lstrip (s : string) : string :=
  match s with
  | String c s' => if isspace c then lstrip s' else s
  | EmptyString => EmptyString
  end.

Fixpoint reverse (s acc : string) : string :=
  match s with
  | String c s' => reverse s' (String c acc)
  | EmptyString => acc
  end.

(** Python's [s.strip()]. *)
Definition strip (s : string) : string :=
  reverse (lstrip (reverse (lstrip s) EmptyString)) EmptyString.

Definition available_stages : list string :=
  ["Initiation"; "Multiplication"; "Elongation"; "Rooting"; "Acclimation";
   "Hardening"; "Stock Plant"; "Mother Plant"].

(** [st.multiselect]: a selection without repetition among the options. *)
Fixpoint multiselect (label : string) (options selected : list string)
    : outcome (list string) :=
  match selected with
  | [] => Success []
  | x :: rest =>
      if existsb (String.eqb x) options && negb (existsb (String.eqb x) rest)
      then rest <- multiselect label options rest ;; Success (x :: rest)
      else NotOffered label
  end.

(** One entry of [labels_data]. *)
Module LabelData.
Record t : Type := mk {
  uuid : string;
  client_name : string;
  cultivar : string;
  order_date : date;
  initiation_date : date;
  stages : string;
  pathogen_status : option string;
  num_explants : Z;
  include_cultivar : bool;
  include_client : bool;
  include_order_date : bool;
  include_init_date : bool;
  include_stages : bool;
  include_explants : bool;
  include_pathogens : bool;
  code_type : string
}.
End LabelData.

(** The check boxes of the label form. *)
Record LabelOptions : Type := mk_label_options {
  opt_include_cultivar : bool;
  opt_include_client : bool;
  opt_include_order_date : bool;
  opt_include_init_date : bool;
  opt_include_stages : bool;
  opt_include_explants : bool;
  opt_include_pathogens : bool
}.

(** The order the label form works on: the most recent open order of the
    selected cultivar. *)
Definition label_order (s : Store) (selected_cultivar : string)
    : outcome Order.t :=
  let orders := get_orders s in
  let active_orders := filter (fun o => Order.completed o =? 0) orders in
  match active_orders with
  | [] => Rejected "No active orders available. Please create an order first."
  | _ :: _ =>
      selected_cultivar <- selectbox_str "Select Cultivar"
                             (unique (map Order.cultivar active_orders))
                             selected_cultivar ;;
      if String.eqb selected_cultivar EmptyString then
        NotOffered "label_generation_form"
      else
        let cultivar_orders :=
          order_by_desc Order.order_date
            (filter (fun o => String.eqb (Order.cultivar o) selected_cultivar)
                    active_orders) in
        match cultivar_orders with
        | order :: _ => Success order
        | [] => Rejected "No orders found for the selected cultivar."
        end
  end.

(** "Generate Labels" ([label_generation_form]). [label_uuid] is the value
    [uuid.uuid4()] draws; the result carries the [labels_data] handed to
    [generate_label_pdf]. *)
Definition label_generation_form (s : Store) (now : Z) (BARCODE_AVAILABLE : bool)
    (label_uuid selected_cultivar : string) (num_labels start_label_number : Z)
    (initiation_date : date) (num_explants : Z) (selected_stages : list string)
    (custom_stage : string) (include_detected : bool)
    (manual_pathogens : string) (options : LabelOptions) (code_type : string)
    (labels_per_row : Z) (label_notes : string)
    : outcome (Store * Z * list LabelData.t) :=
  order <- label_order s selected_cultivar ;;
  let order_id := Order.id order in
  let detected_pathogens := get_pathogens_for_order s order_id in
  num_labels <- number_input_value "Number of Labels to Generate" (Some 1)
                  (Some 500) 10 num_labels ;;
  start_label_number <- number_input_value "Start label number at" (Some 1)
                          None 1 start_label_number ;;
  num_explants <- number_input_value "Number of Explants" (Some 1) None 1
                    num_explants ;;
  selected_stages <- multiselect "Stage(s)" available_stages selected_stages ;;
  let include_detected :=
    match detected_pathogens with
    | _ :: _ => include_detected
    | [] => false
    end in
  code_type <- selectbox_str "Code Type" ["QR Code"; "Barcode"] code_type ;;
  let code_type :=
    if negb BARCODE_AVAILABLE && String.eqb code_type "Barcode" then "QR Code"
    else code_type in
  labels_per_row <- number_input_value "Labels per Row" (Some 1) (Some 5) 3
                      labels_per_row ;;
  match selected_stages, custom_stage with
  | [], EmptyString =>
      Rejected "Please select at least one stage or enter a custom stage"
  | _, _ =>
      let all_stages :=
        selected_stages
        ++ (if String.eqb custom_stage EmptyString then [] else [custom_stage]) in
      let stages_str := join ", " all_stages in
      let pathogens_list :=
        (if include_detected then detected_pathogens else [])
        ++ (if String.eqb manual_pathogens EmptyString then []
            else map strip (split comma manual_pathogens)) in
      let pathogen_status :=
        match pathogens_list with
        | [] => None
        | _ :: _ => Some (join ", " pathogens_list)
        end in
      r <- add_label s now order_id label_uuid (Order.client_name order)
             (Order.cultivar order) (Order.order_date order) initiation_date
             stages_str pathogen_status num_labels label_notes ;;
      let (s', label_id) := r : Store * Z in
      let labels_data :=
        map (fun i =>
               let label_number := start_label_number + Z.of_nat i in
               let numbered_cultivar :=
                 (Order.cultivar order ++ " - " ++ str_of_Z label_number)%string in
               LabelData.mk label_uuid (Order.client_name order)
                 numbered_cultivar (Order.order_date order) initiation_date
                 stages_str pathogen_status num_explants
                 (opt_include_cultivar options) (opt_include_client options)
                 (opt_include_order_date options)
                 (opt_include_init_date options) (opt_include_stages options)
                 (opt_include_explants options)
                 (opt_include_pathogens options) code_type)
            (List.seq 0 (Z.to_nat num_labels)) in
      Success (s', label_id, labels_data)
  end.

(** "Delete Label Batch": the batch is chosen among the labels left by the
    two filters of the history tab ([None] stands for "All"). *)
Definition delete_label_button (s : Store) (client_filter cultivar_filter :
    option string) (delete_label_id : Z) : outcome Store :=
  let labels := get_labels s None in
  match labels with
  | [] => Rejected "No labels generated yet"
  | _ :: _ =>
      client_filter <-
        match client_filter with
        | Some c => c <- selectbox_str "Filter by Client"
                           (unique (map Label.client_name labels)) c ;;
                    Success (Some c)
        | None => Success None
        end ;;
      cultivar_filter <-
        match cultivar_filter with
        | Some c => c <- selectbox_str "Filter by Cultivar"
                           (unique (map Label.cultivar labels)) c ;;
                    Success (Some c)
        | None => Success None
        end ;;
      let filtered_labels :=
        filter (fun l =>
                  match cultivar_filter with
                  | Some c => String.eqb (Label.cultivar l) c
                  | None => true
                  end)
          (filter (fun l =>
                     match client_filter with
                     | Some c => String.eqb (Label.client_name l) c
                     | None => true
                     end) labels) in
      delete_label_id <- selectbox "Select Label Batch to Delete"
                           (map Label.id filtered_labels) delete_label_id ;;
      Success (delete_label s delete_label_id)
  end.

(** *** Page layout of [generate_label_pdf] *)

(** The text lines of one label, top to bottom. *)
Inductive LabelLine : Type :=
| CultivarLine (cultivar : string)
| ClientLine (client_name : string)
| OrderDateLine (order_date : date)
| InitDateLine (initiation_date : date)
| StagesLine (stages : string)
| ExplantsLine (num_explants : Z)
| PathogensLine (pathogens : option string).

Definition label_lines (label_data : LabelData.t) : list LabelLine :=
  (if LabelData.include_cultivar label_data
   then [CultivarLine (substring 0 25 (LabelData.cultivar label_data))] else [])
  ++ (if LabelData.include_client label_data
      then [ClientLine (substring 0 20 (LabelData.client_name label_data))]
      else [])
  ++ (if LabelData.include_order_date label_data
      then [OrderDateLine (LabelData.order_date label_data)] else [])
  ++ (if LabelData.include_init_date label_data
      then [InitDateLine (LabelData.initiation_date label_data)] else [])
  ++ (if LabelData.include_stages label_data
      then [StagesLine (substring 0 30 (LabelData.stages label_data))] else [])
  ++ (if LabelData.include_explants label_data
      then [ExplantsLine (LabelData.num_explants label_data)] else [])
  ++ (if LabelData.include_pathogens label_data
      then [PathogensLine
              match LabelData.pathogen_status label_data with
              | Some p => if String.eqb p EmptyString then None
                          else Some (substring 0 35 p)
              | None => None
              end]
      else []).

(** A label drawn on the canvas: the page ([showPage] calls so far), its
    grid cell and its text. *)
Record Drawn : Type := mk_drawn {
  page : Z;
  row : Z;
  col : Z;
  lines : list LabelLine
}.

(** The loop over [enumerate(labels_data)]; [label_idx] is the index of
    the head of the list and [pages] the number of [showPage] calls made. *)
Fixpoint draw_labels (labels_per_row labels_per_col label_idx pages : Z)
    (labels_data : list LabelData.t) : list Drawn :=
  match labels_data with
  | [] => []
  | label_data :: rest =>
      let labels_per_page := labels_per_row * labels_per_col in
      let page_label_idx := label_idx mod labels_per_page in
      let row := page_label_idx / labels_per_row in
      let col := page_label_idx mod labels_per_row in
      let pages :=
        if (label_idx >? 0) && (page_label_idx =? 0) then pages + 1 else pages in
      mk_drawn pages row col (label_lines label_data)
      :: draw_labels labels_per_row labels_per_col (label_idx + 1) pages rest
  end.

Definition generate_label_pdf (labels_data : list LabelData.t)
    (labels_per_row labels_per_col : Z) : list Drawn :=
  draw_labels labels_per_row labels_per_col 0 0 labels_data.

(** ** Every write path of the application *)

(** One accepted user action of any page: those of [step] and the remaining
    edit, delete, delivery and label actions. *)
Inductive action : Store -> Store -> Prop :=
| act_step s s' : step s s' -> action s s'
| act_edit_order s order_id client_name cultivar num_plants delivery_quantity
    plant_size order_date is_recurring notes s' :
    edit_order_form s order_id client_name cultivar num_plants
      delivery_quantity plant_size order_date is_recurring notes = Success s' ->
    action s s'
| act_delete_batch s batch_id s' :
    delete_batch_button s batch_id = Success s' -> action s s'
| act_edit_transfer s transfer_id batch_id parent_transfer_id explants_in
    explants_out new_media transfer_date multiplication_occurred hormones
    additional_elements notes s' :
    edit_transfer_form s transfer_id batch_id parent_transfer_id explants_in
      explants_out new_media transfer_date multiplication_occurred hormones
      additional_elements notes = Success s' ->
    action s s'
| act_delete_transfer s transfer_id s' :
    delete_transfer_button s transfer_id = Success s' -> action s s'
| act_delete_rooting s record_id s' :
    delete_rooting_button s record_id = Success s' -> action s s'
| act_record_delivery s now order_id batch_id num_delivered delivery_date
    delivery_method notes s' record_id :
    delivery_form s now order_id batch_id num_delivered delivery_date
      delivery_method notes = Success (s', record_id) ->
    action s s'
| act_edit_delivery s record_id order_id batch_id num_delivered delivery_date
    delivery_method notes s' :
    edit_delivery_form s record_id order_id batch_id num_delivered
      delivery_date delivery_method notes = Success s' ->
    action s s'
| act_delete_delivery s record_id s' :
    delete_delivery_button s record_id = Success s' -> action s s'
| act_generate_labels s now barcode_available label_uuid selected_cultivar
    num_labels start_label_number initiation_date num_explants selected_stages
    custom_stage include_detected manual_pathogens options code_type
    labels_per_row label_notes s' label_id labels_data :
    label_generation_form s now barcode_available label_uuid selected_cultivar
      num_labels start_label_number initiation_date num_explants
      selected_stages custom_stage include_detected manual_pathogens options
      code_type labels_per_row label_notes
    = Success (s', label_id, labels_data) ->
    action s s'
| act_delete_labels s client_filter cultivar_filter label_id s' :
    delete_label_button s client_filter cultivar_filter label_id = Success s' ->
    action s s'.

(** [evolves s s']: the application takes the database from [s] to [s'] in
    any number of accepted actions. *)
Inductive evolves : Store -> Store -> Prop :=
| evolves_refl s : evolves s s
| evolves_step s s1 s2 : evolves s s1 -> action s1 s2 -> evolves s s2.

(** The databases the application produces from a fresh file. *)
Definition attainable (s : Store) : Prop := evolves empty_store s.

(** ** What the write paths keep true of the database *)

(** [INTEGER PRIMARY KEY AUTOINCREMENT]: ids are distinct, start at 1 and
    stay at or below the counter. *)
Definition primary_key {R : Type} (id : R -> Z) (t : table R) : Prop :=
  NoDup (map id (rows t)) /\ 0 <= seq t
  /\ Forall (fun r => 1 <= id r <= seq t) (rows t).

Definition order_ok (o : Order.t) : Prop :=
  1 <= Order.num_plants o
  /\ (exists q, Order.delivery_quantity o = Some q /\ 0 <= q)
  /\ (Order.completed o = 0 /\ Order.completion_date o = None
      \/ Order.completed o = 1 /\ Order.completion_date o <> None).

Definition batch_ok (b : Batch.t) : Prop := 1 <= Batch.num_explants b.

Definition infection_ok (batches : table Batch.t) (r : Infection.t) : Prop :=
  In (Infection.batch_id r) (map Batch.id (rows batches))
  /\ exists num_lost num_affected,
       Infection.num_lost r = Some num_lost
       /\ Infection.num_affected r = Some num_affected
       /\ 0 <= num_lost /\ 0 <= num_affected
       /\ Infection.num_infected r = num_lost + num_affected.

Definition transfer_ok (batches : table Batch.t) (t : Transfer.t) : Prop :=
  In (Transfer.batch_id t) (map Batch.id (rows batches))
  /\ Transfer.parent_transfer_id t <> Some (Transfer.id t)
  /\ 1 <= Transfer.explants_in t /\ 1 <= Transfer.explants_out t.

Definition rooting_ok (r : Rooting.t) : Prop :=
  1 <= Rooting.num_placed r
  /\ match Rooting.num_rooted r with
     | Some num_rooted => 0 <= num_rooted
     | None => True
     end.

Definition delivery_ok (r : Delivery.t) : Prop :=
  1 <= Delivery.num_delivered r /\ Delivery.order_id r <> None.

Definition label_ok (l : Label.t) : Prop :=
  exists num_labels, Label.num_labels l = Some num_labels /\ 1 <= num_labels <= 500.

Record consistent (s : Store) : Prop := mk_consistent {
  ok_order_keys : primary_key Order.id (orders s);
  ok_batch_keys : primary_key Batch.id (explant_batches s);
  ok_infection_keys : primary_key Infection.id (infection_records s);
  ok_transfer_keys : primary_key Transfer.id (transfer_records s);
  ok_rooting_keys : primary_key Rooting.id (rooting_records s);
  ok_delivery_keys : primary_key Delivery.id (delivery_records s);
  ok_label_keys : primary_key Label.id (labels s);
  ok_label_uuids : NoDup (map Label.label_uuid (rows (labels s)));
  ok_orders : Forall order_ok (rows (orders s));
  ok_batches : Forall batch_ok (rows (explant_batches s));
  ok_infections :
    Forall (infection_ok (explant_batches s)) (rows (infection_records s));
  ok_transfers :
    Forall (transfer_ok (explant_batches s)) (rows (transfer_records s));
  ok_rootings : Forall rooting_ok (rows (rooting_records s));
  ok_deliveries : Forall delivery_ok (rows (delivery_records s));
  ok_labels : Forall label_ok (rows (labels s))
}.

(** The database operation behind an accepted action, with what the form
    has checked of its arguments. *)
Inductive db_effect (s s' : Store) : Prop :=
| eff_add_order now c cv np ps od dq rec notes :
    1 <= np -> 0 <= dq ->
    s' = fst (add_order s now c cv np ps od dq rec notes) -> db_effect s s'
| eff_update_order oid c cv np ps od dq rec notes :
    1 <= np -> 0 <= dq ->
    s' = update_order s oid c cv np ps od dq rec notes -> db_effect s s'
| eff_delete_order oid :
    s' = delete_order s oid -> db_effect s s'
| eff_complete_order oid d :
    s' = mark_order_completed s oid d -> db_effect s s'
| eff_reopen_order oid :
    s' = mark_order_incomplete s oid -> db_effect s s'
| eff_add_batch now oid name n et mt h a d notes ps :
    1 <= n ->
    (forall o, oid = Some o -> In o (map Order.id (rows (orders s)))) ->
    s' = fst (add_explant_batch s now oid name n et mt h a d notes ps) ->
    db_effect s s'
| eff_update_batch b oid name n et mt h a d notes ps :
    1 <= n ->
    (forall o, oid = Some o -> In o (map Order.id (rows (orders s)))) ->
    s' = update_explant_batch s b oid name n et mt h a d notes ps ->
    db_effect s s'
| eff_delete_batch b :
    s' = delete_explant_batch s b -> db_effect s s'
| eff_add_contamination now b nl na ty d notes :
    In b (map Batch.id (rows (explant_batches s))) -> 0 <= nl -> 0 <= na ->
    s' = fst (add_infection_record s now b nl na ty d notes) -> db_effect s s'
| eff_update_contamination rid b nl na ty d notes :
    In b (map Batch.id (rows (explant_batches s))) -> 0 <= nl -> 0 <= na ->
    s' = update_infection_record s rid b nl na ty d notes -> db_effect s s'
| eff_delete_contamination rid :
    s' = delete_infection_record s rid -> db_effect s s'
| eff_add_transfer now b par d ein eout media h a mult notes :
    In b (map Batch.id (rows (explant_batches s))) ->
    (forall p, par = Some p ->
               In p (map Transfer.id (rows (transfer_records s)))) ->
    1 <= ein -> 1 <= eout ->
    s' = fst (add_transfer_record s now b par d ein eout media h a mult notes) ->
    db_effect s s'
| eff_update_transfer tid b par d ein eout media h a mult notes :
    In b (map Batch.id (rows (explant_batches s))) ->
    (forall p, par = Some p ->
               p <> tid /\ In p (map Transfer.id (rows (transfer_records s)))) ->
    1 <= ein -> 1 <= eout ->
    s' = update_transfer_record s tid b par d ein eout media h a mult notes ->
    db_effect s s'
| eff_delete_transfer tid :
    s' = delete_transfer_record s tid -> db_effect s s'
| eff_add_rooting now tid b np d nr rd notes :
    1 <= np -> (forall n, nr = Some n -> 0 <= n) ->
    (exists t, In t (rows (transfer_records s))
               /\ tid = Some (Transfer.id t) /\ Transfer.batch_id t = b) ->
    s' = fst (add_rooting_record s now tid b np d nr rd notes) -> db_effect s s'
| eff_update_rooting rid nr rd :
    0 <= nr ->
    s' = update_rooting_record s rid (Some nr) rd -> db_effect s s'
| eff_update_rooting_full rid tid b np d nr rd notes :
    1 <= np -> (forall n, nr = Some n -> 0 <= n) ->
    (forall t, tid = Some t ->
               In t (map Transfer.id (rows (transfer_records s)))) ->
    In b (map Batch.id (rows (explant_batches s))) ->
    s' = update_rooting_record_full s rid tid b np d nr rd notes ->
    db_effect s s'
| eff_delete_rooting rid :
    s' = delete_rooting_record s rid -> db_effect s s'
| eff_add_delivery now oid b n d m notes :
    1 <= n ->
    In oid (map Order.id (rows (orders s))) ->
    (forall bid, b = Some bid ->
                 In bid (map Batch.id (rows (explant_batches s)))) ->
    s' = fst (add_delivery_record s now (Some oid) b n d m notes) ->
    db_effect s s'
| eff_update_delivery rid oid b n d m notes :
    1 <= n ->
    In oid (map Order.id (rows (orders s))) ->
    (forall bid, b = Some bid ->
                 In bid (map Batch.id (rows (explant_batches s)))) ->
    s' = update_delivery_record s rid (Some oid) b n d m notes -> db_effect s s'
| eff_delete_delivery rid :
    s' = delete_delivery_record s rid -> db_effect s s'
| eff_add_label now oid uuid c cv od d st ps n notes lid :
    1 <= n <= 500 ->
    In oid (map Order.id (rows (orders s))) ->
    add_label s now oid uuid c cv od d st ps n notes = Success (s', lid) ->
    db_effect s s'
| eff_delete_label lid :
    s' = delete_label s lid -> db_effect s s'.

(** ** A sample run of the application *)

(** The store a successful form leaves, or the store as it was. *)
Definition after {A : Type} (s : Store) (o : outcome (Store * A)) : Store :=
  match o with
  | Success (s', _) => s'
  | _ => s
  end.

Definition all_lines : LabelOptions :=
  mk_label_options true true true true true true true.

(** One order taken through the pages: a batch of 40 carrying a pathogen, a
    contamination record (5 lost, 2 affected), a transfer of 30 in and 60
    out onto rooting media, 25 of them placed, 20 plants delivered and
    three labels printed. *)
Definition store_order1 : Store :=
  after empty_store
    (new_order_form empty_store 0 "Acme" "Cascade" 10 5 "Clones" 5 false
       EmptyString).

Definition store_batch1 : Store :=
  after store_order1
    (new_batch_form store_order1 1 (Some 1) "B-1" 40 "Node" "50% MS" 6
       EmptyString EmptyString EmptyString (Some "Hop Latent Viroid")).

Definition store_lost5 : Store :=
  after store_batch1
    (infection_form store_batch1 2 1 5 2 "Fungal" 9 EmptyString).

Definition store_transfer1 : Store :=
  after store_lost5
    (transfer_form store_lost5 3 1 None 30 60 "Rooting Media" 20 true
       EmptyString EmptyString EmptyString).

Definition store_rooting1 : Store :=
  after store_transfer1
    (rooting_form store_transfer1 4 1 25 30 0 None EmptyString).

Definition store_delivery1 : Store :=
  after store_rooting1
    (delivery_form store_rooting1 5 1 (Some 1) 20 60 "Pickup" EmptyString).

Definition store_lifecycle : Store :=
  match label_generation_form store_delivery1 6 true "uuid-1" "Cascade" 3 1 6
          4 ["Rooting"] EmptyString true EmptyString all_lines "QR Code" 3
          EmptyString with
  | Success (s', _, _) => s'
  | _ => store_delivery1
  end.

(** The same after the order is deleted and a new one is entered. *)
Definition store_order1_deleted : Store :=
  match delete_order_button store_lifecycle 1 with
  | Success s' => s'
  | _ => store_lifecycle
  end.

Definition store_order2 : Store :=
  after store_order1_deleted
    (new_order_form store_order1_deleted 7 "Birch" "Centennial" 20 10 "Teens"
       70 false EmptyString).

(** ** Ids over time *)

(** From table [t] to table [t']: the counter has not gone down, and an id
    of [t'] is an id of [t] or lies above [t]'s counter. *)
Definition ids_grow {R : Type} (id : R -> Z) (t t' : table R) : Prop :=
  seq t <= seq t'
  /\ forall i, In i (map id (rows t')) -> In i (map id (rows t)) \/ seq t < i.

(** An id that has been handed out and whose row is gone. *)
Definition retired {R : Type} (id : R -> Z) (t : table R) (i : Z) : Prop :=
  i <= seq t /\ ~ In i (map id (rows t)).



(** ** Statistics page *)

(** [df[col].isin(ids)]. *)
Definition isin (v : Z) (ids : list Z) : bool := existsb (Z.eqb v) ids.

(** The frames both tabs work on. Without "Include Archived Orders" the
    batches are those linked to an order that is not completed or to no
    order, and, when any batch is left, the other frames are cut down to
    the records of these batches. *)
Definition statistics_frames (s : Store) (include_archived : bool)
    : list Batch.t * list Infection.t * list Transfer.t * list Rooting.t :=
  let orders := get_orders s in
  let batches := get_explant_batches s None in
  let infections := get_infection_records s None in
  let transfers := get_transfer_records s None in
  let rooting_records := get_rooting_records s None None in
  if include_archived then (batches, infections, transfers, rooting_records)
  else
    let active_order_ids :=
      map Order.id (filter (fun o => Order.completed o =? 0) orders) in
    let batches :=
      filter (fun b =>
                match Batch.order_id b with
                | Some order_id => isin order_id active_order_ids
                | None => true
                end) batches in
    match batches with
    | [] => (batches, infections, transfers, rooting_records)
    | _ :: _ =>
        let active_batch_ids := map Batch.id batches in
        (batches,
         filter (fun r => isin (Infection.batch_id r) active_batch_ids) infections,
         filter (fun r => isin (Transfer.batch_id r) active_batch_ids) transfers,
         filter (fun r => isin (Rooting.batch_id r) active_batch_ids)
                rooting_records)
    end.

(** *** "Total Explants Over Time" *)

(** The [events] list: a batch adds its explants on its initiation date, a
    contamination record takes [num_infected] away on its identification
    date, a transfer adds [explants_out - explants_in] on its date. *)
Definition explant_events (batches : list Batch.t) (infections : list Infection.t)
    (transfers : list Transfer.t) : list (date * Z) :=
  map (fun batch => (Batch.initiation_date batch, Batch.num_explants batch))
      batches
  ++ map (fun infection =>
            (Infection.identification_date infection,
             - Infection.num_infected infection)) infections
  ++ map (fun transfer =>
            (Transfer.transfer_date transfer,
             Transfer.explants_out transfer - Transfer.explants_in transfer))
         transfers.

(** One event added to the per-day sums, kept in ascending date order. *)
Fixpoint add_change (d : date) (change : Z) (daily : list (date * Z))
    : list (date * Z) :=
  match daily with
  | [] => [(d, change)]
  | (d', c') :: rest =>
      if d <? d' then (d, change) :: daily
      else if d =? d' then (d', c' + change) :: rest
      else (d', c') :: add_change d change rest
  end.

(** [groupby(date).agg({'change': 'sum'})]: one row per day, in date order. *)
Definition groupby_sum (events : list (date * Z)) : list (date * Z) :=
  fold_right (fun e daily => add_change (fst e) (snd e) daily) [] events.

(** [cumsum()] of the second column. *)
Fixpoint cumsum (acc : Z) (l : list (date * Z)) : list (date * Z) :=
  match l with
  | [] => []
  | (d, c) :: rest => (d, acc + c) :: cumsum (acc + c) rest
  end.

(** [pd.date_range(start, end, freq='D')]. *)
Definition date_range (start stop : date) : list date :=
  map (fun k => start + Z.of_nat k) (List.seq 0 (Z.to_nat (stop - start + 1))).

(** The left merge of the days with the daily totals, then [ffill()] and
    [fillna(0)]: a day without a row of its own carries the last total. *)
Fixpoint ffill (carry : option Z) (days : list date) (totals : list (date * Z))
    : list (date * Z) :=
  match days with
  | [] => []
  | day :: rest =>
      let v :=
        match find (fun e => fst e =? day) totals with
        | Some e => Some (snd e)
        | None => carry
        end in
      (day, coalesce v 0) :: ffill v rest totals
  end.

(** [Series.min()] of a non-empty column of dates. *)
Definition min_date (d : date) (ds : list date) : date := fold_right Z.min d ds.

(** The chart: for every day from the first event to [today], the running
    total of the changes; [None] when the page shows no chart. *)
Definition total_explants_over_time (s : Store) (include_archived : bool)
    (today : date) : option (list (date * Z)) :=
  let '(batches, infections, transfers, _) :=
    statistics_frames s include_archived in
  match batches with
  | [] => None
  | _ :: _ =>
      match explant_events batches infections transfers with
      | [] => None
      | events =>
          let daily_changes := groupby_sum events in
          let totals := cumsum 0 daily_changes in
          match map fst daily_changes with
          | [] => None
          | d :: ds => Some (ffill None (date_range (min_date d ds) today) totals)
          end
      end
  end.

(** The sum of the changes of the events up to and including day [D]. *)
Definition change_until (D : date) (events : list (date * Z)) : Z :=
  series_sum (map snd (filter (fun e => fst e <=? D) events)).

(** Dates strictly ascending. *)
Fixpoint ascending (l : list (date * Z)) : Prop :=
  match l with
  | [] => True
  | (d, _) :: rest => Forall (fun e => d < fst e) rest /\ ascending rest
  end.

(** *** "Per-Cultivar Statistics" *)

(** The integer columns of one row of [cultivar_stats]. *)
Module CultivarStats.
Record t : Type := mk {
  Cultivar : string;
  Total_Explants : Z;
  Total_Placed_in_Rooting : Z;
  Total_Rooted : Z;
  Total_Lost : Z
}.
End CultivarStats.

(** "Total Lost" of one cultivar: the sum of [num_lost] with NULL as 0 when
    any record of the cultivar has a [num_lost], else the sum of
    [num_infected]. *)
Definition cultivar_total_lost (cultivar_infections : list Infection.t) : Z :=
  match cultivar_infections with
  | [] => 0
  | _ :: _ =>
      if existsb (fun r => match Infection.num_lost r with
                           | Some _ => true
                           | None => false
                           end) cultivar_infections then
        series_sum (map (fun r => coalesce (Infection.num_lost r) 0)
                        cultivar_infections)
      else series_sum (map Infection.num_infected cultivar_infections)
  end.

(** The rows of the per-cultivar table; [None] when the tab shows none. *)
Definition per_cultivar_statistics (s : Store) (include_archived : bool)
    : option (list CultivarStats.t) :=
  let orders := get_orders s in
  let '(batches, infections, transfers, rooting_records) :=
    statistics_frames s include_archived in
  match orders, batches with
  | _ :: _, _ :: _ =>
      let batches_with_orders := batches_with_orders_of batches orders in
      Some
        (map (fun cultivar =>
                let cultivar_batches :=
                  filter (fun row => String.eqb (Order.cultivar (snd row)) cultivar)
                         batches_with_orders in
                let cultivar_batch_ids :=
                  map (fun row => Batch.id (fst row)) cultivar_batches in
                let cultivar_infections :=
                  filter (fun r => isin (Infection.batch_id r) cultivar_batch_ids)
                         infections in
                let cultivar_rooting :=
                  filter (fun r => isin (Rooting.batch_id r) cultivar_batch_ids)
                         rooting_records in
                CultivarStats.mk cultivar
                  (series_sum (map (fun row => Batch.num_explants (fst row))
                                   cultivar_batches))
                  (series_sum (map Rooting.num_placed cultivar_rooting))
                  (series_sum (map (fun r => coalesce (Rooting.num_rooted r) 0)
                                   cultivar_rooting))
                  (cultivar_total_lost cultivar_infections))
             (unique (map (fun row => Order.cultivar (snd row))
                          batches_with_orders)))
  | _, _ => None
  end.

(** The batches the per-cultivar table files under a cultivar. *)
Definition cultivar_batches_of (s : Store) (include_archived : bool)
    (cultivar : string) : list Batch.t :=
  map fst
    (filter (fun row => String.eqb (Order.cultivar (snd row)) cultivar)
       (batches_with_orders_of
          (fst (fst (fst (statistics_frames s include_archived))))
          (get_orders s))).

(** ** References to rows *)

(** An id the table's counter has reached. *)
Definition issued {R : Type} (t : table R) (i : Z) : Prop := 1 <= i <= seq t.

(** Every reference held in a row points at an id that has been handed
    out: the order of a batch, delivery or label batch, the batch of a
    delivery or rooting record, the transfer of a rooting record and the
    parent of a transfer. *)
Record links_issued (s : Store) : Prop := mk_links_issued {
  link_batch_order :
    Forall (fun b => forall o, Batch.order_id b = Some o -> issued (orders s) o)
           (rows (explant_batches s));
  link_transfer_parent :
    Forall (fun t => forall p, Transfer.parent_transfer_id t = Some p ->
                               issued (transfer_records s) p)
           (rows (transfer_records s));
  link_rooting :
    Forall (fun r => issued (explant_batches s) (Rooting.batch_id r)
                     /\ forall t, Rooting.transfer_id r = Some t ->
                                  issued (transfer_records s) t)
           (rows (rooting_records s));
  link_delivery :
    Forall (fun d => (forall o, Delivery.order_id d = Some o ->
                                issued (orders s) o)
                     /\ forall b, Delivery.batch_id d = Some b ->
                                  issued (explant_batches s) b)
           (rows (delivery_records s));
  link_label :
    Forall (fun l => issued (orders s) (Label.order_id l)) (rows (labels s))
}.

(** ** Properties of the contamination ledger *)

Lemma sql_sum_app (l1 l2 : list (option Z)) :
  coalesce (sql_sum (l1 ++ l2)) 0
  = coalesce (sql_sum l1) 0 + coalesce (sql_sum l2) 0.
Proof.
  induction l1 as [|[v|] l1 IH]; simpl.
  - reflexivity.
  - rewrite IH. lia.
  - exact IH.
Qed.

Lemma series_sum_app (l1 l2 : list Z) :
  series_sum (l1 ++ l2) = series_sum l1 + series_sum l2.
Proof.
  induction l1 as [|v l1 IH]; simpl; [reflexivity | rewrite IH; lia].
Qed.

Lemma sql_sum_all_some (f : Infection.t -> Z) (l : list Infection.t) :
  coalesce (sql_sum (map (fun r => Some (f r)) l)) 0 = series_sum (map f l).
Proof.
  induction l as [|r l IH]; simpl.
  - reflexivity.
  - rewrite IH. reflexivity.
Qed.

Lemma lost_or_infected_contribution (r : Infection.t) :
  lost_or_infected r = Some (contribution r).
Proof. unfold lost_or_infected, contribution. destruct (Infection.num_lost r); reflexivity. Qed.

Lemma total_infections_as_sum (s : Store) (batch_id : Z) :
  get_total_infections_for_batch s batch_id
  = series_sum (map contribution
                  (filter (fun r => Infection.batch_id r =? batch_id)
                          (rows (infection_records s)))).
Proof.
  unfold get_total_infections_for_batch.
  induction (filter _ _) as [|r l IH]; simpl.
  - reflexivity.
  - rewrite lost_or_infected_contribution. simpl. rewrite IH. reflexivity.
Qed.

(** Adding a record for [batch_id] raises that batch's total by the
    record's [num_lost] and leaves every other batch's total alone. *)
Lemma total_after_add_infection (s : Store) (now batch_id num_lost
    num_affected : Z) (ty : string) (d : date) (notes : string) (b : Z) :
  get_total_infections_for_batch
    (fst (add_infection_record s now batch_id num_lost num_affected ty d notes)) b
  = get_total_infections_for_batch s b
    + (if batch_id =? b then num_lost else 0).
Proof.
  rewrite !total_infections_as_sum. unfold add_infection_record. simpl.
  rewrite filter_app, map_app, series_sum_app. simpl.
  destruct (batch_id =? b); simpl; unfold contribution; simpl; lia.
Qed.

Lemma batches_after_add_infection (s : Store) (now batch_id num_lost
    num_affected : Z) (ty : string) (d : date) (notes : string) :
  explant_batches
    (fst (add_infection_record s now batch_id num_lost num_affected ty d notes))
  = explant_batches s.
Proof. reflexivity. Qed.

Lemma healthy_after_add_infection (s : Store) (now batch_id num_lost
    num_affected : Z) (ty : string) (d : date) (notes : string) (h : Z) :
  healthy_remaining s batch_id = Some h ->
  healthy_remaining
    (fst (add_infection_record s now batch_id num_lost num_affected ty d notes))
    batch_id = Some (h - num_lost).
Proof.
  unfold healthy_remaining, get_explant_batches.
  rewrite batches_after_add_infection. simpl truthy. cbv iota.
  destruct (filter _ _) as [|bi l]; [discriminate|].
  intros [= <-]. rewrite total_after_add_infection, Z.eqb_refl.
  f_equal. lia.
Qed.

(** *** Inversion of widget results *)

Lemma number_input_inv (label : string) (lo hi : option Z) (v w : Z) :
  number_input label lo hi v = Success w ->
  w = v /\ in_bounds lo hi v = true.
Proof.
  unfold number_input. destruct (in_bounds lo hi v); [|discriminate].
  intros [= <-]. split; reflexivity.
Qed.

Lemma selectbox_inv (label : string) (options : list Z) (v w : Z) :
  selectbox label options v = Success w -> w = v /\ In v options.
Proof.
  unfold selectbox. destruct (existsb _ _) eqn:E; [|discriminate].
  intros [= <-]. split; [reflexivity|].
  apply existsb_exists in E as (x & Hin & Hx). apply Z.eqb_eq in Hx. now subst.
Qed.

Lemma selectbox_str_inv (label : string) (options : list string) (v w : string) :
  selectbox_str label options v = Success w -> w = v /\ In v options.
Proof.
  unfold selectbox_str. destruct (existsb _ _) eqn:E; [|discriminate].
  intros [= <-]. split; [reflexivity|].
  apply existsb_exists in E as (x & Hin & Hx). apply String.eqb_eq in Hx. now subst.
Qed.

Lemma selectbox_offered (label : string) (options : list Z) (v : Z) :
  In v options -> selectbox label options v = Success v.
Proof.
  intros Hin. unfold selectbox.
  replace (existsb (Z.eqb v) options) with true; [reflexivity|].
  symmetry. apply existsb_exists. exists v. split; [assumption | apply Z.eqb_refl].
Qed.

Lemma iloc0_inv {R : Type} (df : list R) (r : R) :
  iloc0 df = Success r -> exists tl, df = r :: tl.
Proof. destruct df as [|x tl]; [discriminate|]. intros [= <-]. now exists tl. Qed.

(** Splits a successful [x <- m ;; k] into the success of [m] and the rest. *)
Lemma bind_success {A B : Type} (m : outcome A) (k : A -> outcome B) (b : B) :
  bind m k = Success b -> exists a, m = Success a /\ k a = Success b.
Proof. destruct m; simpl; try discriminate. intros H. eauto. Qed.

Tactic Notation "bind_inv" hyp(H) :=
  let a := fresh "a" in
  let Hm := fresh "Hm" in
  apply bind_success in H as (a & Hm & H).

Tactic Notation "bind_inv" hyp(H) "as" ident(a) :=
  let Hm := fresh "Hm" in
  apply bind_success in H as (a & Hm & H).

Lemma filter_head_in {R : Type} (p : R -> bool) (l : list R) (x : R) (tl : list R) :
  filter p l = x :: tl -> In x l /\ p x = true.
Proof.
  intros H. apply filter_In. rewrite H. now left.
Qed.

(** *** The "Record Contamination" form *)

Lemma infection_form_success_inv (s : Store) (now b nl na : Z) (ty : string)
    (d : date) (notes : string) (res : Store * Z) :
  infection_form s now b nl na ty d notes = Success res ->
  exists h, healthy_remaining s b = Some h /\ nl <= h
            /\ res = add_infection_record s now b nl na ty d notes.
Proof.
  unfold infection_form, healthy_remaining.
  destruct (get_explant_batches s None) as [|b0 bs] eqn:Hb; [discriminate|].
  intros H.
  bind_inv H. apply selectbox_inv in Hm as [-> _].
  bind_inv H. apply iloc0_inv in Hm as [tl Htl]. rewrite Htl.
  bind_inv H. apply number_input_inv in Hm as [-> _].
  bind_inv H. apply number_input_inv in Hm as [-> _].
  bind_inv H. apply selectbox_str_inv in Hm as [-> _].
  unfold infection_form_submitted in H.
  destruct ((nl =? 0) && (na =? 0)); [discriminate|].
  destruct (_ >=? nl) eqn:Hge; [|discriminate].
  injection H as <-. eexists. split; [reflexivity|]. split; [|reflexivity].
  apply Z.geb_le in Hge. exact Hge.
Qed.

Lemma infection_form_accepts (s : Store) (now b nl na h : Z) (ty : string)
    (d : date) (notes : string) :
  healthy_remaining s b = Some h ->
  0 <= nl <= h -> 0 <= na -> nl + na <> 0 ->
  ty = "Bacterial" \/ ty = "Fungal" ->
  infection_form s now b nl na ty d notes
  = Success (add_infection_record s now b nl na ty d notes).
Proof.
  unfold infection_form, healthy_remaining.
  intros Hh Hnl Hna Hnz Hty.
  destruct (filter _ _) as [|bi tl] eqn:Hf; [discriminate|].
  injection Hh as Hh.
  destruct (filter_head_in _ _ _ _ Hf) as [Hin Hid]. apply Z.eqb_eq in Hid.
  destruct (get_explant_batches s None) as [|b0 bs] eqn:Hb; [contradiction|].
  rewrite selectbox_offered by (rewrite <- Hid; now apply in_map).
  cbn [bind]. rewrite Hf. cbn [iloc0 bind]. rewrite Hh.
  unfold number_input, in_bounds.
  replace (0 <=? nl) with true by (symmetry; apply Z.leb_le; lia).
  replace (nl <=? (if h >? 0 then h else 0)) with true
    by (symmetry; apply Z.leb_le; destruct (h >? 0) eqn:E; [lia|];
        rewrite Z.gtb_ltb in E; apply Z.ltb_ge in E; lia).
  replace (0 <=? na) with true by (symmetry; apply Z.leb_le; lia).
  cbn [andb bind].
  replace (selectbox_str _ _ ty) with (@Success string ty)
    by (destruct Hty as [-> | ->]; reflexivity).
  cbn [bind]. unfold infection_form_submitted.
  replace ((nl =? 0) && (na =? 0)) with false
    by (symmetry; apply andb_false_iff;
        destruct (Z.eq_dec nl 0); [right | left]; apply Z.eqb_neq; lia).
  replace (h >=? nl) with true by (symmetry; apply Z.geb_le; lia).
  reflexivity.
Qed.

Lemma total_split (s : Store) (b : Z) (l1 l2 : list Infection.t) (r : Infection.t) :
  rows (infection_records s) = l1 ++ r :: l2 ->
  Infection.batch_id r = b ->
  get_total_infections_for_batch s b
  = get_total_infections_for_batch
      (with_infection_records s (mk_table (l1 ++ l2) (seq (infection_records s)))) b
    + contribution r.
Proof.
  intros Hrows Hb. rewrite !total_infections_as_sum. simpl. rewrite Hrows.
  rewrite !filter_app. simpl. rewrite Hb, Z.eqb_refl.
  rewrite !map_app, !series_sum_app. simpl. lia.
Qed.

(** C3. [get_total_infections_for_batch] is the sum, over the batch's
    contamination records, of [num_lost], or of the legacy [num_infected]
    where [num_lost] is NULL; it is 0 for a batch without records; and a
    record with NULL [num_lost] and [num_infected = 12] accounts for exactly
    12 of the total. *)
Theorem total_lost_legacy_fallback (s : Store) (b : Z) :
  let recs := filter (fun r => Infection.batch_id r =? b)
                     (rows (infection_records s)) in
  get_total_infections_for_batch s b = series_sum (map contribution recs)
  /\ (forall r v, Infection.num_lost r = Some v -> contribution r = v)
  /\ (forall r, Infection.num_lost r = None ->
                contribution r = Infection.num_infected r)
  /\ (recs = [] -> get_total_infections_for_batch s b = 0)
  /\ (forall r l1 l2,
        rows (infection_records s) = l1 ++ r :: l2 ->
        Infection.batch_id r = b ->
        Infection.num_lost r = None ->
        Infection.num_infected r = 12 ->
        get_total_infections_for_batch s b
        = get_total_infections_for_batch
            (with_infection_records s
               (mk_table (l1 ++ l2) (seq (infection_records s)))) b
          + 12).
Proof.
  cbv zeta. repeat split.
  - apply total_infections_as_sum.
  - intros r v H. unfold contribution. now rewrite H.
  - intros r H. unfold contribution. now rewrite H.
  - intros H. rewrite total_infections_as_sum, H. reflexivity.
  - intros r l1 l2 Hrows Hb Hnull H12.
    rewrite (total_split s b l1 l2 r Hrows Hb).
    unfold contribution. rewrite Hnull, H12. reflexivity.
Qed.

Lemma total_lost_legacy_fallback_witness :
  get_total_infections_for_batch store_legacy 1 = 0 + 12
  /\ get_total_infections_for_batch store_batch100 1 = 0.
Proof.
  destruct (total_lost_legacy_fallback store_legacy 1)
    as (_ & _ & _ & _ & Hlegacy).
  destruct (total_lost_legacy_fallback store_batch100 1)
    as (_ & _ & _ & Hempty & _).
  split.
  - exact (Hlegacy legacy_row [] [] eq_refl eq_refl eq_refl eq_refl).
  - exact (Hempty eq_refl).
Defined.

(** C1. On the "Record Contamination" form a record with neither lost nor
    affected explants is rejected, a record whose [num_lost] exceeds the
    batch's remaining healthy count is rejected, every accepted record
    leaves the remaining healthy count non-negative, and a loss within the
    remaining count is accepted and deducted (so with 100 explants and 30
    lost, 80 is refused and 70 brings the count to 0). *)
Theorem contamination_record_guard (s : Store) (now b nl na h : Z)
    (ty : string) (d : date) (notes : string) :
  healthy_remaining s b = Some h ->
  let r := infection_form s now b nl na ty d notes in
  (nl = 0 /\ na = 0 ->
     accepted r = false
     /\ infection_form_submitted s now b h nl na ty d notes
        = Rejected "Please enter at least one explant lost or affected")
  /\ (nl > h ->
     accepted r = false
     /\ accepted (infection_form_submitted s now b h nl na ty d notes) = false)
  /\ (forall s' rid, r = Success (s', rid) ->
        healthy_remaining s' b = Some (h - nl) /\ 0 <= h - nl)
  /\ (0 <= nl <= h -> 0 <= na -> nl + na <> 0 ->
      ty = "Bacterial" \/ ty = "Fungal" ->
      exists s' rid, r = Success (s', rid)
                     /\ healthy_remaining s' b = Some (h - nl)).
Proof.
  intros Hh r.
  assert (Hinv : forall res, r = Success res ->
            nl <= h /\ res = add_infection_record s now b nl na ty d notes).
  { intros res Hres. apply infection_form_success_inv in Hres
      as (h' & Hh' & Hle & Hres). rewrite Hh in Hh'. injection Hh' as <-.
    now split. }
  assert (Hsub : forall res, r = Success res ->
            infection_form_submitted s now b h nl na ty d notes = Success res).
  { intros res Hres. destruct (Hinv res Hres) as [Hle ->].
    unfold r, infection_form, healthy_remaining in *.
    destruct (get_explant_batches s None) as [|b0 bs]; [discriminate|].
    bind_inv Hres. apply selectbox_inv in Hm as [-> _].
    bind_inv Hres. apply iloc0_inv in Hm as [tl Htl]. rewrite Htl in Hh.
    injection Hh as Hh. rewrite Hh in Hres.
    bind_inv Hres. apply number_input_inv in Hm as [-> _].
    bind_inv Hres. apply number_input_inv in Hm as [-> _].
    bind_inv Hres. apply selectbox_str_inv in Hm as [-> _].
    exact Hres. }
  repeat split.
  - destruct r as [res| | |] eqn:Hr; try reflexivity.
    destruct H as [-> ->]. specialize (Hsub res eq_refl). discriminate.
  - destruct H as [-> ->]. reflexivity.
  - destruct r as [res| | |] eqn:Hr; try reflexivity.
    destruct (Hinv res eq_refl) as [Hle _]. lia.
  - unfold infection_form_submitted.
    destruct ((nl =? 0) && (na =? 0)); [reflexivity|].
    replace (h >=? nl) with false; [reflexivity|].
    symmetry. rewrite Z.geb_leb. apply Z.leb_gt. lia.
  - destruct (Hinv _ H) as [_ Hres].
    replace s' with (fst (add_infection_record s now b nl na ty d notes))
      by (now rewrite <- Hres).
    now apply healthy_after_add_infection.
  - destruct (Hinv _ H) as [Hle _]. lia.
  - intros Hnl Hna Hnz Hty.
    exists (fst (add_infection_record s now b nl na ty d notes)),
           (snd (add_infection_record s now b nl na ty d notes)).
    split.
    + unfold r. rewrite (infection_form_accepts s now b nl na h ty d notes)
        by assumption.
      now destruct (add_infection_record s now b nl na ty d notes).
    + now apply healthy_after_add_infection.
Qed.

Lemma contamination_record_guard_witness :
  accepted (infection_form store_lost30 0 1 80 0 "Fungal" 30 EmptyString) = false
  /\ exists s' rid,
       infection_form store_lost30 0 1 70 0 "Fungal" 30 EmptyString = Success (s', rid)
       /\ healthy_remaining s' 1 = Some (70 - 70).
Proof.
  split.
  - apply (contamination_record_guard store_lost30 0 1 80 0 70 "Fungal" 30 EmptyString
             eq_refl).
    reflexivity.
  - apply (contamination_record_guard store_lost30 0 1 70 0 70 "Fungal" 30 EmptyString
             eq_refl).
    + split; discriminate.
    + discriminate.
    + discriminate.
    + now right.
Defined.

(** *** The two "healthy" figures *)

(** The summary's figure deducts the legacy aggregate [num_infected], which
    [add_infection_record] fills with lost plus affected. *)
Lemma batch_summary_healthy (s : Store) (b : Z) (sm : BatchSummary) :
  get_batch_summary s b = Some sm ->
  healthy sm
  = Batch.num_explants (batch sm)
    - series_sum (map Infection.num_infected
                    (filter (fun r => Infection.batch_id r =? b)
                            (rows (infection_records s)))).
Proof.
  unfold get_batch_summary.
  destruct (filter _ (rows (explant_batches s))) as [|bi tl]; [discriminate|].
  intros [= <-]. simpl. now rewrite sql_sum_all_some.
Qed.

(** C2 (violated by [get_batch_summary]). With 100 explants and one
    contamination record of 10 lost and 5 affected, initial count minus the
    sum of [num_lost] is 90; the contamination page computes 90, the batch
    summary of the transfer page reports 85. *)
Theorem batch_summary_healthy_diverges :
  get_total_infections_for_batch store_lost10_affected5 1 = 10
  /\ healthy_remaining store_lost10_affected5 1 = Some (100 - 10)
  /\ option_map healthy (get_batch_summary store_lost10_affected5 1)
     = Some (100 - 15)
  /\ option_map total_infected (get_batch_summary store_lost10_affected5 1)
     = Some 15.
Proof. repeat split. Qed.

(** *** Sorting keeps the rows *)

Section SortBy.
Context {R : Type} (le : R -> R -> bool).

Lemma insert_by_in (x y : R) (l : list R) :
  In y (insert_by le x l) <-> y = x \/ In y l.
Proof.
  induction l as [|z l IH]; simpl.
  - intuition congruence.
  - destruct (le x z); simpl; [intuition congruence|].
    rewrite IH. intuition congruence.
Qed.

Lemma sort_by_in (y : R) (l : list R) : In y (sort_by le l) <-> In y l.
Proof.
  induction l as [|x l IH]; simpl; [reflexivity|].
  rewrite insert_by_in, IH. intuition congruence.
Qed.

Lemma insert_by_sum (f : R -> Z) (x : R) (l : list R) :
  series_sum (map f (insert_by le x l)) = f x + series_sum (map f l).
Proof.
  induction l as [|z l IH]; simpl; [reflexivity|].
  destruct (le x z); simpl; [reflexivity | rewrite IH; lia].
Qed.

Lemma sort_by_sum (f : R -> Z) (l : list R) :
  series_sum (map f (sort_by le l)) = series_sum (map f l).
Proof.
  induction l as [|x l IH]; simpl; [reflexivity|].
  now rewrite insert_by_sum, IH.
Qed.

Lemma sort_by_nil_inv (l : list R) : sort_by le l = [] -> l = [].
Proof.
  destruct l as [|x l]; [reflexivity|]. simpl. intros H.
  assert (Hin : In x (insert_by le x (sort_by le l)))
    by (apply insert_by_in; now left).
  rewrite H in Hin. contradiction.
Qed.
End SortBy.

Lemma unique_by_id {R : Type} (id : R -> Z) (l : list R) (a b : R) :
  NoDup (map id l) -> In a l -> In b l -> id a = id b -> a = b.
Proof.
  induction l as [|x l IH]; simpl; [contradiction|].
  intros Hnd [-> | Ha] [-> | Hb] Hid; inversion Hnd as [|? ? Hx Hl]; subst.
  - reflexivity.
  - exfalso. apply Hx. rewrite Hid. now apply in_map.
  - exfalso. apply Hx. rewrite <- Hid. now apply in_map.
  - now apply IH.
Qed.

(** *** The rooting forms *)

Lemma number_input_value_inv (label : string) (lo hi : option Z) (value v w : Z) :
  number_input_value label lo hi value v = Success w ->
  w = v /\ in_bounds lo hi v = true.
Proof.
  unfold number_input_value. destruct (in_bounds lo hi value); [|discriminate].
  apply number_input_inv.
Qed.

Lemma cumulative_after_add (s : Store) (now tid b np : Z) (d : date)
    (nr : option Z) (rd : option date) (notes : string) :
  cumulative_num_placed
    (fst (add_rooting_record s now (Some tid) b np d nr rd notes)) tid
  = cumulative_num_placed s tid + np.
Proof.
  unfold cumulative_num_placed, get_rooting_records, order_by_desc.
  cbn [truthy]. destruct (negb (tid =? 0)); rewrite !sort_by_sum; simpl.
  - rewrite filter_app, map_app, series_sum_app. simpl.
    unfold coalesce. rewrite Z.eqb_refl. simpl. lia.
  - rewrite map_app, series_sum_app. simpl. lia.
Qed.

(** The create path keeps the cumulative placement of the chosen transfer
    within its [explants_out]. *)
Lemma rooting_form_preserves_bound (s : Store) (now tid np : Z) (d : date)
    (nr : Z) (rd : option date) (notes : string) (s' : Store) (rid : Z) :
  rooting_form s now tid np d nr rd notes = Success (s', rid) ->
  exists t tl,
    filter (fun t => Transfer.id t =? tid)
           (rooting_transfers_of (get_transfer_records s None)) = t :: tl
    /\ cumulative_num_placed s' tid = cumulative_num_placed s tid + np
    /\ cumulative_num_placed s' tid <= Transfer.explants_out t.
Proof.
  unfold rooting_form.
  destruct (rooting_transfers_of _) as [|t0 ts] eqn:Hrt; [discriminate|].
  destruct (map Transfer.id _) as [|o os]; [discriminate|].
  intros H.
  bind_inv H. apply selectbox_inv in Hm as [-> _].
  bind_inv H as t. apply iloc0_inv in Hm as [tl Htl].
  bind_inv H. apply number_input_value_inv in Hm as [-> _].
  bind_inv H. apply number_input_value_inv in Hm as [-> _].
  unfold rooting_form_submitted in H.
  destruct (np <=? _) eqn:Hle; [|discriminate].
  apply Z.leb_le in Hle.
  replace s' with (fst (add_rooting_record s now (Some tid)
                          (Transfer.batch_id t) np d
                          (if nr >? 0 then Some nr else None) rd notes))
    by (injection H as Hs _; exact Hs).
  exists t, tl. split; [exact Htl|].
  rewrite cumulative_after_add. split; [reflexivity|].
  unfold cumulative_num_placed.
  destruct (get_rooting_records s None (Some tid)); simpl in *; lia.
Qed.

(** The create path refuses a placement that would overshoot. *)
Lemma rooting_form_rejects_excess (s : Store) (now tid np : Z) (d : date)
    (nr : Z) (rd : option date) (notes : string) (t : Transfer.t)
    (tl : list Transfer.t) :
  filter (fun t => Transfer.id t =? tid)
         (rooting_transfers_of (get_transfer_records s None)) = t :: tl ->
  cumulative_num_placed s tid + np > Transfer.explants_out t ->
  accepted (rooting_form s now tid np d nr rd notes) = false.
Proof.
  intros Hf Hgt.
  destruct (rooting_form s now tid np d nr rd notes) as [[s' rid]| | |] eqn:H;
    try reflexivity.
  apply rooting_form_preserves_bound in H as (t' & tl' & Hf' & Hcum & Hle).
  rewrite Hf in Hf'. injection Hf' as <- <-. lia.
Qed.

Lemma get_rooting_records_in (s : Store) (b t : option Z) (r : Rooting.t) :
  In r (get_rooting_records s b t) -> In r (rows (rooting_records s)).
Proof.
  unfold get_rooting_records, order_by_desc.
  destruct (truthy b); [|destruct (truthy t)]; rewrite sort_by_in;
    try rewrite filter_In; tauto.
Qed.

Lemma in_sql_update {R : Type} (p : R -> bool) (f : R -> R) (t : table R) (r : R) :
  In r (rows (sql_update p f t)) ->
  exists r0, In r0 (rows t) /\ r = (if p r0 then f r0 else r0).
Proof.
  simpl. rewrite in_map_iff. intros (r0 & <- & Hin). now exists r0.
Qed.

(** The quick status update keeps [num_rooted] within [num_placed]. *)
Lemma update_rooting_form_bound (s s' : Store) (flt : option Z) (rid nr : Z)
    (d : date) :
  NoDup (map Rooting.id (rows (rooting_records s))) ->
  update_rooting_form s flt rid nr d = Success s' ->
  forall r, In r (rows (rooting_records s')) -> Rooting.id r = rid ->
            Rooting.num_rooted r = Some nr /\ rooted_within_placed r.
Proof.
  intros Hnd H r Hr Hid. unfold update_rooting_form in H.
  destruct (get_explant_batches s None) as [|b0 bs]; [discriminate|].
  bind_inv H as flt'.
  destruct (get_rooting_records s flt' None) as [|r1 rs] eqn:Hrec; [discriminate|].
  bind_inv H. apply selectbox_inv in Hm0 as [-> _].
  bind_inv H as sel. apply iloc0_inv in Hm0 as [tl Htl].
  bind_inv H. apply number_input_value_inv in Hm0 as [-> Hb].
  injection H as <-.
  apply filter_head_in in Htl as [Hsel Hselid]. apply Z.eqb_eq in Hselid.
  rewrite <- Hrec in Hsel. apply get_rooting_records_in in Hsel.
  apply in_sql_update in Hr as (r0 & Hr0 & ->).
  destruct (Rooting.id r0 =? rid) eqn:E.
  - apply Z.eqb_eq in E.
    assert (r0 = sel) by (apply (unique_by_id Rooting.id _ _ _ Hnd Hr0 Hsel); lia).
    subst r0. unfold rooted_within_placed. simpl. split; [reflexivity|].
    unfold in_bounds in Hb. apply andb_true_iff in Hb as [_ Hb].
    now apply Z.leb_le in Hb.
  - apply Z.eqb_neq in E. contradiction.
Qed.

(** The full edit keeps [num_rooted] within [num_placed]. *)
Lemma edit_rooting_form_bound (s s' : Store) (rid tid b np : Z) (d : date)
    (nr : Z) (rd : option date) (notes : string) :
  edit_rooting_form s rid tid b np d nr rd notes = Success s' ->
  forall r, In r (rows (rooting_records s')) -> Rooting.id r = rid ->
            rooted_within_placed r.
Proof.
  intros H r Hr Hid. unfold edit_rooting_form in H.
  destruct (get_rooting_records s None None) as [|r1 rs]; [discriminate|].
  bind_inv H. apply selectbox_inv in Hm as [-> _].
  bind_inv H as sel.
  bind_inv H as tid'.
  bind_inv H as b'.
  bind_inv H. apply number_input_value_inv in Hm2 as [-> _].
  bind_inv H. apply number_input_value_inv in Hm2 as [-> Hb].
  injection H as <-.
  apply in_sql_update in Hr as (r0 & Hr0 & ->).
  destruct (Rooting.id r0 =? rid) eqn:E.
  - unfold rooted_within_placed. simpl. destruct (nr >? 0); [|exact I].
    unfold in_bounds in Hb. apply andb_true_iff in Hb as [_ Hb].
    now apply Z.leb_le in Hb.
  - apply Z.eqb_neq in E. contradiction.
Qed.

(** C4 (violated by the edit form). With [explants_out = 50] and 30
    already placed, "Record Rooting" refuses a further 25, but "Edit Rooting
    Record" accepts raising the placed count to 60, beyond the transfer's
    output. *)
Theorem rooting_edit_exceeds_explants_out :
  map Transfer.explants_out (rows (transfer_records store_placed30)) = [50]
  /\ cumulative_num_placed store_placed30 1 = 30
  /\ accepted (rooting_form store_placed30 0 1 25 40 0 None EmptyString) = false
  /\ rooting_form_submitted store_placed30 0 1 1 (50 - 30) 25 40 0 None EmptyString
     = Rejected "Cannot place more explants than available"
  /\ exists s',
       edit_rooting_form store_placed30 1 1 1 60 40 0 None EmptyString = Success s'
       /\ cumulative_num_placed s' 1 = 60
       /\ map Transfer.explants_out (rows (transfer_records s')) = [50].
Proof.
  repeat split. eexists. repeat split.
Qed.

(** C5 (violated by the add path). "Record Rooting" stores a record with
    5 explants placed and 10 rooted: its [num_rooted] input has no upper
    bound and the submit block does not compare the two. *)
Theorem rooting_form_stores_rooted_above_placed :
  exists s' r,
    rooting_form store_transfer50 0 1 5 40 10 None EmptyString = Success (s', 1)
    /\ rows (rooting_records s') = [r]
    /\ Rooting.num_placed r = 5
    /\ Rooting.num_rooted r = Some 10
    /\ ~ rooted_within_placed r.
Proof.
  do 2 eexists. repeat split. unfold rooted_within_placed. simpl. lia.
Qed.

(** *** Orders: completion and reversal *)

Lemma reopened_open (o : Order.t) : is_open o -> reopened o = o.
Proof. destruct o. unfold is_open, reopened. simpl. intros [-> ->]. reflexivity. Qed.

Lemma complete_then_reopen_rows (s : Store) (oid : Z) (d : date) :
  rows (orders (mark_order_incomplete (mark_order_completed s oid d) oid))
  = map (fun o => if Order.id o =? oid then reopened o else o) (rows (orders s)).
Proof.
  simpl. rewrite map_map. apply map_ext. intros o.
  destruct (Order.id o =? oid) eqn:E; simpl; rewrite E; reflexivity.
Qed.

Lemma map_id_on {R : Type} (f : R -> R) (l : list R) :
  (forall x, In x l -> f x = x) -> map f l = l.
Proof.
  induction l as [|x l IH]; simpl; intros H; [reflexivity|].
  rewrite H by now left. rewrite IH; [reflexivity|]. intros y Hy. apply H. now right.
Qed.

Lemma reopen_after_complete_identity (s : Store) (oid : Z) (d : date) :
  (forall o, In o (rows (orders s)) -> Order.id o = oid -> is_open o) ->
  mark_order_incomplete (mark_order_completed s oid d) oid = s.
Proof.
  intros Hopen. destruct s as [[ro so] eb ir tr rr dr lb].
  unfold mark_order_incomplete, mark_order_completed, with_orders, sql_update.
  simpl in *. f_equal. f_equal. rewrite map_map. apply map_id_on.
  intros o Ho. destruct (Order.id o =? oid) eqn:E; simpl; rewrite E.
  - apply Z.eqb_eq in E. apply (reopened_open o). now apply Hopen.
  - reflexivity.
Qed.

(** C8. Completing an order and then marking it incomplete again clears the
    completed flag and the completion date and changes no other field, of
    this or of any other record; the order is then absent from the archive
    view and present in the active-order view; and an order that was open
    before is back in exactly its prior state. *)
Theorem complete_then_reopen_restores (s : Store) (oid : Z) (d : date) :
  let s1 := mark_order_completed s oid d in
  let s2 := mark_order_incomplete s1 oid in
  rows (orders s2)
  = map (fun o => if Order.id o =? oid then reopened o else o) (rows (orders s))
  /\ seq (orders s2) = seq (orders s)
  /\ explant_batches s2 = explant_batches s
  /\ infection_records s2 = infection_records s
  /\ transfer_records s2 = transfer_records s
  /\ rooting_records s2 = rooting_records s
  /\ delivery_records s2 = delivery_records s
  /\ labels s2 = labels s
  /\ (forall o, In o (rows (orders s)) -> Order.id o = oid ->
        In (reopened o) (active_view s2) /\ ~ In (reopened o) (archive_view s2))
  /\ (forall o, In o (archive_view s2) -> Order.id o <> oid)
  /\ ((forall o, In o (rows (orders s)) -> Order.id o = oid -> is_open o) ->
      s2 = s).
Proof.
  cbv zeta. rewrite complete_then_reopen_rows.
  repeat split; try reflexivity.
  - unfold active_view, active_orders, get_orders, order_by_desc.
    apply filter_In. split; [|reflexivity].
    apply sort_by_in. rewrite complete_then_reopen_rows.
    apply in_map_iff. exists o. split; [|assumption].
    replace (Order.id o =? oid) with true by (symmetry; now apply Z.eqb_eq).
    reflexivity.
  - unfold archive_view, completed_orders. rewrite filter_In. simpl.
    intros [_ Habs]. discriminate.
  - intros o Ho Hid. unfold archive_view, completed_orders in Ho.
    apply filter_In in Ho as [Ho Hc].
    unfold get_orders, order_by_desc in Ho. apply sort_by_in in Ho.
    rewrite complete_then_reopen_rows in Ho.
    apply in_map_iff in Ho as (o0 & <- & _).
    destruct (Order.id o0 =? oid) eqn:E.
    + simpl in Hc. discriminate.
    + apply Z.eqb_neq in E. contradiction.
  - apply reopen_after_complete_identity.
Qed.

Lemma complete_then_reopen_restores_witness :
  mark_order_incomplete (mark_order_completed store_two_orders 1 30) 1
  = store_two_orders.
Proof.
  apply (complete_then_reopen_restores store_two_orders 1 30).
  intros o [<- | [<- | []]]; intros; [split; reflexivity | discriminate].
Defined.

(** *** Deleting an order *)

(** [delete_order] touches the orders table only. *)
Lemma delete_order_frame (s : Store) (oid : Z) :
  explant_batches (delete_order s oid) = explant_batches s
  /\ infection_records (delete_order s oid) = infection_records s
  /\ transfer_records (delete_order s oid) = transfer_records s
  /\ rooting_records (delete_order s oid) = rooting_records s
  /\ delivery_records (delete_order s oid) = delivery_records s
  /\ labels (delete_order s oid) = labels s
  /\ rows (orders (delete_order s oid))
     = filter (fun o => negb (Order.id o =? oid)) (rows (orders s)).
Proof. repeat split. Qed.

Lemma deleted_order_gone (s : Store) (oid : Z) (o : Order.t) :
  In o (get_orders (delete_order s oid)) -> Order.id o <> oid.
Proof.
  unfold get_orders, order_by_desc. rewrite sort_by_in. simpl.
  rewrite filter_In. intros [_ H] Heq. simpl in H.
  rewrite Heq, Z.eqb_refl in H. discriminate.
Qed.

Lemma filter_none {R : Type} (p : R -> bool) (l : list R) :
  (forall x, In x l -> p x = false) -> filter p l = [].
Proof.
  induction l as [|x l IH]; simpl; intros H; [reflexivity|].
  rewrite H by now left. apply IH. intros y Hy. apply H. now right.
Qed.

Lemma filter_some {R : Type} (p : R -> bool) (l : list R) (x : R) :
  In x l -> p x = true -> exists y tl, filter p l = y :: tl.
Proof.
  intros Hin Hp. destruct (filter p l) as [|y tl] eqn:E; [|eauto].
  assert (H : In x (filter p l)) by (apply filter_In; now split).
  rewrite E in H. contradiction.
Qed.

(** The edit form's order selector shows a deleted order as "None". *)
Lemma default_order_dangling (s : Store) (oid : Z) (b : Batch.t) :
  Batch.order_id b = Some oid ->
  default_order (get_orders (delete_order s oid)) b = None.
Proof.
  intros Hb. unfold default_order. rewrite Hb.
  rewrite filter_none; [reflexivity|].
  intros o Ho. apply deleted_order_gone in Ho. now apply Z.eqb_neq.
Qed.

(** C9 (violated by the Batch Timeline read path). Deleting an order
    leaves every batch and every other table as it was, so a batch linked
    to it keeps its [order_id]; but as long as some other order remains,
    the Batch Timeline does not show that batch as unlinked: its order
    lookup raises IndexError. *)
Theorem batch_timeline_fails_on_dangling_order (s : Store) (b : Batch.t)
    (oid : Z) :
  In b (rows (explant_batches s)) ->
  (forall b', In b' (rows (explant_batches s)) ->
              Batch.id b' = Batch.id b -> Batch.order_id b' = Some oid) ->
  rows (orders (delete_order s oid)) <> [] ->
  explant_batches (delete_order s oid) = explant_batches s
  /\ infection_records (delete_order s oid) = infection_records s
  /\ transfer_records (delete_order s oid) = transfer_records s
  /\ rooting_records (delete_order s oid) = rooting_records s
  /\ delivery_records (delete_order s oid) = delivery_records s
  /\ labels (delete_order s oid) = labels s
  /\ batch_timeline_order_info (delete_order s oid) (Batch.id b)
     = Raised "IndexError: single positional indexer is out-of-bounds".
Proof.
  intros Hb Hlink Hrest. repeat split.
  unfold batch_timeline_order_info.
  change (get_explant_batches (delete_order s oid) None)
    with (get_explant_batches s None).
  assert (Hsorted : In b (get_explant_batches s None))
    by (unfold get_explant_batches, order_by_desc; simpl; now apply sort_by_in).
  destruct (get_explant_batches s None) as [|b0 bs] eqn:Hbs; [contradiction|].
  rewrite selectbox_offered by now apply in_map.
  cbn [bind].
  destruct (filter_some (fun x => Batch.id x =? Batch.id b) (b0 :: bs) b Hsorted
              (Z.eqb_refl _)) as (bi & tl & Hf).
  rewrite Hf. cbn [iloc0 bind].
  apply filter_head_in in Hf as [Hbi Hid]. apply Z.eqb_eq in Hid.
  rewrite <- Hbs in Hbi. unfold get_explant_batches, order_by_desc in Hbi.
  simpl in Hbi. apply sort_by_in in Hbi.
  rewrite (Hlink bi Hbi Hid).
  destruct (get_orders (delete_order s oid)) as [|o os] eqn:Ho.
  - exfalso. apply Hrest. unfold get_orders, order_by_desc in Ho.
    now apply sort_by_nil_inv in Ho.
  - rewrite filter_none; [reflexivity|].
    intros x Hx. rewrite <- Ho in Hx. apply deleted_order_gone in Hx.
    now apply Z.eqb_neq.
Qed.

Lemma batch_timeline_fails_on_dangling_order_witness :
  batch_timeline_order_info (delete_order store_two_orders 1) 1
  = Raised "IndexError: single positional indexer is out-of-bounds".
Proof.
  refine (proj2 (proj2 (proj2 (proj2 (proj2 (proj2
    (batch_timeline_fails_on_dangling_order store_two_orders
       (Batch.mk 1 (Some 1) "B-1" 100 "Node" "50% MS" None None 20 (Some EmptyString) 0 None)
       1 _ _ _))))))).
  - left. reflexivity.
  - intros b' [<- | []] _. reflexivity.
  - discriminate.
Defined.

(** *** Gantt assembly *)

Ltac settle_gtb :=
  repeat match goal with
  | |- context [?a >? ?b] =>
      first [ replace (a >? b) with true
                by (symmetry; rewrite Z.gtb_ltb; apply Z.ltb_lt; lia)
            | replace (a >? b) with false
                by (symmetry; rewrite Z.gtb_ltb; apply Z.ltb_ge; lia) ]
  end.

(** C6 (violated). With initiation on day [D] and the first transfer on day
    [D + 5], the rows between the initiation marker and the transfer marker
    are two passive-time intervals [D + 1, D + 5] of 4 days, not one: the
    block before the transfer loop emits the gap, and the loop's first
    iteration emits it again. *)
Theorem gantt_first_gap_emitted_twice (D today : date) :
  gantt_chart_data (store_gap5 D) today []
  = Success
      ([ marker "Cascade" "Order Received" (D - 1);
         mk_row "Cascade" "Explant Initiation" D (D + 1) 1;
         mk_row "Cascade" passive_time (D + 1) (D + 5) 4;
         mk_row "Cascade" passive_time (D + 1) (D + 5) 4;
         marker "Cascade" "Transfer #1: 50% MS (2050, Mult: Yes)" (D + 5) ]
       ++ (if today >? D + 1
           then [mk_row "Cascade" passive_time (D + 1) today (today - D - 1)]
           else [])).
Proof.
  unfold gantt_chart_data, store_gap5.
  cbv -[Z.add Z.sub Z.gtb]. change (0 + 1) with 1.
  cbv -[Z.add Z.sub Z.gtb].
  settle_gtb.
  replace (D + 5 - (D + 1)) with 4 by lia.
  destruct (today >? D + 1); reflexivity.
Qed.

(** C7 (violated). The "No transfers yet" branch hangs off the loop, not
    off the test for transfers: with a first batch without transfers
    ("Cascade", initiated on day 10) and a last batch with a transfer
    ("Centennial", initiated on day 5), no passive-time interval through
    today is emitted for the batch without transfers, and one is emitted
    for the batch that has a transfer. *)
Theorem gantt_idle_interval_follows_last_batch (today : date) :
  filter (fun t => Transfer.batch_id t =? 1)
         (rows (transfer_records store_two_batches)) = []
  /\ filter (fun t => Transfer.batch_id t =? 2)
            (rows (transfer_records store_two_batches)) <> []
  /\ gantt_chart_data store_two_batches today []
     = Success
         ([ marker "Cascade" "Order Received" 9;
            mk_row "Cascade" "Explant Initiation" 10 11 1;
            marker "Centennial" "Order Received" 4;
            mk_row "Centennial" "Explant Initiation" 5 6 1;
            mk_row "Centennial" passive_time 6 8 2;
            mk_row "Centennial" passive_time 6 8 2;
            marker "Centennial" "Transfer #1: 50% MS (2050, Mult: Yes)" 8 ]
          ++ (if today >? 6
              then [mk_row "Centennial" passive_time 6 today (today - 5 - 1)]
              else []))
  /\ match gantt_chart_data store_two_batches 30 [] with
     | Success rows =>
         existsb (is_idle_interval "Cascade" 10 30) rows = false
         /\ existsb (is_idle_interval "Centennial" 5 30) rows = true
     | _ => False
     end.
Proof.
  split; [reflexivity|]. split; [discriminate|]. split.
  - unfold gantt_chart_data. cbv -[Z.gtb Z.sub]. destruct (today >? 6); reflexivity.
  - vm_compute. split; reflexivity.
Qed.

(** A batch without transfers never assigns [prev_date]: when it is the
    first batch of the loop and its order is completed (or it has a
    delivery), the completion step reads the unbound variable and the tab
    fails before any "No transfers yet" interval is reached. *)
Lemma gantt_unbound_prev_date :
  gantt_chart_data (mark_order_completed store_two_orders 1 50) 100 []
  = Raised "NameError: name 'prev_date' is not defined"
  /\ gantt_chart_data
       (fst (add_delivery_record store_two_orders 0 (Some 1) (Some 1) 5 40
               None EmptyString)) 100 []
     = Raised "NameError: name 'prev_date' is not defined".
Proof. split; reflexivity. Qed.

(** *** Editing a batch *)

Lemma edit_batch_form_success_inv (s s' : Store) (b : Z) (oid : option Z)
    (name : string) (n : Z) (et mt : string) (d : date) (ps : option string)
    (h a notes : string) :
  edit_batch_form s b oid name n et mt d ps h a notes = Success s' ->
  exists oid' ps',
    s' = update_explant_batch s b oid' name n et mt (or_none h) (or_none a)
           d notes ps'
    /\ 1 <= n.
Proof.
  unfold edit_batch_form.
  destruct (get_explant_batches s None) as [|b0 bs]; [discriminate|].
  intros H.
  bind_inv H. apply selectbox_inv in Hm as [-> _].
  bind_inv H as sel.
  bind_inv H as oid'.
  bind_inv H. apply number_input_value_inv in Hm1 as [-> Hn].
  bind_inv H. apply selectbox_str_inv in Hm1 as [-> _].
  bind_inv H. apply selectbox_str_inv in Hm1 as [-> _].
  bind_inv H as ps'.
  destruct (negb _ && negb _); [|discriminate].
  injection H as <-. exists oid', ps'. split; [reflexivity|].
  unfold in_bounds in Hn. apply andb_true_iff in Hn as [Hn _].
  now apply Z.leb_le in Hn.
Qed.

(** The edit form reads the batches and the orders only: whatever the
    contamination table holds, the same submission is accepted or not. *)
Lemma edit_batch_form_ignores_losses (s : Store) (t : table Infection.t)
    (b : Z) (oid : option Z) (name : string) (n : Z) (et mt : string)
    (d : date) (ps : option string) (h a notes : string) :
  edit_batch_form (with_infection_records s t) b oid name n et mt d ps h a notes
  = match edit_batch_form s b oid name n et mt d ps h a notes with
    | Success s' => Success (with_infection_records s' t)
    | Rejected msg => Rejected msg
    | Raised exn => Raised exn
    | NotOffered w => NotOffered w
    end.
Proof.
  unfold edit_batch_form.
  change (get_explant_batches (with_infection_records s t) None)
    with (get_explant_batches s None).
  change (get_orders (with_infection_records s t)) with (get_orders s).
  destruct (get_explant_batches s None) as [|b0 bs]; [reflexivity|].
  repeat match goal with
         | |- context [bind ?m _] => destruct m; cbn [bind]; try reflexivity
         end.
  destruct (negb _ && negb _); reflexivity.
Qed.

Lemma num_explants_after_edit (s s' : Store) (b : Z) (oid : option Z)
    (name : string) (n : Z) (et mt : string) (d : date) (ps : option string)
    (h a notes : string) :
  edit_batch_form s b oid name n et mt d ps h a notes = Success s' ->
  (forall x, In x (rows (explant_batches s')) -> Batch.id x = b ->
             Batch.num_explants x = n)
  /\ infection_records s' = infection_records s.
Proof.
  intros H. apply edit_batch_form_success_inv in H as (oid' & ps' & -> & _).
  split; [|reflexivity].
  intros x Hx Hid. apply in_sql_update in Hx as (x0 & _ & ->).
  destruct (Batch.id x0 =? b) eqn:E; [reflexivity|].
  apply Z.eqb_neq in E. contradiction.
Qed.

Lemma reachable_batch10_lost8 : reachable store_batch10_lost8.
Proof.
  eapply reach_step.
  - eapply reach_step; [apply reach_init|].
    eapply (step_new_batch empty_store 0 None "B-1" 10 "Node" "50% MS" 20
              EmptyString EmptyString EmptyString None). reflexivity.
  - eapply (step_record_contamination _ 0 1 8 0 "Fungal" 25 EmptyString). reflexivity.
Qed.

(** *** Editing and deleting contamination records *)

Lemma get_infection_records_in (s : Store) (b : option Z) (r : Infection.t) :
  In r (get_infection_records s b) -> In r (rows (infection_records s)).
Proof.
  unfold get_infection_records, order_by_desc.
  destruct (truthy b); rewrite sort_by_in; try rewrite filter_In; tauto.
Qed.

(** With unique ids, an [UPDATE ... WHERE id = ?] rewrites one row in place. *)
Lemma update_unique_row {R : Type} (id : R -> Z) (f : R -> R) (rid : Z)
    (l : list R) (r0 : R) :
  NoDup (map id l) -> In r0 l -> id r0 = rid ->
  exists l1 l2,
    l = l1 ++ r0 :: l2
    /\ map (fun r => if id r =? rid then f r else r) l = l1 ++ f r0 :: l2.
Proof.
  intros Hnd Hin Hid.
  destruct (in_split _ _ Hin) as (l1 & l2 & ->).
  exists l1, l2. split; [reflexivity|].
  rewrite map_app. simpl. rewrite Hid, Z.eqb_refl.
  rewrite map_app in Hnd. simpl in Hnd.
  apply NoDup_remove_2 in Hnd. rewrite in_app_iff in Hnd.
  f_equal; [|f_equal]; apply map_id_on; intros x Hx;
    (destruct (id x =? rid) eqn:E; [|reflexivity]);
    apply Z.eqb_eq in E; exfalso; apply Hnd; rewrite Hid, <- E;
    [left | right]; now apply in_map.
Qed.

(** The total of a batch after a record is rewritten: the record's old
    contribution leaves its old batch, its new loss enters the new one. *)
Lemma total_after_update_infection (s : Store) (rid eb nl na : Z) (ty : string)
    (d : date) (notes : string) (r0 : Infection.t) (b : Z) :
  NoDup (map Infection.id (rows (infection_records s))) ->
  In r0 (rows (infection_records s)) -> Infection.id r0 = rid ->
  get_total_infections_for_batch
    (update_infection_record s rid eb nl na ty d notes) b
  = get_total_infections_for_batch s b
    - (if Infection.batch_id r0 =? b then contribution r0 else 0)
    + (if eb =? b then nl else 0).
Proof.
  intros Hnd Hin Hid. rewrite !total_infections_as_sum.
  unfold update_infection_record. simpl.
  destruct (update_unique_row Infection.id
              (fun r => Infection.mk (Infection.id r) eb (nl + na) ty d
                          (Some notes) (Infection.created_at r) (Some nl)
                          (Some na))
              rid _ r0 Hnd Hin Hid) as (l1 & l2 & Hl & Hmap).
  rewrite Hmap, Hl. rewrite !filter_app. simpl.
  destruct (Infection.batch_id r0 =? b), (eb =? b);
    rewrite !map_app, !series_sum_app; simpl; unfold contribution; simpl; lia.
Qed.

Lemma edit_infection_form_success_inv (s s' : Store) (rid eb nl na : Z)
    (ty : string) (d : date) (notes : string) :
  edit_infection_form s rid eb nl na ty d notes = Success s' ->
  exists r0 bi tl,
    In r0 (rows (infection_records s)) /\ Infection.id r0 = rid
    /\ filter (fun b => Batch.id b =? eb) (get_explant_batches s None) = bi :: tl
    /\ nl <= Batch.num_explants bi - get_total_infections_for_batch s eb
             + contribution r0
    /\ s' = update_infection_record s rid eb nl na ty d notes.
Proof.
  unfold edit_infection_form.
  destruct (get_infection_records s None) as [|i0 irs] eqn:Hrec; [discriminate|].
  intros H.
  bind_inv H. apply selectbox_inv in Hm as [-> _].
  bind_inv H as r0. apply iloc0_inv in Hm as [tl0 Hr0].
  bind_inv H as eb'.
  assert (eb' = eb) as ->.
  { destruct (get_explant_batches s None); [discriminate|].
    now apply selectbox_inv in Hm as [-> _]. }
  bind_inv H as bi. apply iloc0_inv in Hm0 as [tl Hbi].
  bind_inv H. apply number_input_value_inv in Hm0 as [-> _].
  bind_inv H. apply number_input_value_inv in Hm0 as [-> _].
  bind_inv H. apply selectbox_str_inv in Hm0 as [-> _].
  destruct ((nl =? 0) && (na =? 0)); [discriminate|].
  destruct (nl <=? _) eqn:Hle; [|discriminate].
  injection H as <-. apply Z.leb_le in Hle.
  apply filter_head_in in Hr0 as [Hin Hid]. apply Z.eqb_eq in Hid.
  rewrite <- Hrec in Hin. apply get_infection_records_in in Hin.
  exists r0, bi, tl. repeat split; assumption.
Qed.

(** An accepted edit that leaves the record with its batch keeps every
    batch's remaining healthy count non-negative. *)
Lemma edit_infection_form_same_batch (s s' : Store) (rid eb nl na : Z)
    (ty : string) (d : date) (notes : string) :
  NoDup (map Infection.id (rows (infection_records s))) ->
  (forall r, In r (rows (infection_records s)) -> Infection.id r = rid ->
             Infection.batch_id r = eb) ->
  healthy_nonneg s ->
  edit_infection_form s rid eb nl na ty d notes = Success s' ->
  healthy_nonneg s'.
Proof.
  intros Hnd Hsame Hinv H b h Hh.
  apply edit_infection_form_success_inv in H
    as (r0 & bi & tl & Hr0 & Hid & Hbi & Hle & ->).
  unfold healthy_remaining in Hh.
  change (get_explant_batches (update_infection_record s rid eb nl na ty d notes) None)
    with (get_explant_batches s None) in Hh.
  rewrite (total_after_update_infection s rid eb nl na ty d notes r0 b Hnd Hr0 Hid)
    in Hh.
  rewrite (Hsame r0 Hr0 Hid) in Hh.
  destruct (eb =? b) eqn:E.
  - apply Z.eqb_eq in E. subst b. rewrite Hbi in Hh. injection Hh as <-. lia.
  - specialize (Hinv b). unfold healthy_remaining in Hinv.
    destruct (filter _ (get_explant_batches s None)) as [|bj tl']; [discriminate|].
    injection Hh as <-. specialize (Hinv _ eq_refl). lia.
Qed.

Lemma series_sum_filter_le {R : Type} (c : R -> Z) (q : R -> bool) (l : list R) :
  (forall x, In x l -> 0 <= c x) ->
  series_sum (map c (filter q l)) <= series_sum (map c l).
Proof.
  induction l as [|x l IH]; simpl; intros H; [lia|].
  assert (0 <= c x) by (apply H; now left).
  assert (series_sum (map c (filter q l)) <= series_sum (map c l))
    by (apply IH; intros y Hy; apply H; now right).
  destruct (q x); simpl; lia.
Qed.

Lemma filter_comm {R : Type} (p q : R -> bool) (l : list R) :
  filter p (filter q l) = filter q (filter p l).
Proof.
  induction l as [|x l IH]; simpl; [reflexivity|].
  destruct (p x) eqn:Ep, (q x) eqn:Eq; simpl; rewrite ?Ep, ?Eq, IH; reflexivity.
Qed.

(** Deleting a record of non-negative contribution keeps every batch's
    remaining healthy count non-negative. *)
Lemma delete_infection_button_preserves (s s' : Store) (rid : Z) :
  (forall r, In r (rows (infection_records s)) -> 0 <= contribution r) ->
  healthy_nonneg s ->
  delete_infection_button s rid = Success s' ->
  healthy_nonneg s'.
Proof.
  intros Hpos Hinv H b h Hh. unfold delete_infection_button in H.
  destruct (get_infection_records s None) as [|i0 irs]; [discriminate|].
  bind_inv H. apply selectbox_inv in Hm as [-> _].
  bind_inv H. injection H as <-.
  unfold healthy_remaining in Hh.
  change (get_explant_batches (delete_infection_record s rid) None)
    with (get_explant_batches s None) in Hh.
  specialize (Hinv b). unfold healthy_remaining in Hinv.
  destruct (filter _ (get_explant_batches s None)) as [|bj tl]; [discriminate|].
  injection Hh as <-. specialize (Hinv _ eq_refl).
  rewrite !total_infections_as_sum in *. simpl.
  rewrite filter_comm.
  pose proof (series_sum_filter_le contribution
                (fun r => negb (Infection.id r =? rid))
                (filter (fun r => Infection.batch_id r =? b)
                        (rows (infection_records s)))) as Hle.
  assert (forall x, In x (filter (fun r => Infection.batch_id r =? b)
                                 (rows (infection_records s))) ->
                    0 <= contribution x)
    by (intros x Hx; apply filter_In in Hx as [Hx _]; now apply Hpos).
  specialize (Hle H). lia.
Qed.

(** Recording a new contamination record keeps every batch's remaining
    healthy count non-negative. *)
Lemma infection_form_preserves (s s' : Store) (now b nl na rid : Z) (ty : string)
    (d : date) (notes : string) :
  healthy_nonneg s ->
  infection_form s now b nl na ty d notes = Success (s', rid) ->
  healthy_nonneg s'.
Proof.
  intros Hinv H b' h' Hh'.
  apply infection_form_success_inv in H as (h & Hh & Hle & Hres).
  replace s' with (fst (add_infection_record s now b nl na ty d notes)) in Hh'
    by (now rewrite <- Hres).
  unfold healthy_remaining in Hh', Hh.
  change (get_explant_batches
            (fst (add_infection_record s now b nl na ty d notes)) None)
    with (get_explant_batches s None) in Hh'.
  rewrite total_after_add_infection in Hh'.
  destruct (b =? b') eqn:E.
  - apply Z.eqb_eq in E. subst b'.
    destruct (filter _ (get_explant_batches s None)) as [|bj tl]; [discriminate|].
    injection Hh as <-. injection Hh' as <-. lia.
  - specialize (Hinv b'). unfold healthy_remaining in Hinv.
    destruct (filter _ (get_explant_batches s None)) as [|bj tl]; [discriminate|].
    injection Hh' as <-. specialize (Hinv _ eq_refl). lia.
Qed.

Ltac healthy_nonneg_by_cases :=
  let b := fresh "b" in
  let h := fresh "h" in
  let H := fresh "H" in
  match goal with
  | |- healthy_nonneg ?s =>
      let s' := eval vm_compute in s in change (healthy_nonneg s')
  end;
  intros b h H; unfold healthy_remaining in H; cbn -[Z.eqb] in H;
  repeat match type of H with
         | context [Z.eqb ?x b] =>
             destruct (Z.eqb_spec x b) as [<- | ?];
             [cbn in H | cbn -[Z.eqb] in H]
         end;
  try discriminate; injection H as <-; lia.

Lemma healthy_nonneg_new_batch10 : healthy_nonneg store_new_batch10.
Proof. healthy_nonneg_by_cases. Qed.

Lemma healthy_nonneg_ab_lost50 : healthy_nonneg store_ab_lost50.
Proof. healthy_nonneg_by_cases. Qed.

Lemma reachable_ab_lost50 : reachable store_ab_lost50.
Proof.
  eapply reach_step.
  - eapply reach_step.
    + eapply reach_step; [apply reach_init|].
      eapply (step_new_batch empty_store 0 None "A" 100 "Node" "50% MS" 20
                EmptyString EmptyString EmptyString None). reflexivity.
    + eapply (step_new_batch _ 0 None "B" 10 "Node" "50% MS" 21 EmptyString EmptyString EmptyString None).
      reflexivity.
  - eapply (step_record_contamination _ 0 1 50 0 "Fungal" 25 EmptyString). reflexivity.
Qed.

(** C10 (violated by the "Edit Contamination Record" form). Not every
    contamination-record operation preserves [healthy_remaining >= 0]: from
    a reachable store with batch "A" (100 explants, 50 lost) and batch "B"
    (10 explants, none lost), moving the record of 50 lost explants to
    batch "B" is an accepted action, because the form adds the record's own
    loss back to the total of whichever batch is chosen, and batch "B" is
    left with a remaining healthy count of -40. *)
Theorem contamination_edit_across_batches_goes_negative :
  reachable store_ab_lost50
  /\ healthy_remaining store_ab_lost50 1 = Some 50
  /\ healthy_remaining store_ab_lost50 2 = Some 10
  /\ exists s',
       edit_infection_form store_ab_lost50 1 2 50 0 "Fungal" 25 EmptyString = Success s'
       /\ step store_ab_lost50 s'
       /\ get_total_infections_for_batch s' 2 = 50
       /\ healthy_remaining s' 2 = Some (-40).
Proof.
  split; [apply reachable_ab_lost50|].
  split; [reflexivity|]. split; [reflexivity|].
  eexists. split; [reflexivity|]. split; [|split; reflexivity].
  eapply (step_edit_contamination _ 1 2 50 0 "Fungal" 25 EmptyString). reflexivity.
Qed.

(** Hence no statement that every accepted contamination edit preserves the
    invariant can hold, even on reachable stores. *)
Lemma contamination_edit_not_always_preserving :
  ~ (forall s s' rid eb nl na ty d notes,
       reachable s -> healthy_nonneg s ->
       edit_infection_form s rid eb nl na ty d notes = Success s' ->
       healthy_nonneg s').
Proof.
  intros Hall.
  pose proof (Hall store_ab_lost50 _ 1 2 50 0 "Fungal" 25 EmptyString
                reachable_ab_lost50 healthy_nonneg_ab_lost50 eq_refl 2 (-40)
                eq_refl).
  lia.
Qed.

(** What does hold of the invariant. The "Edit Batch" form stores the new
    [num_explants] whatever the contamination table holds; from a reachable
    store (10 explants, 8 lost) the edit to 5 explants is accepted and
    leaves the remaining healthy count at -3; whereas recording a new
    contamination record, editing a contamination record that stays with
    its batch, and deleting one all keep every batch's remaining healthy
    count non-negative. *)
Lemma batch_edit_breaks_healthy_invariant :
  (forall s s' b oid name n et mt d ps h a notes,
     edit_batch_form s b oid name n et mt d ps h a notes = Success s' ->
     (forall x, In x (rows (explant_batches s')) -> Batch.id x = b ->
                Batch.num_explants x = n)
     /\ infection_records s' = infection_records s)
  /\ (forall s t b oid name n et mt d ps h a notes,
        accepted (edit_batch_form (with_infection_records s t) b oid name n et
                    mt d ps h a notes)
        = accepted (edit_batch_form s b oid name n et mt d ps h a notes))
  /\ (reachable store_batch10_lost8
      /\ healthy_nonneg store_batch10_lost8
      /\ get_total_infections_for_batch store_batch10_lost8 1 = 8
      /\ exists s',
           edit_batch_form store_batch10_lost8 1 None "B-1" 5 "Node" "50% MS"
             20 None EmptyString EmptyString EmptyString = Success s'
           /\ healthy_remaining s' 1 = Some (-3))
  /\ (forall s s' now b nl na rid ty d notes,
        healthy_nonneg s ->
        infection_form s now b nl na ty d notes = Success (s', rid) ->
        healthy_nonneg s')
  /\ (forall s s' rid eb nl na ty d notes,
        NoDup (map Infection.id (rows (infection_records s))) ->
        (forall r, In r (rows (infection_records s)) -> Infection.id r = rid ->
                   Infection.batch_id r = eb) ->
        healthy_nonneg s ->
        edit_infection_form s rid eb nl na ty d notes = Success s' ->
        healthy_nonneg s')
  /\ (forall s s' rid,
        (forall r, In r (rows (infection_records s)) -> 0 <= contribution r) ->
        healthy_nonneg s ->
        delete_infection_button s rid = Success s' ->
        healthy_nonneg s').
Proof.
  split; [intros; eapply num_explants_after_edit; eassumption|].
  split.
  { intros. rewrite edit_batch_form_ignores_losses.
    now destruct (edit_batch_form s b oid name n et mt d ps h a notes). }
  split.
  { split; [apply reachable_batch10_lost8|].
    split; [healthy_nonneg_by_cases|].
    split; [reflexivity|]. eexists. split; reflexivity. }
  split; [intros; eapply infection_form_preserves; eassumption|].
  split; [intros; eapply edit_infection_form_same_batch; eassumption|].
  intros; eapply delete_infection_button_preserves; eassumption.
Qed.

Lemma batch_edit_breaks_healthy_invariant_instances :
  healthy_nonneg store_batch10_lost8
  /\ (forall s', edit_infection_form store_ab_lost50 1 1 60 0 "Fungal" 25 EmptyString
                 = Success s' -> healthy_nonneg s')
  /\ (forall s', delete_infection_button store_ab_lost50 1 = Success s' ->
                 healthy_nonneg s').
Proof.
  destruct batch_edit_breaks_healthy_invariant
    as (_ & _ & _ & Hadd & Hedit & Hdel).
  split; [|split].
  - apply (Hadd store_new_batch10 store_batch10_lost8 0 1 8 0 1 "Fungal" 25 EmptyString).
    + exact healthy_nonneg_new_batch10.
    + reflexivity.
  - intros s' H.
    apply (Hedit store_ab_lost50 s' 1 1 60 0 "Fungal" 25 EmptyString).
    + repeat constructor. simpl. tauto.
    + intros r [<- | []] _. reflexivity.
    + exact healthy_nonneg_ab_lost50.
    + exact H.
  - intros s' H.
    apply (Hdel store_ab_lost50 s' 1).
    + intros r [<- | []]. discriminate.
    + exact healthy_nonneg_ab_lost50.
    + exact H.
Qed.

(** *** Reachable stores are well formed *)

Lemma keys_ok_empty {R : Type} (id : R -> Z) : keys_ok id empty_table.
Proof. split; [constructor | intros r []]. Qed.

Lemma keys_ok_insert {R : Type} (id : R -> Z) (mk : Z -> R) (t : table R) :
  (forall i, id (mk i) = i) ->
  keys_ok id t -> keys_ok id (fst (sql_insert mk t)).
Proof.
  intros Hmk [Hnd Hle]. split; simpl.
  - rewrite map_app. simpl. rewrite Hmk.
    apply NoDup_app; [assumption | repeat constructor; intros [] |].
    + intros i Hi [<- | []]. apply in_map_iff in Hi as (r & Hr & Hin).
      specialize (Hle r Hin). lia.
  - intros r Hr. apply in_app_iff in Hr as [Hr | [<- | []]].
    + specialize (Hle r Hr). lia.
    + rewrite Hmk. lia.
Qed.

Lemma keys_ok_update {R : Type} (id : R -> Z) (p : R -> bool) (f : R -> R)
    (t : table R) :
  (forall r, id (f r) = id r) ->
  keys_ok id t -> keys_ok id (sql_update p f t).
Proof.
  intros Hf [Hnd Hle].
  assert (Hids : map id (rows (sql_update p f t)) = map id (rows t)).
  { simpl. rewrite map_map. apply map_ext. intros r. destruct (p r); [apply Hf | reflexivity]. }
  split.
  - now rewrite Hids.
  - intros r Hr. apply in_sql_update in Hr as (r0 & Hr0 & ->).
    specialize (Hle r0 Hr0). destruct (p r0); [rewrite Hf|]; exact Hle.
Qed.

Lemma NoDup_map_filter {R : Type} (id : R -> Z) (q : R -> bool) (l : list R) :
  NoDup (map id l) -> NoDup (map id (filter q l)).
Proof.
  induction l as [|x l IH]; simpl; intros H; [constructor|].
  inversion H as [|? ? Hx Hl]; subst.
  destruct (q x); simpl; [|now apply IH].
  constructor; [|now apply IH].
  intros Hin. apply Hx. apply in_map_iff in Hin as (y & Hy & Hin).
  apply filter_In in Hin as [Hin _]. rewrite <- Hy. now apply in_map.
Qed.

Lemma keys_ok_delete {R : Type} (id : R -> Z) (p : R -> bool) (t : table R) :
  keys_ok id t -> keys_ok id (sql_delete p t).
Proof.
  intros [Hnd Hle]. split; simpl.
  - now apply NoDup_map_filter.
  - intros r Hr. apply filter_In in Hr as [Hr _]. now apply Hle.
Qed.

Lemma wf_empty_store : wf_store empty_store.
Proof.
  constructor; try apply keys_ok_empty; intros ? [].
Qed.

Lemma in_bounds_lower (lo : Z) (hi : option Z) (v : Z) :
  in_bounds (Some lo) hi v = true -> lo <= v.
Proof.
  unfold in_bounds. intros H. apply andb_true_iff in H as [H _].
  now apply Z.leb_le in H.
Qed.

Lemma success_fst {A B : Type} (p : A * B) (a : A) (b : B) :
  Success p = Success (a, b) -> a = fst p.
Proof. intros [= ->]. reflexivity. Qed.

Lemma step_ledger_effect (s s' : Store) : step s s' -> ledger_effect s s'.
Proof.
  intros Hstep. destruct Hstep as
    [ s now c cv np dq ps od rec notes s' oid H
    | s oid s' H | s oid d s' H | s oid s' H
    | s now oid name n et mt d h a notes ps s' bid H
    | s b oid name n et mt d ps h a notes s' H
    | s now b nl na ty d notes s' rid H
    | s rid b nl na ty d notes s' H
    | s rid s' H
    | s now b par ein eout media d mult h a notes s' tid H
    | s now tid np d nr rd notes s' rid H
    | s flt rid nr d s' H
    | s rid tid b np d nr rd notes s' H ].
  - unfold new_order_form in H.
    bind_inv H. apply number_input_value_inv in Hm as [-> _].
    bind_inv H. apply number_input_value_inv in Hm as [-> _].
    bind_inv H. apply selectbox_str_inv in Hm as [-> _].
    destruct (negb _ && negb _); [|discriminate].
    eapply effect_add_order. apply success_fst in H. exact H.
  - unfold delete_order_button in H.
    destruct (get_orders s); [discriminate|].
    bind_inv H. apply selectbox_inv in Hm as [-> _].
    bind_inv H. injection H as <-. now eapply effect_delete_order.
  - unfold complete_order_form in H.
    destruct (active_orders _); [discriminate|].
    bind_inv H. apply selectbox_inv in Hm as [-> _].
    bind_inv H. injection H as <-. now eapply effect_complete.
  - unfold mark_incomplete_button in H.
    destruct (completed_orders _); [discriminate|].
    bind_inv H. apply selectbox_inv in Hm as [-> _].
    injection H as <-. now eapply effect_reopen.
  - unfold new_batch_form in H.
    bind_inv H. bind_inv H. bind_inv H. bind_inv H. bind_inv H.
    destruct (negb _ && negb _); [|discriminate].
    apply success_fst in H. subst s'. now apply effect_none.
  - apply edit_batch_form_success_inv in H as (oid' & ps' & -> & _).
    now apply effect_none.
  - pose proof H as H0. apply infection_form_success_inv in H0 as (h & _ & _ & Hres).
    unfold infection_form in H.
    destruct (get_explant_batches s None); [discriminate|].
    bind_inv H. bind_inv H.
    bind_inv H. apply number_input_inv in Hm1 as [-> Hb].
    apply in_bounds_lower in Hb.
    eapply effect_add_infection; [exact Hb | now rewrite <- Hres].
  - pose proof H as H0.
    apply edit_infection_form_success_inv in H0 as (r0 & bi & tl & _ & _ & _ & _ & ->).
    unfold edit_infection_form in H.
    destruct (get_infection_records s None); [discriminate|].
    bind_inv H. bind_inv H. bind_inv H. bind_inv H.
    bind_inv H. apply number_input_value_inv in Hm3 as [-> Hb].
    apply in_bounds_lower in Hb.
    eapply effect_update_infection; [|reflexivity]. exact Hb.
  - unfold delete_infection_button in H.
    destruct (get_infection_records s None); [discriminate|].
    bind_inv H. apply selectbox_inv in Hm as [-> _].
    bind_inv H. injection H as <-. now eapply effect_delete_infection.
  - unfold transfer_form in H.
    destruct (get_explant_batches s None); [discriminate|].
    bind_inv H. bind_inv H. bind_inv H. bind_inv H. bind_inv H.
    destruct (negb _); [|discriminate].
    apply success_fst in H. subst s'. now apply effect_none.
  - unfold rooting_form in H.
    destruct (rooting_transfers_of _); [discriminate|].
    destruct (map Transfer.id _); [discriminate|].
    bind_inv H. bind_inv H. bind_inv H. bind_inv H.
    unfold rooting_form_submitted in H.
    destruct (_ <=? _); [|discriminate].
    apply success_fst in H. subst s'. now apply effect_none.
  - unfold update_rooting_form in H.
    destruct (get_explant_batches s None); [discriminate|].
    bind_inv H.
    destruct (get_rooting_records s _ None); [discriminate|].
    bind_inv H. bind_inv H. bind_inv H.
    injection H as <-. now apply effect_none.
  - unfold edit_rooting_form in H.
    destruct (get_rooting_records s None None); [discriminate|].
    bind_inv H. bind_inv H. bind_inv H. bind_inv H. bind_inv H. bind_inv H.
    injection H as <-. now apply effect_none.
Qed.

Lemma ledger_effect_wf (s s' : Store) :
  wf_store s -> ledger_effect s s' -> wf_store s'.
Proof.
  intros [Hok Hopen Hik Hpos] Heff.
  destruct Heff as
    [ Ho Hi | now c cv np ps od dq rec notes -> | oid -> | oid d -> | oid ->
    | now b nl na ty d notes Hnl -> | rid b nl na ty d notes Hnl -> | rid -> ].
  - constructor; rewrite ?Ho, ?Hi; assumption.
  - constructor; try assumption.
    + now apply keys_ok_insert.
    + intros o Ho Hc. simpl in Ho. apply in_app_iff in Ho as [Ho | [<- | []]];
        [now apply Hopen | reflexivity].
  - constructor; try assumption.
    + now apply keys_ok_delete.
    + intros o Ho. simpl in Ho. apply filter_In in Ho as [Ho _]. now apply Hopen.
  - constructor; try assumption.
    + now apply keys_ok_update.
    + intros o Ho Hc. apply in_sql_update in Ho as (o0 & Ho0 & ->).
      destruct (Order.id o0 =? oid); [discriminate | now apply Hopen].
  - constructor; try assumption.
    + now apply keys_ok_update.
    + intros o Ho Hc. apply in_sql_update in Ho as (o0 & Ho0 & ->).
      destruct (Order.id o0 =? oid); [reflexivity | now apply Hopen].
  - constructor; try assumption.
    + now apply keys_ok_insert.
    + intros r Hr. simpl in Hr. apply in_app_iff in Hr as [Hr | [<- | []]];
        [now apply Hpos | exact Hnl].
  - constructor; try assumption.
    + now apply keys_ok_update.
    + intros r Hr. apply in_sql_update in Hr as (r0 & Hr0 & ->).
      destruct (Infection.id r0 =? rid); [exact Hnl | now apply Hpos].
  - constructor; try assumption.
    + now apply keys_ok_delete.
    + intros r Hr. simpl in Hr. apply filter_In in Hr as [Hr _]. now apply Hpos.
Qed.

(** Every store the pages get to from a fresh database is well formed. *)
Lemma reachable_wf (s : Store) : reachable s -> wf_store s.
Proof.
  induction 1 as [|s s' _ IH Hstep].
  - exact wf_empty_store.
  - apply (ledger_effect_wf s s' IH). now apply step_ledger_effect.
Qed.

(** On a reachable store, editing a contamination record within its batch
    and deleting one preserve the invariant without further assumptions. *)
Lemma contamination_edit_delete_on_reachable (s s' : Store) :
  reachable s -> healthy_nonneg s ->
  (forall rid eb nl na ty d notes,
     (forall r, In r (rows (infection_records s)) -> Infection.id r = rid ->
                Infection.batch_id r = eb) ->
     edit_infection_form s rid eb nl na ty d notes = Success s' ->
     healthy_nonneg s')
  /\ (forall rid, delete_infection_button s rid = Success s' -> healthy_nonneg s').
Proof.
  intros Hreach Hinv. apply reachable_wf in Hreach as [_ _ [Hnd _] Hpos].
  split.
  - intros rid eb nl na ty d notes Hsame H.
    now apply (edit_infection_form_same_batch s s' rid eb nl na ty d notes Hnd Hsame Hinv).
  - intros rid H. now apply (delete_infection_button_preserves s s' rid Hpos Hinv).
Qed.

(** Through the pages: an order marked complete on the "Mark Complete" tab
    and then marked incomplete again leaves a reachable store exactly as it
    was. *)
Lemma complete_order_form_roundtrip (s s1 : Store) (oid : Z) (d : date) :
  reachable s ->
  complete_order_form s oid d = Success s1 ->
  mark_incomplete_button s1 oid = Success s.
Proof.
  intros Hreach H. apply reachable_wf in Hreach as [[Hnd _] Hopen _ _].
  unfold complete_order_form in H.
  destruct (active_orders (get_orders s)) as [|a0 acts] eqn:Hact; [discriminate|].
  bind_inv H. apply selectbox_inv in Hm as [-> Hsel].
  bind_inv H. injection H as <-.
  apply in_map_iff in Hsel as (o & Hoid & Ho). rewrite <- Hact in Ho.
  unfold active_orders in Ho. apply filter_In in Ho as [Ho Hc].
  unfold get_orders, order_by_desc in Ho. apply sort_by_in in Ho.
  apply Z.eqb_eq in Hc.
  assert (Hall : forall x, In x (rows (orders s)) -> Order.id x = oid -> is_open x).
  { intros x Hx Hxid.
    assert (x = o) by (apply (unique_by_id Order.id _ _ _ Hnd Hx Ho); lia).
    subst x. split; [assumption | now apply Hopen]. }
  unfold mark_incomplete_button.
  set (done := Order.mk (Order.id o) (Order.client_name o) (Order.cultivar o)
                 (Order.num_plants o) (Order.plant_size o) (Order.order_date o)
                 (Order.delivery_quantity o) (Order.is_recurring o) 1 (Some d)
                 (Order.notes o) (Order.created_at o)).
  assert (Hdone : In done (completed_orders (get_orders (mark_order_completed s oid d)))).
  { unfold completed_orders. apply filter_In. split; [|reflexivity].
    unfold get_orders, order_by_desc. apply sort_by_in. simpl.
    apply in_map_iff. exists o. split; [|assumption].
    replace (Order.id o =? oid) with true by (symmetry; now apply Z.eqb_eq).
    reflexivity. }
  destruct (completed_orders _) as [|c0 cs] eqn:Hcomp; [contradiction|].
  rewrite selectbox_offered.
  - cbn [bind]. f_equal.
    now apply (reopen_after_complete_identity s oid d).
  - rewrite <- Hoid. change (Order.id o) with (Order.id done).
    now apply in_map.
Qed.

(** * Further properties of the code *)

(** ** Rooting: what the three write paths keep *)

(** X1. On the "Record Rooting" form, a placement that would take the
    transfer's cumulative [num_placed] above its [explants_out] is never
    accepted, and an accepted placement raises the cumulative count by
    exactly [num_placed] and leaves it within [explants_out]. *)
Theorem record_rooting_keeps_transfer_bound (s : Store) (now tid np : Z)
    (d : date) (nr : Z) (rd : option date) (notes : string) (t : Transfer.t)
    (tl : list Transfer.t) :
  filter (fun t => Transfer.id t =? tid)
         (rooting_transfers_of (get_transfer_records s None)) = t :: tl ->
  (cumulative_num_placed s tid + np > Transfer.explants_out t ->
   accepted (rooting_form s now tid np d nr rd notes) = false)
  /\ (forall s' rid,
        rooting_form s now tid np d nr rd notes = Success (s', rid) ->
        cumulative_num_placed s' tid = cumulative_num_placed s tid + np
        /\ cumulative_num_placed s' tid <= Transfer.explants_out t).
Proof.
  intros Hf. split.
  - now apply rooting_form_rejects_excess with (t := t) (tl := tl).
  - intros s' rid H.
    apply rooting_form_preserves_bound in H as (t' & tl' & Hf' & Hcum & Hle).
    rewrite Hf in Hf'. injection Hf' as <- <-. now split.
Qed.

Lemma record_rooting_keeps_transfer_bound_witness :
  accepted (rooting_form store_placed30 0 1 21 40 0 None EmptyString) = false
  /\ cumulative_num_placed
       (fst (add_rooting_record store_placed30 0 (Some 1) 1 20 40 None None
               EmptyString)) 1 <= 50.
Proof.
  split.
  - apply (record_rooting_keeps_transfer_bound store_placed30 0 1 21 40 0 None
             EmptyString
             (Transfer.mk 1 1 None 40 20 50 "Rooting Media" None None 1
                          (Some EmptyString) 0) [] eq_refl).
    reflexivity.
  - apply (record_rooting_keeps_transfer_bound store_placed30 0 1 20 40 0 None
             EmptyString
             (Transfer.mk 1 1 None 40 20 50 "Rooting Media" None None 1
                          (Some EmptyString) 0) [] eq_refl) with (rid := 2).
    reflexivity.
Defined.

(** X2. The "Update Rooting Status" form, on a table with unique ids, leaves
    the updated record with [num_rooted] set to the submitted value, between
    0 and the record's [num_placed], and does not change its [num_placed],
    transfer, batch or placement date. *)
Theorem rooting_status_update_within_placed (s s' : Store) (flt : option Z)
    (rid nr : Z) (d : date) :
  NoDup (map Rooting.id (rows (rooting_records s))) ->
  update_rooting_form s flt rid nr d = Success s' ->
  exists r0,
    In r0 (rows (rooting_records s)) /\ Rooting.id r0 = rid
    /\ 0 <= nr <= Rooting.num_placed r0
    /\ forall r, In r (rows (rooting_records s')) -> Rooting.id r = rid ->
         r = Rooting.mk rid (Rooting.transfer_id r0) (Rooting.batch_id r0)
               (Rooting.num_placed r0) (Rooting.placement_date r0)
               (Some nr) (Some d) (Rooting.notes r0) (Rooting.created_at r0).
Proof.
  intros Hnd H. unfold update_rooting_form in H.
  destruct (get_explant_batches s None) as [|b0 bs]; [discriminate|].
  bind_inv H as flt'.
  destruct (get_rooting_records s flt' None) as [|r1 rs] eqn:Hrec; [discriminate|].
  bind_inv H. apply selectbox_inv in Hm0 as [-> _].
  bind_inv H as sel. apply iloc0_inv in Hm0 as [tl Htl].
  bind_inv H. apply number_input_value_inv in Hm0 as [-> Hb].
  injection H as <-.
  apply filter_head_in in Htl as [Hsel Hselid]. apply Z.eqb_eq in Hselid.
  rewrite <- Hrec in Hsel. apply get_rooting_records_in in Hsel.
  exists sel. split; [assumption|]. split; [assumption|]. split.
  - unfold in_bounds in Hb. apply andb_true_iff in Hb as [Hlo Hhi].
    apply Z.leb_le in Hlo. apply Z.leb_le in Hhi. lia.
  - intros r Hr Hid. apply in_sql_update in Hr as (r0 & Hr0 & ->).
    destruct (Rooting.id r0 =? rid) eqn:E.
    + apply Z.eqb_eq in E.
      assert (r0 = sel) by (apply (unique_by_id Rooting.id _ _ _ Hnd Hr0 Hsel); lia).
      subst r0. now rewrite Hselid.
    + apply Z.eqb_neq in E. contradiction.
Qed.

Lemma rooting_status_update_within_placed_witness :
  exists r0, In r0 (rows (rooting_records store_placed30))
             /\ 0 <= 12 <= Rooting.num_placed r0.
Proof.
  destruct (rooting_status_update_within_placed store_placed30
              (update_rooting_record store_placed30 1 (Some 12) (Some 45))
              None 1 12 45)
    as (r0 & Hin & _ & Hb & _).
  - repeat constructor. simpl. tauto.
  - reflexivity.
  - exists r0. split; assumption.
Defined.

(** X3. The "Edit Rooting Record" form leaves every record it rewrites with
    [num_placed >= 1] and with [num_rooted] either unset (when 0 was
    entered) or between 1 and the new [num_placed]. *)
Theorem rooting_edit_within_placed (s s' : Store) (rid tid b np : Z) (d : date)
    (nr : Z) (rd : option date) (notes : string) :
  edit_rooting_form s rid tid b np d nr rd notes = Success s' ->
  1 <= np /\ 0 <= nr <= np
  /\ forall r, In r (rows (rooting_records s')) -> Rooting.id r = rid ->
       Rooting.num_placed r = np
       /\ Rooting.num_rooted r = (if nr >? 0 then Some nr else None)
       /\ rooted_within_placed r.
Proof.
  intros H. pose proof (edit_rooting_form_bound _ _ _ _ _ _ _ _ _ _ H) as Hbound.
  unfold edit_rooting_form in H.
  destruct (get_rooting_records s None None) as [|r1 rs]; [discriminate|].
  bind_inv H. apply selectbox_inv in Hm as [-> _].
  bind_inv H as sel.
  bind_inv H as tid'.
  bind_inv H as b'.
  bind_inv H. apply number_input_value_inv in Hm2 as [-> Hnp].
  bind_inv H. apply number_input_value_inv in Hm2 as [-> Hnr].
  injection H as <-.
  apply in_bounds_lower in Hnp.
  unfold in_bounds in Hnr. apply andb_true_iff in Hnr as [Hlo Hhi].
  apply Z.leb_le in Hlo. apply Z.leb_le in Hhi.
  split; [assumption|]. split; [lia|].
  intros r Hr Hid. split; [|split; [|now apply Hbound]].
  - apply in_sql_update in Hr as (r0 & _ & ->).
    destruct (Rooting.id r0 =? rid) eqn:E; [reflexivity|].
    apply Z.eqb_neq in E. contradiction.
  - apply in_sql_update in Hr as (r0 & _ & ->).
    destruct (Rooting.id r0 =? rid) eqn:E; [reflexivity|].
    apply Z.eqb_neq in E. contradiction.
Qed.

Lemma rooting_edit_within_placed_witness :
  1 <= 25 /\ 0 <= 5 <= 25
  /\ Forall rooted_within_placed
       (rows (rooting_records
                (update_rooting_record_full store_placed30 1 (Some 1) 1 25 40
                   (Some 5) None EmptyString))).
Proof.
  destruct (rooting_edit_within_placed store_placed30
              (update_rooting_record_full store_placed30 1 (Some 1) 1 25 40
                 (Some 5) None EmptyString)
              1 1 1 25 40 5 None EmptyString eq_refl) as (H1 & H2 & Hall).
  split; [exact H1|]. split; [exact H2|].
  constructor; [|constructor].
  apply Hall; [left|]; reflexivity.
Defined.

(** ** Tables: keys and row properties under the three statements *)

Lemma primary_key_empty {R : Type} (id : R -> Z) : primary_key id (@empty_table R).
Proof. repeat split; [constructor | simpl; lia | constructor]. Qed.

Lemma primary_key_insert {R : Type} (id : R -> Z) (mk : Z -> R) (t : table R) :
  (forall i, id (mk i) = i) ->
  primary_key id t -> primary_key id (fst (sql_insert mk t)).
Proof.
  intros Hmk (Hnd & Hseq & Hall). rewrite Forall_forall in Hall.
  repeat split; simpl.
  - rewrite map_app. simpl. rewrite Hmk.
    apply NoDup_app; [assumption | repeat constructor; intros [] |].
    intros i Hi [<- | []]. apply in_map_iff in Hi as (r & Hr & Hin).
    specialize (Hall r Hin). lia.
  - lia.
  - apply Forall_forall. intros r Hr. apply in_app_iff in Hr as [Hr | [<- | []]].
    + specialize (Hall r Hr). lia.
    + rewrite Hmk. lia.
Qed.

Lemma primary_key_update {R : Type} (id : R -> Z) (p : R -> bool) (f : R -> R)
    (t : table R) :
  (forall r, id (f r) = id r) ->
  primary_key id t -> primary_key id (sql_update p f t).
Proof.
  intros Hf (Hnd & Hseq & Hall). rewrite Forall_forall in Hall.
  assert (Hids : map id (rows (sql_update p f t)) = map id (rows t)).
  { simpl. rewrite map_map. apply map_ext. intros r. destruct (p r); [apply Hf | reflexivity]. }
  repeat split.
  - now rewrite Hids.
  - exact Hseq.
  - apply Forall_forall. intros r Hr. apply in_sql_update in Hr as (r0 & Hr0 & ->).
    specialize (Hall r0 Hr0). simpl. destruct (p r0); [rewrite Hf|]; exact Hall.
Qed.

Lemma primary_key_delete {R : Type} (id : R -> Z) (p : R -> bool) (t : table R) :
  primary_key id t -> primary_key id (sql_delete p t).
Proof.
  intros (Hnd & Hseq & Hall). rewrite Forall_forall in Hall.
  repeat split; simpl.
  - now apply NoDup_map_filter.
  - exact Hseq.
  - apply Forall_forall. intros r Hr. apply filter_In in Hr as [Hr _]. now apply Hall.
Qed.

Lemma primary_key_keys_ok {R : Type} (id : R -> Z) (t : table R) :
  primary_key id t -> keys_ok id t.
Proof.
  intros (Hnd & _ & Hall). rewrite Forall_forall in Hall. split; [assumption|].
  intros r Hr. specialize (Hall r Hr). lia.
Qed.

Lemma rows_insert {R : Type} (P : R -> Prop) (mk : Z -> R) (t : table R) :
  Forall P (rows t) -> P (mk (seq t + 1)) ->
  Forall P (rows (fst (sql_insert mk t))).
Proof. intros Hall Hnew. simpl. apply Forall_app. split; [assumption | now constructor]. Qed.

Lemma rows_update {R : Type} (P : R -> Prop) (p : R -> bool) (f : R -> R)
    (t : table R) :
  Forall P (rows t) ->
  (forall r, In r (rows t) -> p r = true -> P (f r)) ->
  Forall P (rows (sql_update p f t)).
Proof.
  intros Hall Hf. rewrite Forall_forall in *. intros r Hr.
  apply in_sql_update in Hr as (r0 & Hr0 & ->).
  destruct (p r0) eqn:E; [now apply Hf | now apply Hall].
Qed.

Lemma rows_delete {R : Type} (P : R -> Prop) (p : R -> bool) (t : table R) :
  Forall P (rows t) -> Forall P (rows (sql_delete p t)).
Proof.
  intros Hall. rewrite Forall_forall in *. intros r Hr.
  simpl in Hr. apply filter_In in Hr as [Hr _]. now apply Hall.
Qed.

Lemma ids_update {R : Type} (id : R -> Z) (p : R -> bool) (f : R -> R)
    (t : table R) :
  (forall r, id (f r) = id r) ->
  map id (rows (sql_update p f t)) = map id (rows t).
Proof.
  intros Hf. simpl. rewrite map_map. apply map_ext.
  intros r. destruct (p r); [apply Hf | reflexivity].
Qed.

(** Rows that point at a batch stay valid while the set of batch ids only
    grows. *)
Lemma infection_ok_mono (b b' : table Batch.t) (l : list Infection.t) :
  (forall i, In i (map Batch.id (rows b)) -> In i (map Batch.id (rows b'))) ->
  Forall (infection_ok b) l -> Forall (infection_ok b') l.
Proof.
  intros Hsub. apply Forall_impl. intros r [Hin Hrest]. split; [now apply Hsub | exact Hrest].
Qed.

Lemma transfer_ok_mono (b b' : table Batch.t) (l : list Transfer.t) :
  (forall i, In i (map Batch.id (rows b)) -> In i (map Batch.id (rows b'))) ->
  Forall (transfer_ok b) l -> Forall (transfer_ok b') l.
Proof.
  intros Hsub. apply Forall_impl. intros r [Hin Hrest]. split; [now apply Hsub | exact Hrest].
Qed.

Lemma consistent_empty_store : consistent empty_store.
Proof.
  constructor; try apply primary_key_empty; constructor.
Qed.

(** A batch id other than the deleted one is still a batch id. *)
Lemma batch_id_survives (t : table Batch.t) (b i : Z) :
  In i (map Batch.id (rows t)) -> i <> b ->
  In i (map Batch.id (rows (sql_delete (fun x => Batch.id x =? b) t))).
Proof.
  intros Hin Hne. apply in_map_iff in Hin as (x & Hx & Hin).
  apply in_map_iff. exists x. split; [assumption|]. simpl.
  apply filter_In. split; [assumption|].
  apply negb_true_iff. apply Z.eqb_neq. lia.
Qed.

(** Each database operation, called with arguments the forms let through,
    keeps the database consistent. *)
Lemma db_effect_consistent (s s' : Store) :
  consistent s -> db_effect s s' -> consistent s'.
Proof.
  intros [Ko Kb Ki Kt Kr Kd Kl Ku Ho Hb Hi Ht Hr Hd Hl] Heff.
  destruct Heff as
    [ now c cv np ps od dq rec notes Hnp Hdq ->
    | oid c cv np ps od dq rec notes Hnp Hdq ->
    | oid -> | oid d -> | oid ->
    | now oid name n et mt h a d notes ps Hn _ ->
    | b oid name n et mt h a d notes ps Hn _ ->
    | b ->
    | now b nl na ty d notes Hin Hnl Hna ->
    | rid b nl na ty d notes Hin Hnl Hna ->
    | rid ->
    | now b par d ein eout media h a mult notes Hin Hpar Hein Heout ->
    | tid b par d ein eout media h a mult notes Hin Hpar Hein Heout ->
    | tid ->
    | now tid b np d nr rd notes Hnp Hnr _ ->
    | rid nr rd Hnr ->
    | rid tid b np d nr rd notes Hnp Hnr _ _ ->
    | rid ->
    | now oid b n d m notes Hn _ _ ->
    | rid oid b n d m notes Hn _ _ ->
    | rid ->
    | now oid uuid c cv od d st ps n notes lid Hn _ Hadd
    | lid -> ].
  - (* add_order *)
    constructor; try assumption.
    + now apply primary_key_insert.
    + apply rows_insert; [assumption|].
      repeat split; [exact Hnp | now exists dq | now left].
  - (* update_order *)
    constructor; try assumption.
    + now apply primary_key_update.
    + apply rows_update; [assumption|]. intros o Hin _.
      rewrite Forall_forall in Ho. destruct (Ho o Hin) as (_ & _ & Hc).
      repeat split; [exact Hnp | now exists dq | exact Hc].
  - (* delete_order *)
    constructor; try assumption.
    + now apply primary_key_delete.
    + now apply rows_delete.
  - (* mark_order_completed *)
    constructor; try assumption.
    + now apply primary_key_update.
    + apply rows_update; [assumption|]. intros o Hin _.
      rewrite Forall_forall in Ho. destruct (Ho o Hin) as (H1 & H2 & _).
      repeat split; [exact H1 | exact H2 | right; split; [reflexivity | discriminate]].
  - (* mark_order_incomplete *)
    constructor; try assumption.
    + now apply primary_key_update.
    + apply rows_update; [assumption|]. intros o Hin _.
      rewrite Forall_forall in Ho. destruct (Ho o Hin) as (H1 & H2 & _).
      repeat split; [exact H1 | exact H2 | now left].
  - (* add_explant_batch *)
    constructor; try assumption.
    + now apply primary_key_insert.
    + apply rows_insert; [assumption | exact Hn].
    + eapply infection_ok_mono; [|exact Hi].
      intros i Hi'. simpl. rewrite map_app. apply in_app_iff. now left.
    + eapply transfer_ok_mono; [|exact Ht].
      intros i Hi'. simpl. rewrite map_app. apply in_app_iff. now left.
  - (* update_explant_batch *)
    constructor; try assumption.
    + now apply primary_key_update.
    + apply rows_update; [assumption|]. intros x _ _. exact Hn.
    + eapply infection_ok_mono; [|exact Hi].
      intros i Hi'. cbn [explant_batches update_explant_batch with_explant_batches].
      now rewrite ids_update.
    + eapply transfer_ok_mono; [|exact Ht].
      intros i Hi'. cbn [explant_batches update_explant_batch with_explant_batches].
      now rewrite ids_update.
  - (* delete_explant_batch *)
    constructor; try assumption; cbn.
    + now apply (primary_key_delete Batch.id (fun x => Batch.id x =? b)).
    + now apply (primary_key_delete Infection.id (fun r => Infection.batch_id r =? b)).
    + now apply (primary_key_delete Transfer.id (fun r => Transfer.batch_id r =? b)).
    + now apply (primary_key_delete Rooting.id (fun r => Rooting.batch_id r =? b)).
    + now apply (rows_delete batch_ok (fun x => Batch.id x =? b)).
    + rewrite Forall_forall in *. intros r Hrow.
      apply filter_In in Hrow as [Hrow Hne]. apply negb_true_iff, Z.eqb_neq in Hne.
      destruct (Hi r Hrow) as [Hin Hrest]. split; [|exact Hrest].
      now apply (batch_id_survives (explant_batches s)).
    + rewrite Forall_forall in *. intros r Hrow.
      apply filter_In in Hrow as [Hrow Hne]. apply negb_true_iff, Z.eqb_neq in Hne.
      destruct (Ht r Hrow) as [Hin Hrest]. split; [|exact Hrest].
      now apply (batch_id_survives (explant_batches s)).
    + now apply (rows_delete rooting_ok (fun r => Rooting.batch_id r =? b)).
  - (* add_infection_record *)
    constructor; try assumption.
    + now apply primary_key_insert.
    + apply rows_insert; [assumption|].
      split; [exact Hin|]. exists nl, na. now repeat split.
  - (* update_infection_record *)
    constructor; try assumption.
    + now apply primary_key_update.
    + apply rows_update; [assumption|]. intros r _ _.
      split; [exact Hin|]. exists nl, na. now repeat split.
  - (* delete_infection_record *)
    constructor; try assumption.
    + now apply primary_key_delete.
    + now apply rows_delete.
  - (* add_transfer_record *)
    constructor; try assumption.
    + now apply primary_key_insert.
    + apply rows_insert; [assumption|].
      repeat split; try assumption. simpl. intros Hp.
      apply Hpar in Hp. apply in_map_iff in Hp as (t0 & Hid & Ht0).
      destruct Kt as (_ & _ & Hall). rewrite Forall_forall in Hall.
      specialize (Hall t0 Ht0). lia.
  - (* update_transfer_record *)
    constructor; try assumption.
    + now apply primary_key_update.
    + apply rows_update; [assumption|]. intros r _ Hsel.
      apply Z.eqb_eq in Hsel.
      repeat split; try assumption. simpl. rewrite Hsel.
      intros Hp. destruct (Hpar tid Hp) as [Hne _]. now apply Hne.
  - (* delete_transfer_record *)
    constructor; try assumption; cbn.
    + now apply (primary_key_delete Transfer.id (fun r => Transfer.id r =? tid)).
    + now apply (primary_key_delete Rooting.id
                   (fun r => fk_eqb (Rooting.transfer_id r) tid)).
    + now apply (rows_delete _ (fun r => Transfer.id r =? tid)).
    + now apply (rows_delete rooting_ok (fun r => fk_eqb (Rooting.transfer_id r) tid)).
  - (* add_rooting_record *)
    constructor; try assumption.
    + now apply primary_key_insert.
    + apply rows_insert; [assumption|]. split; [exact Hnp|]. simpl.
      destruct nr; [now apply Hnr | exact I].
  - (* update_rooting_record *)
    constructor; try assumption.
    + now apply primary_key_update.
    + apply rows_update; [assumption|]. intros r Hin _.
      rewrite Forall_forall in Hr. destruct (Hr r Hin) as [Hp _].
      split; [exact Hp | exact Hnr].
  - (* update_rooting_record_full *)
    constructor; try assumption.
    + now apply primary_key_update.
    + apply rows_update; [assumption|]. intros r _ _.
      split; [exact Hnp|]. simpl. destruct nr; [now apply Hnr | exact I].
  - (* delete_rooting_record *)
    constructor; try assumption.
    + now apply primary_key_delete.
    + now apply rows_delete.
  - (* add_delivery_record *)
    constructor; try assumption.
    + now apply primary_key_insert.
    + apply rows_insert; [assumption|]. split; [exact Hn | discriminate].
  - (* update_delivery_record *)
    constructor; try assumption.
    + now apply primary_key_update.
    + apply rows_update; [assumption|]. intros r _ _.
      split; [exact Hn | discriminate].
  - (* delete_delivery_record *)
    constructor; try assumption.
    + now apply primary_key_delete.
    + now apply rows_delete.
  - (* add_label *)
    unfold add_label in Hadd.
    destruct (existsb _ _) eqn:Hex; [discriminate|].
    apply success_fst in Hadd. subst s'.
    set (mk := fun i => Label.mk i oid uuid c cv od d st ps (Some n) (Some notes) now).
    constructor; try assumption.
    + now apply (primary_key_insert Label.id mk (labels s)).
    + cbn. rewrite map_app. cbn.
      apply NoDup_app; [assumption | repeat constructor; intros [] |].
      intros u Hu [<- | []]. apply in_map_iff in Hu as (l & Hlu & Hin).
      assert (Hex' : existsb (fun l => String.eqb (Label.label_uuid l) uuid)
                       (rows (labels s)) = true).
      { apply existsb_exists. exists l. split; [assumption|].
        now apply String.eqb_eq. }
      congruence.
    + apply (rows_insert label_ok mk (labels s)); [assumption|]. now exists n.
  - (* delete_label *)
    constructor; try assumption.
    + now apply primary_key_delete.
    + cbn. induction (rows (labels s)) as [|x l IH]; cbn; [constructor|].
      inversion Ku as [|? ? Hx Hnd]; subst.
      inversion Hl as [|? ? _ Hl']; subst.
      destruct (negb (Label.id x =? lid)); cbn; [|now apply IH].
      constructor; [|now apply IH].
      intros Hin. apply Hx. apply in_map_iff in Hin as (y & Hy & Hin).
      apply filter_In in Hin as [Hin _]. rewrite <- Hy. now apply in_map.
    + now apply rows_delete.
Qed.

(** ** From an accepted form to its database operation *)

Lemma get_explant_batches_in (s : Store) (o : option Z) (b : Batch.t) :
  In b (get_explant_batches s o) -> In b (rows (explant_batches s)).
Proof.
  unfold get_explant_batches, order_by_desc.
  destruct (truthy o); rewrite sort_by_in; try rewrite filter_In; tauto.
Qed.

Lemma get_transfer_records_in (s : Store) (b : option Z) (t : Transfer.t) :
  In t (get_transfer_records s b) -> In t (rows (transfer_records s)).
Proof.
  unfold get_transfer_records, order_by_desc.
  destruct (truthy b); rewrite sort_by_in; try rewrite filter_In; tauto.
Qed.

Lemma get_orders_in (s : Store) (o : Order.t) :
  In o (get_orders s) <-> In o (rows (orders s)).
Proof. unfold get_orders, order_by_desc. apply sort_by_in. Qed.

Lemma batch_id_offered (s : Store) (o : option Z) (i : Z) :
  In i (map Batch.id (get_explant_batches s o)) ->
  In i (map Batch.id (rows (explant_batches s))).
Proof.
  intros H. apply in_map_iff in H as (b & <- & Hb).
  apply in_map. now apply get_explant_batches_in in Hb.
Qed.

Lemma transfer_id_offered (s : Store) (b : option Z) (i : Z) :
  In i (map Transfer.id (get_transfer_records s b)) ->
  In i (map Transfer.id (rows (transfer_records s))).
Proof.
  intros H. apply in_map_iff in H as (t & <- & Ht).
  apply in_map. now apply get_transfer_records_in in Ht.
Qed.

(** Peels a successful form run down to its last statement. *)
Ltac form_inv H :=
  repeat lazymatch type of H with
  | bind _ _ = Success _ => bind_inv H
  | (match ?x with _ => _ end) = Success _ =>
      let E := fresh "E" in destruct x eqn:E; try discriminate H
  end.

(** Reads the value and the check off every widget that returned. *)
Ltac widget_inv :=
  repeat match goal with
  | H : number_input_value _ _ _ _ _ = Success _ |- _ =>
      apply number_input_value_inv in H as [-> H]
  | H : number_input _ _ _ _ = Success _ |- _ =>
      apply number_input_inv in H as [-> H]
  | H : selectbox _ _ _ = Success _ |- _ =>
      apply selectbox_inv in H as [-> H]
  | H : selectbox_str _ _ _ = Success _ |- _ =>
      apply selectbox_str_inv in H as [-> H]
  | H : in_bounds (Some _) _ _ = true |- _ =>
      apply in_bounds_lower in H
  | H : (match ?x with _ => _ end) = Success _ |- _ =>
      let E := fresh "E" in destruct x eqn:E; try discriminate H
  | H : bind _ _ = Success _ |- _ => bind_inv H
  | H : Success _ = Success ?a |- _ => is_var a; injection H as <-
  end.

(** Puts the queries back where a case analysis named their rows. *)
Ltac relist :=
  repeat match goal with
  | E : _ = _ :: _ |- _ => try rewrite <- E in *; clear E
  end.

Lemma new_order_form_effect s now c cv np dq ps od rec notes s' oid :
  new_order_form s now c cv np dq ps od rec notes = Success (s', oid) ->
  db_effect s s'.
Proof.
  intros H. unfold new_order_form in H. form_inv H. widget_inv.
  apply success_fst in H. eapply eff_add_order; [| | exact H]; assumption.
Qed.

Lemma edit_order_form_effect s oid c cv np dq ps od rec notes s' :
  edit_order_form s oid c cv np dq ps od rec notes = Success s' ->
  db_effect s s'.
Proof.
  intros H. unfold edit_order_form in H. form_inv H. widget_inv.
  eapply eff_update_order; [| | reflexivity]; assumption.
Qed.

Lemma order_buttons_effect s s' :
  (forall oid, delete_order_button s oid = Success s' -> db_effect s s')
  /\ (forall oid d, complete_order_form s oid d = Success s' -> db_effect s s')
  /\ (forall oid, mark_incomplete_button s oid = Success s' -> db_effect s s').
Proof.
  repeat split.
  - intros oid H. unfold delete_order_button in H. form_inv H. widget_inv.
    now eapply eff_delete_order.
  - intros oid d H. unfold complete_order_form in H. form_inv H. widget_inv.
    now eapply eff_complete_order.
  - intros oid H. unfold mark_incomplete_button in H. form_inv H. widget_inv.
    now eapply eff_reopen_order.
Qed.

Lemma order_link_inv (s : Store) (choice chosen : option Z) :
  order_link (get_orders s) choice = Success chosen ->
  forall o, chosen = Some o -> In o (map Order.id (rows (orders s))).
Proof.
  unfold order_link. intros H o ->.
  destruct (get_orders s) as [|o0 os] eqn:E; [discriminate|].
  destruct choice as [c|]; [|discriminate].
  bind_inv H. apply selectbox_inv in Hm as [-> Hin]. injection H as ->.
  rewrite <- E in Hin. apply in_map_iff in Hin as (x & <- & Hx).
  apply in_map. now apply get_orders_in.
Qed.

Lemma batch_forms_effect s s' :
  (forall now oid name n et mt d h a notes ps bid,
     new_batch_form s now oid name n et mt d h a notes ps = Success (s', bid) ->
     db_effect s s')
  /\ (forall b oid name n et mt d ps h a notes,
        edit_batch_form s b oid name n et mt d ps h a notes = Success s' ->
        db_effect s s')
  /\ (forall b, delete_batch_button s b = Success s' -> db_effect s s').
Proof.
  repeat split.
  - intros now oid name n et mt d h a notes ps bid H.
    unfold new_batch_form in H. form_inv H. widget_inv.
    apply success_fst in H.
    eapply eff_add_batch; [| | exact H];
      [assumption | eapply order_link_inv; eassumption].
  - intros b oid name n et mt d ps h a notes H.
    unfold edit_batch_form in H. form_inv H. widget_inv.
    eapply eff_update_batch; [| | reflexivity];
      [assumption | eapply order_link_inv; eassumption].
  - intros b H. unfold delete_batch_button in H. form_inv H. widget_inv.
    now eapply eff_delete_batch.
Qed.

Lemma contamination_forms_effect s s' :
  (forall now b nl na ty d notes rid,
     infection_form s now b nl na ty d notes = Success (s', rid) ->
     db_effect s s')
  /\ (forall rid b nl na ty d notes,
        edit_infection_form s rid b nl na ty d notes = Success s' ->
        db_effect s s')
  /\ (forall rid, delete_infection_button s rid = Success s' -> db_effect s s').
Proof.
  repeat split.
  - intros now b nl na ty d notes rid H.
    unfold infection_form in H. form_inv H. widget_inv.
    unfold infection_form_submitted in H. form_inv H.
    apply success_fst in H. relist.
    apply batch_id_offered in Hm.
    now apply (eff_add_contamination s s' now b nl na ty d notes).
  - intros rid b nl na ty d notes H.
    unfold edit_infection_form in H. form_inv H. widget_inv.
    relist. apply batch_id_offered in Hm1.
    now apply (eff_update_contamination s _ rid b nl na ty d notes).
  - intros rid H. unfold delete_infection_button in H. form_inv H. widget_inv.
    now eapply eff_delete_contamination.
Qed.

Lemma transfer_forms_effect s s' :
  (forall now b par ein eout media d mult h a notes tid,
     transfer_form s now b par ein eout media d mult h a notes
     = Success (s', tid) -> db_effect s s')
  /\ (forall tid b par ein eout media d mult h a notes,
        edit_transfer_form s tid b par ein eout media d mult h a notes
        = Success s' -> db_effect s s')
  /\ (forall tid, delete_transfer_button s tid = Success s' -> db_effect s s').
Proof.
  repeat split.
  - intros now b par ein eout media d mult h a notes tid H.
    unfold transfer_form in H. form_inv H. widget_inv.
    all: apply success_fst in H; relist; apply batch_id_offered in Hm.
    all: eapply eff_add_transfer; [| | | | exact H]; try assumption;
      try discriminate.
    intros p [= <-].
    match goal with
    | Hp : In _ (map Transfer.id (get_transfer_records _ _)) |- _ =>
        now apply transfer_id_offered in Hp
    end.
  - intros tid b par ein eout media d mult h a notes H.
    unfold edit_transfer_form in H. form_inv H. widget_inv.
    all: relist; apply batch_id_offered in Hm1.
    all: eapply eff_update_transfer; [| | | | reflexivity]; try assumption;
      try discriminate.
    intros p [= <-].
    match goal with
    | Hp : In _ (filter _ _) |- _ =>
        apply filter_In in Hp as [Hoff Hne];
        apply negb_true_iff, Z.eqb_neq in Hne;
        split; [exact Hne | now apply transfer_id_offered in Hoff]
    end.
  - intros tid H. unfold delete_transfer_button in H. form_inv H. widget_inv.
    now eapply eff_delete_transfer.
Qed.

Lemma gtb_some_nonneg (v n : Z) :
  (if v >? 0 then Some v else None) = Some n -> 0 <= n.
Proof.
  destruct (v >? 0) eqn:E; [|discriminate]. intros [= <-].
  rewrite Z.gtb_ltb in E. apply Z.ltb_lt in E. lia.
Qed.

Lemma rooting_forms_effect s s' :
  (forall now tid np d nr rd notes rid,
     rooting_form s now tid np d nr rd notes = Success (s', rid) ->
     db_effect s s')
  /\ (forall flt rid nr d,
        update_rooting_form s flt rid nr d = Success s' -> db_effect s s')
  /\ (forall rid tid b np d nr rd notes,
        edit_rooting_form s rid tid b np d nr rd notes = Success s' ->
        db_effect s s')
  /\ (forall rid, delete_rooting_button s rid = Success s' -> db_effect s s').
Proof.
  repeat split.
  - intros now tid np d nr rd notes rid H.
    unfold rooting_form in H. form_inv H. widget_inv.
    unfold rooting_form_submitted in H. form_inv H.
    apply success_fst in H.
    eapply eff_add_rooting; [| | | exact H];
      [assumption | intros n; apply gtb_some_nonneg |].
    apply iloc0_inv in Hm0 as (tl & Hsel).
    apply filter_head_in in Hsel as [Hsel Hid]. apply Z.eqb_eq in Hid.
    rewrite <- E in Hsel.
    unfold rooting_transfers_of in Hsel. apply filter_In in Hsel as [Hsel _].
    apply get_transfer_records_in in Hsel.
    exists a0. repeat split; [assumption | now rewrite Hid].
  - intros flt rid nr d H.
    unfold update_rooting_form in H. form_inv H. widget_inv.
    all: eapply eff_update_rooting; [| reflexivity]; assumption.
  - intros rid tid b np d nr rd notes H.
    unfold edit_rooting_form in H. form_inv H. widget_inv.
    all: relist.
    all: eapply eff_update_rooting_full; [| | | | reflexivity];
      [assumption | intros n; apply gtb_some_nonneg |
       | eapply batch_id_offered; eassumption].
    all: intros tsel Hsel; try discriminate.
    injection Hsel as <-.
    match goal with
    | Hp : In _ (map Transfer.id (rooting_transfers_of _)) |- _ =>
        apply in_map_iff in Hp as (x & <- & Hx);
        unfold rooting_transfers_of in Hx; apply filter_In in Hx as [Hx _];
        apply get_transfer_records_in in Hx; now apply in_map
    end.
  - intros rid H. unfold delete_rooting_button in H. form_inv H. widget_inv.
    now eapply eff_delete_rooting.
Qed.

Lemma order_batch_choice_inv (batches : list Batch.t) (oid : Z)
    (choice chosen : option Z) :
  order_batch_choice batches oid choice = Success chosen ->
  forall bid, chosen = Some bid ->
    exists x, In x batches /\ Batch.id x = bid /\ Batch.order_id x = Some oid.
Proof.
  unfold order_batch_choice. intros H bid ->.
  destruct (filter _ batches) as [|x0 xs] eqn:E; [destruct choice; discriminate|].
  destruct choice as [c|]; [|discriminate].
  bind_inv H. apply selectbox_inv in Hm as [-> Hin]. injection H as ->.
  rewrite <- E in Hin. apply in_map_iff in Hin as (x & Hid & Hx).
  apply filter_In in Hx as [Hx Hfk]. exists x. repeat split; try assumption.
  unfold fk_eqb in Hfk. destruct (Batch.order_id x) as [j|]; [|discriminate].
  apply Z.eqb_eq in Hfk. now subst.
Qed.

Lemma order_id_offered (s : Store) (i : Z) :
  In i (map Order.id (get_orders s)) -> In i (map Order.id (rows (orders s))).
Proof.
  intros H. apply in_map_iff in H as (o & <- & Ho).
  apply in_map. now apply get_orders_in.
Qed.

Lemma order_batch_choice_offered (s : Store) (oid : Z) (choice chosen : option Z) :
  order_batch_choice (get_explant_batches s None) oid choice = Success chosen ->
  forall bid, chosen = Some bid ->
              In bid (map Batch.id (rows (explant_batches s))).
Proof.
  intros H bid Hb.
  destruct (order_batch_choice_inv _ _ _ _ H bid Hb) as (x & Hx & <- & _).
  apply in_map. now apply get_explant_batches_in in Hx.
Qed.

Lemma delivery_forms_effect s s' :
  (forall now oid b n d m notes rid,
     delivery_form s now oid b n d m notes = Success (s', rid) ->
     db_effect s s')
  /\ (forall rid oid b n d m notes,
        edit_delivery_form s rid oid b n d m notes = Success s' ->
        db_effect s s')
  /\ (forall rid, delete_delivery_button s rid = Success s' -> db_effect s s').
Proof.
  repeat split.
  - intros now oid b n d m notes rid H.
    unfold delivery_form in H. form_inv H. widget_inv.
    apply success_fst in H. relist.
    eapply eff_add_delivery; [| | | exact H];
      [assumption | now apply order_id_offered
      | eapply order_batch_choice_offered; eassumption].
  - intros rid oid b n d m notes H.
    unfold edit_delivery_form in H. form_inv H. widget_inv. relist.
    eapply eff_update_delivery; [| | | reflexivity];
      [assumption | now apply order_id_offered
      | eapply order_batch_choice_offered; eassumption].
  - intros rid H. unfold delete_delivery_button in H. form_inv H. widget_inv.
    now eapply eff_delete_delivery.
Qed.

Lemma in_bounds_both (lo hi v : Z) :
  in_bounds (Some lo) (Some hi) v = true -> lo <= v <= hi.
Proof.
  unfold in_bounds. intros H. apply andb_true_iff in H as [H1 H2].
  apply Z.leb_le in H1. apply Z.leb_le in H2. lia.
Qed.

Lemma label_order_in (s : Store) (cv : string) (o : Order.t) :
  label_order s cv = Success o -> In o (rows (orders s)).
Proof.
  unfold label_order. intros H.
  destruct (filter _ (get_orders s)) as [|a0 acts] eqn:Ea; [discriminate|].
  rewrite <- Ea in H. clear Ea a0 acts.
  bind_inv H. apply selectbox_str_inv in Hm as [-> _].
  destruct (String.eqb cv EmptyString); [discriminate|].
  destruct (order_by_desc _ _) as [|x tl] eqn:Es; [discriminate|].
  injection H as ->.
  assert (Hin : In o (order_by_desc Order.order_date
                        (filter (fun o => String.eqb (Order.cultivar o) cv)
                           (filter (fun o => Order.completed o =? 0)
                              (get_orders s))))).
  { rewrite Es. now left. }
  unfold order_by_desc in Hin. apply sort_by_in in Hin.
  apply filter_In in Hin as [Hin _]. apply filter_In in Hin as [Hin _].
  now apply get_orders_in.
Qed.

Lemma label_forms_effect s s' :
  (forall now bc uuid cv n start d ne stages custom incl manual opts ct lpr
          notes lid data,
     label_generation_form s now bc uuid cv n start d ne stages custom incl
       manual opts ct lpr notes = Success (s', lid, data) ->
     db_effect s s')
  /\ (forall cf cvf lid,
        delete_label_button s cf cvf lid = Success s' -> db_effect s s').
Proof.
  split.
  - intros now bc uuid cv n start d ne stages custom incl manual opts ct lpr
           notes lid data H.
    unfold label_generation_form in H.
    bind_inv H as order. bind_inv H as n'.
    apply number_input_value_inv in Hm0 as [-> Hn]. apply in_bounds_both in Hn.
    form_inv H.
    all: injection H as <- <- _.
    all: eapply eff_add_label; [exact Hn | | eassumption].
    all: apply in_map; eapply label_order_in; exact Hm.
  - intros cf cvf lid H. unfold delete_label_button in H.
    form_inv H. widget_inv.
    all: now eapply eff_delete_label.
Qed.

(** Every accepted action is one database operation on checked arguments. *)
Lemma action_db_effect (s s' : Store) : action s s' -> db_effect s s'.
Proof.
  destruct (order_buttons_effect s s') as (Hdel & Hcomp & Hreopen).
  destruct (batch_forms_effect s s') as (Hnb & Heb & Hdb).
  destruct (contamination_forms_effect s s') as (Hni & Hei & Hdi).
  destruct (transfer_forms_effect s s') as (Hnt & Het & Hdt).
  destruct (rooting_forms_effect s s') as (Hnr & Hur & Her & Hdr).
  destruct (delivery_forms_effect s s') as (Hnd & Hed & Hdd).
  destruct (label_forms_effect s s') as (Hnl & Hdl).
  intros Ha. destruct Ha as [? ? Hstep | | | | | | | | | |];
    [destruct Hstep|..];
    first [ eapply new_order_form_effect; eassumption
          | eapply edit_order_form_effect; eassumption
          | match goal with Hf : _ |- _ => eapply Hf; eassumption end ].
Qed.

Lemma action_consistent (s s' : Store) :
  consistent s -> action s s' -> consistent s'.
Proof.
  intros Hc Ha. apply (db_effect_consistent s s' Hc). now apply action_db_effect.
Qed.

Lemma evolves_consistent (s s' : Store) :
  consistent s -> evolves s s' -> consistent s'.
Proof.
  intros Hc He. induction He as [|s s1 s2 _ IH Ha]; [assumption|].
  eapply action_consistent; [now apply IH | exact Ha].
Qed.

Lemma attainable_consistent (s : Store) : attainable s -> consistent s.
Proof. apply evolves_consistent, consistent_empty_store. Qed.

Lemma evolves_trans (s1 s2 s3 : Store) :
  evolves s1 s2 -> evolves s2 s3 -> evolves s1 s3.
Proof.
  intros H12 H23. induction H23 as [|s2 s s3 _ IH Ha]; [assumption|].
  eapply evolves_step; [now apply IH | exact Ha].
Qed.

Lemma reachable_attainable (s : Store) : reachable s -> attainable s.
Proof.
  induction 1 as [|s s' _ IH Hstep]; [apply evolves_refl|].
  eapply evolves_step; [exact IH | now apply act_step].
Qed.

(** ** Gantt assembly *)

Lemma sort_values_nil {R : Type} (key : R -> Z) (l : list R) :
  l = [] -> sort_values key l = [].
Proof. intros ->. reflexivity. Qed.

Lemma sort_values_cons {R : Type} (key : R -> Z) (x : R) (l : list R) :
  exists y l', sort_values key (x :: l) = y :: l'.
Proof.
  unfold sort_values. destruct (sort_by _ (x :: l)) as [|y l'] eqn:E.
  - apply sort_by_nil_inv in E. discriminate.
  - now exists y, l'.
Qed.

(** A [gap_then_marker] that runs while [prev_date] is unbound dies at its
    first statement. *)
Lemma gap_then_marker_unbound (cultivar task : string) (d : date)
    (rows : list GanttRow) {A : Type} (k : unit -> Gantt.M A) :
  Gantt.bind (gap_then_marker cultivar task d) k (mk_env rows None)
  = Raised "NameError: name 'prev_date' is not defined".
Proof. reflexivity. Qed.

(** X4. In the Gantt loop, [prev_date] is first assigned inside the
    [if not batch_transfers.empty] block. A first batch that has no
    transfers but has a delivery, or whose order is completed, reads it
    unbound: the tab dies with a [NameError] instead of drawing a chart,
    whatever batches follow. *)
Theorem gantt_first_batch_without_transfers_raises (orders : list Order.t)
    (transfers : list Transfer.t) (rooting_records : list Rooting.t)
    (delivery_records : list Delivery.t) (row : Batch.t * Order.t)
    (rest : list (Batch.t * Order.t)) :
  filter (fun t => Transfer.batch_id t =? Batch.id (fst row)) transfers = [] ->
  filter (fun d => fk_eqb (Delivery.batch_id d) (Batch.id (fst row)))
         delivery_records <> []
  \/ order_completion_of orders (fst row) <> None ->
  Gantt.for_each (row :: rest)
    (gantt_batch orders transfers rooting_records delivery_records)
    (mk_env [] None)
  = Raised "NameError: name 'prev_date' is not defined".
Proof.
  intros Hnone Hlater.
  cbn [Gantt.for_each]. unfold gantt_batch. rewrite Hnone.
  rewrite (sort_values_nil Transfer.transfer_date []) by reflexivity.
  unfold Gantt.bind at 1. cbn [Gantt.append gantt_data prev_date app].
  unfold Gantt.bind at 1.
  destruct (Batch.initiation_date (fst row) >? Order.order_date (snd row) + 1);
    cbn [Gantt.when Gantt.append Gantt.ret gantt_data prev_date app];
    unfold Gantt.bind at 1;
    cbn [Gantt.append gantt_data prev_date app];
    unfold Gantt.bind at 1;
    cbn [Gantt.ret];
    unfold Gantt.bind at 1.
  all: destruct (filter (fun d => fk_eqb (Delivery.batch_id d) (Batch.id (fst row)))
                   delivery_records) as [|d0 dl] eqn:Hd.
  all: try (destruct (sort_values_cons Delivery.delivery_date d0 dl)
              as (y & l' & ->);
            cbn [Gantt.for_each];
            unfold Gantt.bind at 1; unfold Gantt.bind at 1;
            unfold Gantt.bind at 1; reflexivity).
  all: rewrite (sort_values_nil Delivery.delivery_date []) by reflexivity;
    cbn [Gantt.for_each Gantt.ret].
  all: destruct Hlater as [Hl | Hl]; [now contradiction Hl|].
  all: destruct (order_completion_of orders (fst row)) as [c|];
    [reflexivity | now contradiction Hl].
Qed.

Lemma gantt_first_batch_without_transfers_raises_witness :
  let s := mark_order_completed store_two_orders 1 50 in
  Gantt.for_each
    (batches_with_orders_of (get_explant_batches s None) (get_orders s))
    (gantt_batch (get_orders s) (get_transfer_records s None)
       (get_rooting_records s None None) (get_delivery_records s None None))
    (mk_env [] None)
  = Raised "NameError: name 'prev_date' is not defined".
Proof.
  cbv zeta.
  set (s := mark_order_completed store_two_orders 1 50).
  assert (Hrows : exists row,
             batches_with_orders_of (get_explant_batches s None) (get_orders s)
             = [row]
             /\ Batch.id (fst row) = 1
             /\ order_completion_of (get_orders s) (fst row) = Some 50).
  { eexists. split; [reflexivity | split; reflexivity]. }
  destruct Hrows as (row & -> & Hid & Hdone).
  apply gantt_first_batch_without_transfers_raises.
  - rewrite Hid. reflexivity.
  - right. rewrite Hdone. discriminate.
Defined.

(** *** Shape of the rows *)

Lemma keeps_bind {A B : Type} (m : Gantt.M A) (k : A -> Gantt.M B) :
  keeps_rows_ok m -> (forall a, keeps_rows_ok (k a)) ->
  keeps_rows_ok (Gantt.bind m k).
Proof.
  intros Hm Hk e b e' He H. unfold Gantt.bind in H.
  destruct (m e) as [[a e1]| | |] eqn:E; try discriminate.
  eapply Hk; [|exact H]. eapply Hm; eassumption.
Qed.

Lemma keeps_ret {A : Type} (a : A) : keeps_rows_ok (Gantt.ret a).
Proof. intros e a' e' He [= _ <-]. exact He. Qed.

Lemma keeps_append (row : GanttRow) :
  row_ok row -> keeps_rows_ok (Gantt.append row).
Proof.
  intros Hrow e a e' He [= _ <-]. simpl.
  apply Forall_app. split; [assumption | now constructor].
Qed.

Lemma keeps_assign (d : date) : keeps_rows_ok (Gantt.assign_prev_date d).
Proof. intros e a e' He [= _ <-]. exact He. Qed.

Lemma keeps_read : keeps_rows_ok Gantt.read_prev_date.
Proof.
  intros e a e' He H. unfold Gantt.read_prev_date in H.
  destruct (prev_date e); [|discriminate]. now injection H as _ <-.
Qed.

Lemma keeps_when (c : bool) (m : Gantt.M unit) :
  (c = true -> keeps_rows_ok m) -> keeps_rows_ok (Gantt.when c m).
Proof. destruct c; intros H; [now apply H | apply keeps_ret]. Qed.

Lemma keeps_for_each {A : Type} (l : list A) (body : A -> Gantt.M unit) :
  (forall x, keeps_rows_ok (body x)) -> keeps_rows_ok (Gantt.for_each l body).
Proof.
  intros Hbody. induction l as [|x l IH]; simpl; [apply keeps_ret|].
  apply keeps_bind; [apply Hbody | intros _; exact IH].
Qed.

Lemma marker_ok (cultivar task : string) (d : date) : row_ok (marker cultivar task d).
Proof. unfold row_ok, marker. simpl. lia. Qed.

Lemma gtb_lt (a b : Z) : (a >? b) = true -> b < a.
Proof. rewrite Z.gtb_ltb. apply Z.ltb_lt. Qed.

Lemma keeps_gap_then_marker (cultivar task : string) (d : date) :
  keeps_rows_ok (gap_then_marker cultivar task d).
Proof.
  unfold gap_then_marker. apply keeps_bind; [apply keeps_read|]. intros prev.
  apply keeps_bind.
  - apply keeps_when. intros Hc. apply gtb_lt in Hc.
    apply keeps_append. unfold row_ok. simpl. lia.
  - intros _. apply keeps_append, marker_ok.
Qed.

Lemma keeps_gantt_batch orders transfers rooting_records delivery_records row :
  keeps_rows_ok (gantt_batch orders transfers rooting_records delivery_records row).
Proof.
  unfold gantt_batch.
  apply keeps_bind; [apply keeps_append, marker_ok | intros _].
  apply keeps_bind.
  { apply keeps_when. intros Hc. apply gtb_lt in Hc.
    apply keeps_append. unfold row_ok. simpl. lia. }
  intros _. apply keeps_bind.
  { apply keeps_append. unfold row_ok. simpl. lia. }
  intros _. apply keeps_bind.
  { destruct (sort_values Transfer.transfer_date _) as [|first_transfer tl];
      [apply keeps_ret|].
    apply keeps_bind.
    { apply keeps_when. intros Hc. apply gtb_lt in Hc.
      apply keeps_append. unfold row_ok. simpl. lia. }
    intros _. apply keeps_bind; [apply keeps_assign | intros _].
    apply keeps_bind.
    { apply keeps_for_each. intros t.
      apply keeps_bind; [apply keeps_gap_then_marker | intros _; apply keeps_assign]. }
    intros _. apply keeps_for_each. intros r.
    apply keeps_bind; [apply keeps_gap_then_marker | intros _].
    apply keeps_bind; [apply keeps_assign | intros _].
    destruct (Rooting.rooting_date r); [|apply keeps_ret].
    apply keeps_bind; [apply keeps_gap_then_marker | intros _; apply keeps_assign]. }
  intros _. apply keeps_bind.
  { apply keeps_for_each. intros d.
    apply keeps_bind; [apply keeps_gap_then_marker | intros _; apply keeps_assign]. }
  intros _. destruct (order_completion_of orders (fst row));
    [apply keeps_gap_then_marker | apply keeps_ret].
Qed.

Lemma keeps_gantt_loop_else today filtered_batches :
  keeps_rows_ok (gantt_loop_else today filtered_batches).
Proof.
  unfold gantt_loop_else. destruct (iloc_last filtered_batches) as [row|].
  - apply keeps_when. intros Hc. apply gtb_lt in Hc.
    apply keeps_append. unfold row_ok. simpl. lia.
  - intros e a e' _ H. discriminate.
Qed.

(** X5. Whenever the Gantt tab produces its chart data, every row spans at
    least one day and its [Duration] is [Finish - Start]: markers last one
    day, and a passive-time interval is only emitted over a positive gap,
    also when the recorded dates are out of order. *)
Theorem gantt_rows_span_their_duration (s : Store) (today : date)
    (selected_cultivars : list string) (rows : list GanttRow) :
  gantt_chart_data s today selected_cultivars = Success rows ->
  Forall row_ok rows.
Proof.
  unfold gantt_chart_data. intros H.
  destruct (get_explant_batches s None); [discriminate|].
  destruct (get_orders s) eqn:Eo; [discriminate|]. rewrite <- Eo in H.
  destruct (batches_with_orders_of _ _) eqn:Eb; [discriminate|].
  rewrite <- Eb in H.
  destruct (forallb _ _); [|discriminate].
  match type of H with
  | match ?m ?e with _ => _ end = _ => destruct (m e) as [[u e']| | |] eqn:E
  end; try discriminate.
  injection H as <-.
  refine (keeps_bind _ _ _ _ _ _ _ _ E).
  - apply keeps_for_each. intros row. apply keeps_gantt_batch.
  - intros _. apply keeps_gantt_loop_else.
  - constructor.
Qed.

Lemma gantt_rows_span_their_duration_witness :
  Forall row_ok
    [ mk_row "Cascade" "Order Received" 9 10 1;
      mk_row "Cascade" "Explant Initiation" 10 11 1;
      mk_row "Cascade" passive_time 11 15 4;
      mk_row "Cascade" passive_time 11 15 4;
      mk_row "Cascade" "Transfer #1: 50% MS (2050, Mult: Yes)" 15 16 1;
      mk_row "Cascade" passive_time 11 30 19 ].
Proof.
  apply (gantt_rows_span_their_duration (store_gap5 10) 30 []).
  reflexivity.
Defined.

(** ** The databases the application produces *)

Lemma attainable_store_transfer1 : attainable store_transfer1.
Proof.
  unfold attainable.
  eapply evolves_step; [|
    apply act_step;
    eapply (step_record_transfer store_lost5 3 1 None 30 60 "Rooting Media" 20
              true EmptyString EmptyString EmptyString); reflexivity].
  eapply evolves_step; [|
    apply act_step;
    eapply (step_record_contamination store_batch1 2 1 5 2 "Fungal" 9
              EmptyString); reflexivity].
  eapply evolves_step; [|
    apply act_step;
    eapply (step_new_batch store_order1 1 (Some 1) "B-1" 40 "Node" "50% MS" 6
              EmptyString EmptyString EmptyString (Some "Hop Latent Viroid"));
    reflexivity].
  eapply evolves_step; [apply evolves_refl|].
  apply act_step.
  eapply (step_new_order empty_store 0 "Acme" "Cascade" 10 5 "Clones" 5 false
            EmptyString); reflexivity.
Qed.

Lemma attainable_store_lifecycle : attainable store_lifecycle.
Proof.
  unfold attainable.
  eapply evolves_step; [|
    eapply (act_generate_labels store_delivery1 6 true "uuid-1" "Cascade" 3 1 6
              4 ["Rooting"] EmptyString true EmptyString all_lines "QR Code" 3
              EmptyString); reflexivity].
  eapply evolves_step; [|
    eapply (act_record_delivery store_rooting1 5 1 (Some 1) 20 60 "Pickup"
              EmptyString); reflexivity].
  eapply evolves_step; [|
    apply act_step;
    eapply (step_record_rooting store_transfer1 4 1 25 30 0 None EmptyString);
    reflexivity].
  exact attainable_store_transfer1.
Qed.

(** X6. In every database the application can produce, the ids of each of
    the seven tables are distinct, at least 1 and at most the table's
    AUTOINCREMENT counter, and no two label batches share a UUID. *)
Theorem attainable_primary_keys (s : Store) :
  attainable s ->
  primary_key Order.id (orders s)
  /\ primary_key Batch.id (explant_batches s)
  /\ primary_key Infection.id (infection_records s)
  /\ primary_key Transfer.id (transfer_records s)
  /\ primary_key Rooting.id (rooting_records s)
  /\ primary_key Delivery.id (delivery_records s)
  /\ primary_key Label.id (labels s)
  /\ NoDup (map Label.label_uuid (rows (labels s))).
Proof.
  intros H. apply attainable_consistent in H. destruct H.
  repeat (split; [assumption|]). assumption.
Qed.

Lemma attainable_primary_keys_witness :
  primary_key Order.id (orders store_lifecycle)
  /\ primary_key Batch.id (explant_batches store_lifecycle)
  /\ primary_key Infection.id (infection_records store_lifecycle)
  /\ primary_key Transfer.id (transfer_records store_lifecycle)
  /\ primary_key Rooting.id (rooting_records store_lifecycle)
  /\ primary_key Delivery.id (delivery_records store_lifecycle)
  /\ primary_key Label.id (labels store_lifecycle)
  /\ NoDup (map Label.label_uuid (rows (labels store_lifecycle))).
Proof.
  exact (attainable_primary_keys store_lifecycle attainable_store_lifecycle).
Defined.

(** X7. In every database the application can produce, each contamination
    record and each transfer record refers to a batch that is in the batch
    table (the forms only offer existing batches and deleting a batch
    deletes its records), and no transfer is its own parent. *)
Theorem attainable_batch_references (s : Store) :
  attainable s ->
  Forall (fun r => In (Infection.batch_id r)
                      (map Batch.id (rows (explant_batches s))))
         (rows (infection_records s))
  /\ Forall (fun t => In (Transfer.batch_id t)
                         (map Batch.id (rows (explant_batches s)))
                      /\ Transfer.parent_transfer_id t <> Some (Transfer.id t))
            (rows (transfer_records s)).
Proof.
  intros H. apply attainable_consistent in H. destruct H. split.
  - eapply Forall_impl; [|eassumption]. now intros r [Hin _].
  - eapply Forall_impl; [|eassumption]. now intros t (Hin & Hpar & _).
Qed.

Lemma attainable_batch_references_witness :
  Forall (fun r => In (Infection.batch_id r)
                      (map Batch.id (rows (explant_batches store_lifecycle))))
         (rows (infection_records store_lifecycle))
  /\ Forall (fun t => In (Transfer.batch_id t)
                         (map Batch.id (rows (explant_batches store_lifecycle)))
                      /\ Transfer.parent_transfer_id t <> Some (Transfer.id t))
            (rows (transfer_records store_lifecycle)).
Proof.
  exact (attainable_batch_references store_lifecycle attainable_store_lifecycle).
Defined.

(** X8. In every database the application can produce, the stored counts
    respect the minima of the widgets they came through: an order has at
    least one plant and a non-negative delivery quantity, a batch at least
    one explant, a transfer at least one explant in and out, a rooting
    record at least one explant placed and no negative [num_rooted], a
    delivery at least one plant and an order, a label batch between 1 and
    500 labels. *)
Theorem attainable_counts_within_widget_bounds (s : Store) :
  attainable s ->
  Forall (fun o => 1 <= Order.num_plants o
                   /\ 0 <= coalesce (Order.delivery_quantity o) 0)
         (rows (orders s))
  /\ Forall (fun b => 1 <= Batch.num_explants b) (rows (explant_batches s))
  /\ Forall (fun t => 1 <= Transfer.explants_in t /\ 1 <= Transfer.explants_out t)
            (rows (transfer_records s))
  /\ Forall (fun r => 1 <= Rooting.num_placed r
                      /\ 0 <= coalesce (Rooting.num_rooted r) 0)
            (rows (rooting_records s))
  /\ Forall (fun d => 1 <= Delivery.num_delivered d
                      /\ Delivery.order_id d <> None)
            (rows (delivery_records s))
  /\ Forall (fun l => 1 <= coalesce (Label.num_labels l) 0 <= 500)
            (rows (labels s)).
Proof.
  intros H. apply attainable_consistent in H. destruct H. repeat split.
  - eapply Forall_impl; [|eassumption].
    intros o (H1 & (q & -> & Hq) & _). now split.
  - assumption.
  - eapply Forall_impl; [|eassumption]. now intros t (_ & _ & H1 & H2).
  - eapply Forall_impl; [|eassumption].
    intros r [H1 H2]. split; [exact H1|].
    destruct (Rooting.num_rooted r); simpl; [exact H2 | lia].
  - assumption.
  - eapply Forall_impl; [|eassumption]. now intros l (n & -> & Hn).
Qed.

Lemma attainable_counts_within_widget_bounds_witness :
  Forall (fun o => 1 <= Order.num_plants o
                   /\ 0 <= coalesce (Order.delivery_quantity o) 0)
         (rows (orders store_lifecycle))
  /\ Forall (fun b => 1 <= Batch.num_explants b)
            (rows (explant_batches store_lifecycle))
  /\ Forall (fun t => 1 <= Transfer.explants_in t /\ 1 <= Transfer.explants_out t)
            (rows (transfer_records store_lifecycle))
  /\ Forall (fun r => 1 <= Rooting.num_placed r
                      /\ 0 <= coalesce (Rooting.num_rooted r) 0)
            (rows (rooting_records store_lifecycle))
  /\ Forall (fun d => 1 <= Delivery.num_delivered d
                      /\ Delivery.order_id d <> None)
            (rows (delivery_records store_lifecycle))
  /\ Forall (fun l => 1 <= coalesce (Label.num_labels l) 0 <= 500)
            (rows (labels store_lifecycle)).
Proof.
  exact (attainable_counts_within_widget_bounds store_lifecycle
           attainable_store_lifecycle).
Defined.

(** X9. In every database the application can produce, an order is either
    open with no completion date or completed with one: the only writes of
    [completed] and [completion_date] are [mark_order_completed] and
    [mark_order_incomplete], and the order edit form keeps both. *)
Theorem attainable_orders_open_or_completed (s : Store) :
  attainable s ->
  Forall (fun o => Order.completed o = 0 /\ Order.completion_date o = None
                   \/ Order.completed o = 1 /\ Order.completion_date o <> None)
         (rows (orders s)).
Proof.
  intros H. apply attainable_consistent in H. destruct H.
  eapply Forall_impl; [|eassumption]. now intros o (_ & _ & Hc).
Qed.

Lemma attainable_orders_open_or_completed_witness :
  Forall (fun o => Order.completed o = 0 /\ Order.completion_date o = None
                   \/ Order.completed o = 1 /\ Order.completion_date o <> None)
         (rows (orders store_lifecycle)).
Proof.
  exact (attainable_orders_open_or_completed store_lifecycle
           attainable_store_lifecycle).
Defined.

(** *** Derived figures on such databases *)

Lemma unique_by_key {R K : Type} (key : R -> K) (l : list R) (a b : R) :
  NoDup (map key l) -> In a l -> In b l -> key a = key b -> a = b.
Proof.
  induction l as [|x l IH]; simpl; [contradiction|].
  intros Hnd [-> | Ha] [-> | Hb] Hk; inversion Hnd as [|? ? Hx Hl]; subst.
  - reflexivity.
  - exfalso. apply Hx. rewrite Hk. now apply in_map.
  - exfalso. apply Hx. rewrite <- Hk. now apply in_map.
  - now apply IH.
Qed.

(** With unique ids, the first batch carrying an id is the same row in
    rowid order and in the order of [get_explant_batches]. *)
Lemma same_batch_both_orders (s : Store) (b : Z) (x y : Batch.t)
    (tx ty : list Batch.t) :
  NoDup (map Batch.id (rows (explant_batches s))) ->
  filter (fun r => Batch.id r =? b) (rows (explant_batches s)) = x :: tx ->
  filter (fun r => Batch.id r =? b) (get_explant_batches s None) = y :: ty ->
  x = y.
Proof.
  intros Hnd Hx Hy.
  apply filter_head_in in Hx as [Hx Hxb]. apply filter_head_in in Hy as [Hy Hyb].
  apply get_explant_batches_in in Hy.
  apply Z.eqb_eq in Hxb. apply Z.eqb_eq in Hyb.
  apply (unique_by_key Batch.id _ _ _ Hnd Hx Hy). lia.
Qed.

Lemma infected_is_lost_plus_affected (batches : table Batch.t)
    (l : list Infection.t) :
  Forall (infection_ok batches) l ->
  series_sum (map Infection.num_infected l)
  = series_sum (map contribution l)
    + series_sum (map (fun r => coalesce (Infection.num_affected r) 0) l).
Proof.
  induction 1 as [|r l (_ & nl & na & Hnl & Hna & _ & _ & Hsum) _ IH]; simpl;
    [reflexivity|].
  rewrite IH. unfold contribution. rewrite Hnl, Hna, Hsum. simpl. lia.
Qed.

Lemma Forall_filter {R : Type} (P : R -> Prop) (q : R -> bool) (l : list R) :
  Forall P l -> Forall P (filter q l).
Proof.
  intros H. rewrite Forall_forall in *. intros x Hx.
  apply filter_In in Hx as [Hx _]. now apply H.
Qed.

(** X10. In every database the application can produce, the "healthy"
    figure of [get_batch_summary] is the contamination page's remaining
    healthy count minus the explants recorded as affected: the summary
    deducts [num_infected], which every write path fills with lost plus
    affected, where the contamination page deducts the lost ones only. *)
Theorem summary_healthy_deducts_affected (s : Store) (b : Z) (sm : BatchSummary) :
  attainable s ->
  get_batch_summary s b = Some sm ->
  healthy_remaining s b
  = Some (healthy sm
          + series_sum
              (map (fun r => coalesce (Infection.num_affected r) 0)
                 (filter (fun r => Infection.batch_id r =? b)
                         (rows (infection_records s))))).
Proof.
  intros Hatt Hsm. apply attainable_consistent in Hatt.
  destruct Hatt as [_ (Hnd & _) _ _ _ _ _ _ _ _ Hi _ _ _ _].
  pose proof (batch_summary_healthy s b sm Hsm) as Hh.
  unfold get_batch_summary in Hsm.
  destruct (filter _ (rows (explant_batches s))) as [|x tx] eqn:Ex;
    [discriminate|].
  injection Hsm as <-. simpl in Hh. rewrite Hh.
  unfold healthy_remaining.
  destruct (filter _ (get_explant_batches s None)) as [|y ty] eqn:Ey.
  - exfalso. apply filter_head_in in Ex as [Hx Hxb].
    assert (Hin : In x (filter (fun r => Batch.id r =? b)
                          (get_explant_batches s None))).
    { apply filter_In. split; [|exact Hxb].
      unfold get_explant_batches, order_by_desc. simpl. now apply sort_by_in. }
    rewrite Ey in Hin. contradiction.
  - rewrite <- (same_batch_both_orders s b x y tx ty Hnd Ex Ey).
    rewrite total_infections_as_sum.
    rewrite (infected_is_lost_plus_affected (explant_batches s))
      by now apply Forall_filter.
    f_equal. simpl. lia.
Qed.

Lemma summary_healthy_deducts_affected_witness :
  healthy_remaining store_lifecycle 1 = Some (33 + 2).
Proof.
  exact (summary_healthy_deducts_affected store_lifecycle 1 _
           attainable_store_lifecycle eq_refl).
Defined.

(** X11. In every database the application can produce, [get_label_by_uuid]
    returns the one label batch that carries the UUID: a stored batch is
    found under its own UUID. *)
Theorem label_found_by_its_uuid (s : Store) (l : Label.t) :
  attainable s ->
  In l (rows (labels s)) ->
  get_label_by_uuid s (Label.label_uuid l) = Some l.
Proof.
  intros Hatt Hl. apply attainable_consistent in Hatt.
  destruct Hatt as [_ _ _ _ _ _ _ Hnd _ _ _ _ _ _ _].
  unfold get_label_by_uuid.
  destruct (filter _ (rows (labels s))) as [|y ty] eqn:Ey.
  - exfalso.
    assert (Hin : In l (filter (fun x => String.eqb (Label.label_uuid x)
                                            (Label.label_uuid l))
                          (rows (labels s)))).
    { apply filter_In. split; [assumption | apply String.eqb_refl]. }
    rewrite Ey in Hin. contradiction.
  - apply filter_head_in in Ey as [Hy Hyu]. apply String.eqb_eq in Hyu.
    f_equal. now apply (unique_by_key Label.label_uuid _ _ _ Hnd Hy Hl).
Qed.

Lemma label_found_by_its_uuid_witness :
  get_label_by_uuid store_lifecycle "uuid-1"
  = Some (Label.mk 1 1 "uuid-1" "Acme" "Cascade" 5 6 "Rooting"
            (Some "Hop Latent Viroid") (Some 3) (Some EmptyString) 6).
Proof.
  apply (label_found_by_its_uuid store_lifecycle
           (Label.mk 1 1 "uuid-1" "Acme" "Cascade" 5 6 "Rooting"
              (Some "Hop Latent Viroid") (Some 3) (Some EmptyString) 6)
           attainable_store_lifecycle).
  left. reflexivity.
Defined.

(** X12. On every database the application can produce, the "Mark
    Complete" form followed by the "Mark as Incomplete" button for the same
    order is an exact undo: the second action is offered and returns the
    database as it was before the first. *)
Theorem complete_then_incomplete_is_undo (s s1 : Store) (oid : Z) (d : date) :
  attainable s ->
  complete_order_form s oid d = Success s1 ->
  mark_incomplete_button s1 oid = Success s.
Proof.
  intros Hatt H. apply attainable_consistent in Hatt.
  destruct Hatt as [(Hnd & _) _ _ _ _ _ _ _ Ho _ _ _ _ _ _].
  rewrite Forall_forall in Ho.
  unfold complete_order_form in H.
  destruct (active_orders (get_orders s)) as [|a0 acts] eqn:Hact; [discriminate|].
  bind_inv H. apply selectbox_inv in Hm as [-> Hsel].
  bind_inv H. injection H as <-.
  apply in_map_iff in Hsel as (o & Hoid & Hin). rewrite <- Hact in Hin.
  unfold active_orders in Hin. apply filter_In in Hin as [Hin Hc].
  apply get_orders_in in Hin. apply Z.eqb_eq in Hc.
  assert (Hall : forall x, In x (rows (orders s)) -> Order.id x = oid -> is_open x).
  { intros x Hx Hxid.
    assert (x = o) by (apply (unique_by_key Order.id _ _ _ Hnd Hx Hin); lia).
    subst x. split; [assumption|].
    destruct (Ho o Hin) as (_ & _ & [[_ Hd] | [Hc1 _]]); [exact Hd | lia]. }
  unfold mark_incomplete_button.
  set (done := Order.mk (Order.id o) (Order.client_name o) (Order.cultivar o)
                 (Order.num_plants o) (Order.plant_size o) (Order.order_date o)
                 (Order.delivery_quantity o) (Order.is_recurring o) 1 (Some d)
                 (Order.notes o) (Order.created_at o)).
  assert (Hdone : In done (completed_orders (get_orders (mark_order_completed s oid d)))).
  { unfold completed_orders. apply filter_In. split; [|reflexivity].
    apply get_orders_in. simpl.
    apply in_map_iff. exists o. split; [|assumption].
    replace (Order.id o =? oid) with true by (symmetry; now apply Z.eqb_eq).
    reflexivity. }
  destruct (completed_orders _) as [|c0 cs] eqn:Hcomp; [contradiction|].
  rewrite selectbox_offered.
  - cbn [bind]. f_equal.
    now apply (reopen_after_complete_identity s oid d).
  - rewrite <- Hoid. change (Order.id o) with (Order.id done).
    now apply in_map.
Qed.

Lemma complete_then_incomplete_is_undo_witness :
  mark_incomplete_button (mark_order_completed store_lifecycle 1 80) 1
  = Success store_lifecycle.
Proof.
  apply (complete_then_incomplete_is_undo store_lifecycle _ 1 80
           attainable_store_lifecycle).
  reflexivity.
Defined.

(** ** Ids are never handed out twice *)

Lemma ids_grow_refl {R : Type} (id : R -> Z) (t : table R) : ids_grow id t t.
Proof. split; [lia | now left]. Qed.

Lemma ids_grow_insert {R : Type} (id : R -> Z) (mk : Z -> R) (t : table R) :
  (forall i, id (mk i) = i) -> ids_grow id t (fst (sql_insert mk t)).
Proof.
  intros Hmk. split; simpl; [lia|]. intros i Hi.
  rewrite map_app in Hi. apply in_app_iff in Hi as [Hi | [<- | []]];
    [now left | right; rewrite Hmk; lia].
Qed.

Lemma ids_grow_update {R : Type} (id : R -> Z) (p : R -> bool) (f : R -> R)
    (t : table R) :
  (forall r, id (f r) = id r) -> ids_grow id t (sql_update p f t).
Proof.
  intros Hf. split; [simpl; lia|]. intros i Hi.
  rewrite ids_update in Hi by assumption. now left.
Qed.

Lemma ids_grow_delete {R : Type} (id : R -> Z) (p : R -> bool) (t : table R) :
  ids_grow id t (sql_delete p t).
Proof.
  split; [simpl; lia|]. intros i Hi. left. simpl in Hi.
  apply in_map_iff in Hi as (r & <- & Hr). apply filter_In in Hr as [Hr _].
  now apply in_map.
Qed.

Lemma retired_stays {R : Type} (id : R -> Z) (t t' : table R) (i : Z) :
  ids_grow id t t' -> retired id t i -> retired id t' i.
Proof.
  intros [Hseq Hids] [Hle Hnot]. split; [lia|].
  intros Hin. destruct (Hids i Hin) as [Hold | Hnew]; [now apply Hnot | lia].
Qed.

Ltac ids_grow_step :=
  first [ apply ids_grow_refl
        | apply ids_grow_insert; reflexivity
        | apply ids_grow_update; reflexivity
        | apply ids_grow_delete ].

Lemma db_effect_ids_grow (s s' : Store) :
  db_effect s s' ->
  ids_grow Order.id (orders s) (orders s')
  /\ ids_grow Batch.id (explant_batches s) (explant_batches s')
  /\ ids_grow Transfer.id (transfer_records s) (transfer_records s').
Proof.
  intros Heff. destruct Heff; subst;
    try (split; [|split]; ids_grow_step).
  (* add_label *)
  match goal with
  | Hadd : add_label _ _ _ _ _ _ _ _ _ _ _ _ = Success _ |- _ =>
      unfold add_label in Hadd; destruct (existsb _ _); [discriminate|];
      apply success_fst in Hadd; subst s'
  end.
  split; [|split]; apply ids_grow_refl.
Qed.

Lemma evolves_retired (s s' : Store) :
  evolves s s' ->
  forall i,
    (retired Order.id (orders s) i -> retired Order.id (orders s') i)
    /\ (retired Batch.id (explant_batches s) i ->
        retired Batch.id (explant_batches s') i)
    /\ (retired Transfer.id (transfer_records s) i ->
        retired Transfer.id (transfer_records s') i).
Proof.
  induction 1 as [|s s1 s2 _ IH Ha]; intros i; [tauto|].
  destruct (IH i) as (Ho & Hb & Ht).
  apply action_db_effect, db_effect_ids_grow in Ha as (Go & Gb & Gt).
  split; [|split]; intros Hr.
  - apply (retired_stays _ _ _ _ Go). now apply Ho.
  - apply (retired_stays _ _ _ _ Gb). now apply Hb.
  - apply (retired_stays _ _ _ _ Gt). now apply Ht.
Qed.

(** X13. Ids are never handed out twice. Once the row of an order, batch
    or transfer id that the counter has passed is gone, no later action of
    the application brings a row with that id back: what still refers to a
    deleted order, batch or transfer is never silently attached to a new
    one. *)
Theorem retired_ids_never_return (s s' : Store) (i : Z) :
  evolves s s' ->
  (retired Order.id (orders s) i ->
   Forall (fun o => Order.id o <> i) (rows (orders s')))
  /\ (retired Batch.id (explant_batches s) i ->
      Forall (fun b => Batch.id b <> i) (rows (explant_batches s')))
  /\ (retired Transfer.id (transfer_records s) i ->
      Forall (fun t => Transfer.id t <> i) (rows (transfer_records s'))).
Proof.
  intros He. destruct (evolves_retired s s' He i) as (Ho & Hb & Ht).
  split; [|split]; intros Hr; apply Forall_forall; intros x Hx Hid.
  - destruct (Ho Hr) as [_ Hnot]. apply Hnot. rewrite <- Hid. now apply in_map.
  - destruct (Hb Hr) as [_ Hnot]. apply Hnot. rewrite <- Hid. now apply in_map.
  - destruct (Ht Hr) as [_ Hnot]. apply Hnot. rewrite <- Hid. now apply in_map.
Qed.

Lemma retired_ids_never_return_witness :
  Forall (fun o => Order.id o <> 1) (rows (orders store_order2))
  /\ Forall (fun b => Batch.order_id b = Some 1)
            (rows (explant_batches store_order2)).
Proof.
  split.
  - destruct (retired_ids_never_return store_order1_deleted store_order2 1)
      as (Ho & _).
    + eapply evolves_step; [apply evolves_refl|]. apply act_step.
      eapply (step_new_order store_order1_deleted 7 "Birch" "Centennial" 20 10
                "Teens" 70 false EmptyString). reflexivity.
    + apply Ho. split; [vm_compute; discriminate|].
      intros H. vm_compute in H. exact H.
  - repeat constructor.
Defined.

(** ** Deleting a batch or a transfer *)




(** X15. [delete_transfer_record] removes the transfer and the rooting
    records placed from it: nothing remains placed against it. Every other
    transfer stays as it is, also one whose [parent_transfer_id] is the
    deleted transfer, and batches, contamination and delivery records are
    untouched. *)
Theorem delete_transfer_takes_its_rooting (s : Store) (tid : Z) :
  (tid <> 0 -> cumulative_num_placed (delete_transfer_record s tid) tid = 0)
  /\ Forall (fun r => Rooting.transfer_id r <> Some tid)
            (rows (rooting_records (delete_transfer_record s tid)))
  /\ Forall (fun t => Transfer.id t <> tid)
            (rows (transfer_records (delete_transfer_record s tid)))
  /\ (forall t, In t (rows (transfer_records s)) -> Transfer.id t <> tid ->
                In t (rows (transfer_records (delete_transfer_record s tid))))
  /\ explant_batches (delete_transfer_record s tid) = explant_batches s
  /\ infection_records (delete_transfer_record s tid) = infection_records s
  /\ delivery_records (delete_transfer_record s tid) = delivery_records s.
Proof.
  assert (Hgone : Forall (fun r => Rooting.transfer_id r <> Some tid)
            (rows (rooting_records (delete_transfer_record s tid)))).
  { apply Forall_forall. intros r Hr. cbn in Hr.
    apply filter_In in Hr as [_ Hne]. apply negb_true_iff in Hne.
    intros Heq. rewrite Heq in Hne. cbn in Hne.
    now rewrite Z.eqb_refl in Hne. }
  split; [|split; [exact Hgone|]]; [|repeat split].
  - intros Hnz. unfold cumulative_num_placed, get_rooting_records.
    replace (truthy (Some tid)) with true
      by (symmetry; unfold truthy; destruct tid; [lia | reflexivity | reflexivity]).
    cbn [truthy coalesce]. unfold order_by_desc. rewrite sort_by_sum.
    rewrite Forall_forall in Hgone.
    induction (rows (rooting_records (delete_transfer_record s tid)))
      as [|r l IH]; [reflexivity|].
    cbn [filter]. destruct (fk_eqb (Rooting.transfer_id r) tid) eqn:E.
    + exfalso. apply (Hgone r); [now left|].
      unfold fk_eqb in E. destruct (Rooting.transfer_id r) as [j|]; [|discriminate].
      apply Z.eqb_eq in E. now subst.
    + apply IH. intros x Hx. apply Hgone. now right.
  - apply Forall_forall. intros t Ht. cbn in Ht.
    apply filter_In in Ht as [_ Hne]. apply negb_true_iff in Hne.
    now apply Z.eqb_neq in Hne.
  - intros t Ht Hne. cbn. apply filter_In. split; [assumption|].
    apply negb_true_iff. now apply Z.eqb_neq.
Qed.

(** ** Parents of transfers, batches of deliveries *)

Lemma transfer_offered_for_batch (s : Store) (b p : Z) :
  b <> 0 ->
  In p (map Transfer.id (get_transfer_records s (Some b))) ->
  exists t, In t (rows (transfer_records s))
            /\ Transfer.id t = p /\ Transfer.batch_id t = b.
Proof.
  intros Hb Hin. apply in_map_iff in Hin as (t & Hid & Ht).
  unfold get_transfer_records in Ht.
  replace (truthy (Some b)) with true in Ht
    by (symmetry; unfold truthy; apply negb_true_iff; now apply Z.eqb_neq).
  unfold order_by_desc in Ht. apply sort_by_in in Ht.
  apply filter_In in Ht as [Ht Hbt]. apply Z.eqb_eq in Hbt.
  exists t. now repeat split.
Qed.

Lemma offered_batch_nonzero (s : Store) (b : Z) :
  primary_key Batch.id (explant_batches s) ->
  In b (map Batch.id (rows (explant_batches s))) -> b <> 0.
Proof.
  intros (_ & _ & Hall) Hin. rewrite Forall_forall in Hall.
  apply in_map_iff in Hin as (x & <- & Hx). specialize (Hall x Hx). lia.
Qed.

Lemma success_inj {A : Type} (a b : A) : Success a = Success b -> a = b.
Proof. now intros [= ->]. Qed.

Lemma transfer_form_stored s now b par ein eout media d mult h a notes s' tid :
  transfer_form s now b par ein eout media d mult h a notes = Success (s', tid) ->
  exists par',
    add_transfer_record s now b par' d ein eout media (or_none h) (or_none a)
      (if mult then 1 else 0) notes = (s', tid)
    /\ In b (map Batch.id (rows (explant_batches s)))
    /\ forall p, par' = Some p ->
                 In p (map Transfer.id (get_transfer_records s (Some b))).
Proof.
  intros H. unfold transfer_form in H. form_inv H. widget_inv.
  all: relist; apply batch_id_offered in Hm; apply success_inj in H.
  all: eexists; split; [exact H|]; split; [exact Hm|]; intros p0 Hp;
    try discriminate.
  injection Hp as <-. assumption.
Qed.

Lemma edit_transfer_form_stored s tid b par ein eout media d mult h a notes s' :
  edit_transfer_form s tid b par ein eout media d mult h a notes = Success s' ->
  exists par',
    s' = update_transfer_record s tid b par' d ein eout media (or_none h)
           (or_none a) (if mult then 1 else 0) notes
    /\ In b (map Batch.id (rows (explant_batches s)))
    /\ forall p, par' = Some p ->
                 p <> tid
                 /\ In p (map Transfer.id (get_transfer_records s (Some b))).
Proof.
  intros H. unfold edit_transfer_form in H. form_inv H. widget_inv.
  all: relist; apply batch_id_offered in Hm1.
  all: eexists; split; [reflexivity|]; split; [exact Hm1|]; intros p0 Hp;
    try discriminate.
  injection Hp as <-.
  match goal with
  | Hp : In _ (filter _ _) |- _ => apply filter_In in Hp as [Hp Hne]
  end.
  split; [|assumption].
  apply negb_true_iff in Hne. now apply Z.eqb_neq in Hne.
Qed.

(** X16. On every database the application can produce, the parent stored
    with a transfer by the "Record Transfer" form is an existing transfer
    of the same batch and has a smaller id than the new transfer; the
    parent stored by the "Edit Transfer" form is a transfer of the batch
    chosen in the form and is never the edited transfer itself. *)
Theorem transfer_parent_comes_from_the_batch (s s' : Store) :
  attainable s ->
  (forall now b par ein eout media d mult h a notes tid,
     transfer_form s now b par ein eout media d mult h a notes
     = Success (s', tid) ->
     forall t' p,
       In t' (rows (transfer_records s')) -> Transfer.id t' = tid ->
       Transfer.parent_transfer_id t' = Some p ->
       p < tid
       /\ exists t, In t (rows (transfer_records s))
                    /\ Transfer.id t = p
                    /\ Transfer.batch_id t = Transfer.batch_id t')
  /\ (forall tid b par ein eout media d mult h a notes,
        edit_transfer_form s tid b par ein eout media d mult h a notes
        = Success s' ->
        forall t' p,
          In t' (rows (transfer_records s')) -> Transfer.id t' = tid ->
          Transfer.parent_transfer_id t' = Some p ->
          p <> tid
          /\ exists t, In t (rows (transfer_records s))
                       /\ Transfer.id t = p
                       /\ Transfer.batch_id t = Transfer.batch_id t').
Proof.
  intros Hatt. apply attainable_consistent in Hatt.
  destruct Hatt as [_ Kb _ Kt _ _ _ _ _ _ _ _ _ _ _].
  destruct Kt as (_ & _ & Hall). rewrite Forall_forall in Hall.
  split.
  - intros now b par ein eout media d mult h a notes tid H t' p Hin Hid Hpar.
    apply transfer_form_stored in H as (par' & Hadd & Hb & Hoffer).
    apply (offered_batch_nonzero s b Kb) in Hb.
    unfold add_transfer_record in Hadd. cbn in Hadd. injection Hadd as <- <-.
    cbn in Hin. apply in_app_iff in Hin as [Hin | [<- | []]].
    + specialize (Hall t' Hin). lia.
    + cbn in Hpar. subst par'.
      destruct (transfer_offered_for_batch s b p Hb (Hoffer p eq_refl))
        as (t & Ht & Htid & Hbt).
      split; [specialize (Hall t Ht); lia | now exists t].
  - intros tid b par ein eout media d mult h a notes H t' p Hin Hid Hpar.
    apply edit_transfer_form_stored in H as (par' & -> & Hb & Hoffer).
    apply (offered_batch_nonzero s b Kb) in Hb.
    apply in_sql_update in Hin as (t0 & Ht0 & ->).
    destruct (Transfer.id t0 =? tid) eqn:E.
    + cbn in Hpar. subst par'. destruct (Hoffer p eq_refl) as [Hne Hp].
      destruct (transfer_offered_for_batch s b p Hb Hp) as (t & Ht & Htid & Hbt).
      split; [exact Hne | now exists t].
    + apply Z.eqb_neq in E. contradiction.
Qed.

Lemma transfer_parent_comes_from_the_batch_witness :
  1 < 2
  /\ exists t, In t (rows (transfer_records store_transfer1))
               /\ Transfer.id t = 1 /\ Transfer.batch_id t = 1.
Proof.
  destruct (transfer_parent_comes_from_the_batch store_transfer1
              (fst (add_transfer_record store_transfer1 8 1 (Some 1) 40 60 120
                      "50% MS" None None 1 EmptyString))
              attainable_store_transfer1) as [Hadd _].
  apply (Hadd 8 1 (Some 1) 60 120 "50% MS" 40 true EmptyString EmptyString
           EmptyString 2 eq_refl
           (Transfer.mk 2 1 (Some 1) 40 60 120 "50% MS" None None 1
              (Some EmptyString) 8) 1).
  - right. left. reflexivity.
  - reflexivity.
  - reflexivity.
Defined.

(** X17. A delivery recorded or edited through the delivery forms is for
    an existing order and at least one plant, and its batch, when one is
    set, is an existing batch linked to that very order. *)
Theorem delivery_batch_belongs_to_its_order (s s' : Store) :
  (forall now oid b n d m notes rid,
     delivery_form s now oid b n d m notes = Success (s', rid) ->
     exists b',
       add_delivery_record s now (Some oid) b' n d (Some m) notes = (s', rid)
       /\ In oid (map Order.id (rows (orders s))) /\ 1 <= n
       /\ forall bid, b' = Some bid ->
            exists x, In x (rows (explant_batches s))
                      /\ Batch.id x = bid /\ Batch.order_id x = Some oid)
  /\ (forall rid oid b n d m notes,
        edit_delivery_form s rid oid b n d m notes = Success s' ->
        exists b',
          s' = update_delivery_record s rid (Some oid) b' n d (Some m) notes
          /\ In oid (map Order.id (rows (orders s))) /\ 1 <= n
          /\ forall bid, b' = Some bid ->
               exists x, In x (rows (explant_batches s))
                         /\ Batch.id x = bid /\ Batch.order_id x = Some oid).
Proof.
  split.
  - intros now oid b n d m notes rid H.
    unfold delivery_form in H. form_inv H.
    apply selectbox_inv in Hm as [-> Hoid].
    apply number_input_value_inv in Hm1 as [-> Hn]. apply in_bounds_lower in Hn.
    apply success_inj in H. rewrite <- E in Hoid.
    exists a0. split; [exact H|]. split; [|split; [exact Hn|]].
    + apply in_map_iff in Hoid as (o & <- & Ho). apply in_map.
      now apply get_orders_in.
    + intros bid Hb.
      destruct (order_batch_choice_inv _ _ _ _ Hm0 bid Hb) as (x & Hx & Hid & Ho).
      exists x. split; [now apply get_explant_batches_in in Hx | now split].
  - intros rid oid b n d m notes H.
    unfold edit_delivery_form in H. form_inv H.
    destruct (get_orders s) as [|o0 os] eqn:Eo; [discriminate|].
    apply selectbox_inv in Hm as [-> _].
    apply selectbox_inv in Hm1 as [-> Hoid].
    apply number_input_value_inv in Hm3 as [-> Hn]. apply in_bounds_lower in Hn.
    apply success_inj in H. subst s'. rewrite <- Eo in Hoid.
    exists a2. split; [reflexivity|]. split; [|split; [exact Hn|]].
    + apply in_map_iff in Hoid as (o & <- & Ho). apply in_map.
      now apply get_orders_in.
    + intros bid Hb.
      destruct (order_batch_choice_inv _ _ _ _ Hm2 bid Hb) as (x & Hx & Hid & Ho).
      exists x. split; [now apply get_explant_batches_in in Hx | now split].
Qed.

(** ** Labels *)

Lemma unique_in (l : list string) (x : string) : In x (unique l) <-> In x l.
Proof.
  induction l as [|y l IH]; simpl; [reflexivity|].
  rewrite filter_In, IH. split.
  - intros [-> | [H _]]; [now left | now right].
  - intros [-> | H]; [now left|].
    destruct (String.eqb_spec y x) as [-> | Hne]; [now left|].
    right. split; [assumption | reflexivity].
Qed.

Lemma unique_NoDup (l : list string) : NoDup (unique l).
Proof.
  induction l as [|y l IH]; simpl; constructor.
  - intros H. apply filter_In in H as [_ H].
    rewrite String.eqb_refl in H. discriminate.
  - now apply NoDup_filter.
Qed.

(** X18. [get_pathogens_for_order] lists, without repetition, exactly the
    non-empty [pathogen_status] values of the batches linked to the order;
    contamination records play no part in it. *)
Theorem pathogens_of_order_are_its_batches_statuses (s : Store) (order_id : Z)
    (p : string) :
  NoDup (get_pathogens_for_order s order_id)
  /\ (In p (get_pathogens_for_order s order_id)
      <-> p <> EmptyString
          /\ exists b, In b (rows (explant_batches s))
                       /\ Batch.order_id b = Some order_id
                       /\ Batch.pathogen_status b = Some p)
  /\ get_pathogens_for_order
       (with_infection_records s empty_table) order_id
     = get_pathogens_for_order s order_id.
Proof.
  split; [apply unique_NoDup|]. split; [|reflexivity].
  unfold get_pathogens_for_order. rewrite unique_in, in_flat_map. split.
  - intros (b & Hb & Hin). unfold fk_eqb in Hin.
    destruct (Batch.order_id b) as [o|] eqn:Eo; [|contradiction].
    destruct (o =? order_id) eqn:E; [|contradiction]. apply Z.eqb_eq in E.
    destruct (Batch.pathogen_status b) as [q|] eqn:Ep; [|contradiction].
    destruct (String.eqb_spec q EmptyString) as [-> | Hne]; [contradiction|].
    destruct Hin as [<- | []]. split; [assumption|].
    exists b. subst o. now repeat split.
  - intros (Hne & b & Hb & Ho & Hp). exists b. split; [assumption|].
    rewrite Ho, Hp. cbn. rewrite Z.eqb_refl.
    destruct (String.eqb_spec p EmptyString) as [-> | _]; [contradiction|].
    now left.
Qed.

(** The head of a list sorted by [order_by_desc] carries the largest key. *)
Lemma order_by_desc_head {R : Type} (key : R -> Z) (l : list R) (x : R)
    (tl : list R) :
  order_by_desc key l = x :: tl -> forall y, In y l -> key y <= key x.
Proof.
  unfold order_by_desc. revert x tl.
  induction l as [|a l IH]; intros x tl H y Hy; [contradiction|].
  simpl in H.
  destruct (sort_by (fun x y => key y <=? key x) l) as [|z zs] eqn:E.
  - apply sort_by_nil_inv in E. subst l. simpl in H. injection H as <- _.
    destruct Hy as [<- | []]. lia.
  - simpl in H. destruct (key z <=? key a) eqn:Ele.
    + injection H as <- _. apply Z.leb_le in Ele.
      destruct Hy as [<- | Hy]; [lia|].
      specialize (IH z zs eq_refl y Hy). lia.
    + injection H as <- _. apply Z.leb_gt in Ele.
      destruct Hy as [<- | Hy]; [lia|].
      now apply (IH z zs eq_refl).
Qed.

(** X19. The label form works on the most recent open order of the
    selected cultivar: the order it picks is in the orders table, is not
    completed, carries the cultivar, and no open order of that cultivar
    has a later order date. *)
Theorem label_form_picks_latest_open_order (s : Store) (cv : string)
    (o : Order.t) :
  label_order s cv = Success o ->
  In o (rows (orders s)) /\ Order.completed o = 0 /\ Order.cultivar o = cv
  /\ forall o', In o' (rows (orders s)) -> Order.completed o' = 0 ->
                Order.cultivar o' = cv ->
                Order.order_date o' <= Order.order_date o.
Proof.
  unfold label_order. intros H.
  destruct (filter _ (get_orders s)) as [|a0 acts] eqn:Ea; [discriminate|].
  rewrite <- Ea in H. clear Ea a0 acts.
  bind_inv H. apply selectbox_str_inv in Hm as [-> _].
  destruct (String.eqb cv EmptyString); [discriminate|].
  destruct (order_by_desc _ _) as [|x tl] eqn:Es; [discriminate|].
  injection H as ->.
  assert (Hin : In o (order_by_desc Order.order_date
                        (filter (fun o => String.eqb (Order.cultivar o) cv)
                           (filter (fun o => Order.completed o =? 0)
                              (get_orders s))))).
  { rewrite Es. now left. }
  unfold order_by_desc in Hin. apply sort_by_in in Hin.
  apply filter_In in Hin as [Hin Hcv]. apply filter_In in Hin as [Hin Hc].
  apply get_orders_in in Hin. apply String.eqb_eq in Hcv. apply Z.eqb_eq in Hc.
  repeat split; try assumption.
  intros o' Ho' Hc' Hcv'.
  apply (order_by_desc_head _ _ _ _ Es).
  apply filter_In. split; [|now apply String.eqb_eq].
  apply filter_In. split; [now apply get_orders_in | now apply Z.eqb_eq].
Qed.

Lemma label_form_picks_latest_open_order_witness :
  In (Order.mk 1 "Acme" "Cascade" 10 "Clones" 5 (Some 5) 0 0 None
        (Some EmptyString) 0) (rows (orders store_lifecycle))
  /\ 0 = 0 /\ "Cascade" = "Cascade"
  /\ forall o', In o' (rows (orders store_lifecycle)) ->
                Order.completed o' = 0 -> Order.cultivar o' = "Cascade" ->
                Order.order_date o' <= 5.
Proof.
  exact (label_form_picks_latest_open_order store_lifecycle "Cascade" _ eq_refl).
Defined.






(** *** The label sheet *)

Lemma page_count_step (labels_per_page idx pages : Z) :
  1 <= labels_per_page -> 0 <= idx ->
  (idx = 0 /\ pages = 0) \/ (1 <= idx /\ pages = (idx - 1) / labels_per_page) ->
  (if (idx >? 0) && (idx mod labels_per_page =? 0) then pages + 1 else pages)
  = idx / labels_per_page.
Proof.
  intros Hpp Hidx [[-> ->] | [Hpos ->]].
  - reflexivity.
  - replace (idx >? 0) with true
      by (symmetry; rewrite Z.gtb_ltb; apply Z.ltb_lt; lia).
    cbn [andb].
    pose proof (Z.div_mod idx labels_per_page ltac:(lia)) as Hdm.
    pose proof (Z.mod_pos_bound idx labels_per_page ltac:(lia)) as Hm.
    destruct (idx mod labels_per_page =? 0) eqn:E.
    + apply Z.eqb_eq in E.
      assert (Hq : (idx - 1) / labels_per_page = idx / labels_per_page - 1).
      { symmetry. apply (Z.div_unique _ _ _ (labels_per_page - 1)); lia. }
      lia.
    + apply Z.eqb_neq in E.
      symmetry. apply (Z.div_unique _ _ _ (idx mod labels_per_page - 1)); lia.
Qed.

Lemma draw_labels_cells (labels_per_row labels_per_col : Z)
    (labels_data : list LabelData.t) :
  1 <= labels_per_row -> 1 <= labels_per_col ->
  forall idx pages i d,
    0 <= idx ->
    (idx = 0 /\ pages = 0)
    \/ (1 <= idx /\ pages = (idx - 1) / (labels_per_row * labels_per_col)) ->
    nth_error (draw_labels labels_per_row labels_per_col idx pages labels_data) i
    = Some d ->
    page d = (idx + Z.of_nat i) / (labels_per_row * labels_per_col)
    /\ row d = ((idx + Z.of_nat i) mod (labels_per_row * labels_per_col))
               / labels_per_row
    /\ col d = ((idx + Z.of_nat i) mod (labels_per_row * labels_per_col))
               mod labels_per_row
    /\ exists label_data,
         nth_error labels_data i = Some label_data
         /\ lines d = label_lines label_data.
Proof.
  intros Hr Hc. induction labels_data as [|ld rest IH];
    intros idx pages i d Hidx Hinv Hnth.
  - destruct i; discriminate.
  - cbn [draw_labels] in Hnth.
    rewrite (page_count_step _ idx pages) in Hnth by (assumption || nia).
    destruct i as [|i]; cbn [nth_error] in Hnth.
    + injection Hnth as <-. cbn. rewrite Z.add_0_r.
      repeat split. now exists ld.
    + apply IH in Hnth; [|lia|].
      * replace (idx + 1 + Z.of_nat i) with (idx + Z.of_nat (S i)) in Hnth by lia.
        exact Hnth.
      * right. split; [lia|]. f_equal. lia.
Qed.

(** X21. On the label sheet of [generate_label_pdf], with at least one
    label per row and per column, every label is drawn, in the order of
    [labels_data], on a cell inside the grid, and label number [i] sits on
    page, row and column with
    [i = (page * labels_per_col + row) * labels_per_row + col]: two labels
    never share a cell of a page, and pages are filled row by row. *)
Theorem label_sheet_cells (labels_data : list LabelData.t)
    (labels_per_row labels_per_col : Z) :
  1 <= labels_per_row -> 1 <= labels_per_col ->
  forall i d,
    nth_error (generate_label_pdf labels_data labels_per_row labels_per_col) i
    = Some d ->
    0 <= page d /\ 0 <= row d < labels_per_col /\ 0 <= col d < labels_per_row
    /\ Z.of_nat i = (page d * labels_per_col + row d) * labels_per_row + col d
    /\ exists label_data,
         nth_error labels_data i = Some label_data
         /\ lines d = label_lines label_data.
Proof.
  intros Hr Hc i d Hnth. unfold generate_label_pdf in Hnth.
  apply (draw_labels_cells _ _ _ Hr Hc 0 0 i d) in Hnth
    as (Hp & Hrow & Hcol & Hld); [|lia|left; split; reflexivity].
  rewrite Z.add_0_l in Hp, Hrow, Hcol.
  set (pp := labels_per_row * labels_per_col) in *.
  set (k := Z.of_nat i) in *.
  assert (Hpp : 1 <= pp) by (unfold pp; nia).
  assert (Hk : 0 <= k) by (unfold k; lia).
  pose proof (Z.div_mod k pp ltac:(lia)) as Hdm.
  pose proof (Z.mod_pos_bound k pp ltac:(lia)) as Hm.
  pose proof (Z.div_mod (k mod pp) labels_per_row ltac:(lia)) as Hdm2.
  pose proof (Z.mod_pos_bound (k mod pp) labels_per_row ltac:(lia)) as Hm2.
  assert (Hq : 0 <= k / pp) by (apply Z.div_pos; lia).
  assert (Hq2 : 0 <= (k mod pp) / labels_per_row) by (apply Z.div_pos; lia).
  assert (Hq3 : (k mod pp) / labels_per_row < labels_per_col).
  { apply Z.div_lt_upper_bound; [lia|]. destruct Hm as [_ Hm]. exact Hm. }
  assert (Hi : k = (k / pp * labels_per_col + k mod pp / labels_per_row)
                   * labels_per_row + (k mod pp) mod labels_per_row).
  { rewrite Hdm at 1. rewrite Hdm2 at 1. unfold pp. ring. }
  rewrite Hp, Hrow, Hcol. repeat split; try lia; first [exact Hi | exact Hld].
Qed.

Lemma label_sheet_cells_witness :
  0 <= 1 /\ 0 <= 0 < 2 /\ 0 <= 1 < 3
  /\ Z.of_nat 7 = (1 * 2 + 0) * 3 + 1
  /\ exists label_data,
       nth_error (repeat (LabelData.mk "u" "Acme" "Cascade - 1" 5 6 "Rooting"
                            None 4 true true true true true true true "QR Code")
                         8) 7 = Some label_data
       /\ label_lines (LabelData.mk "u" "Acme" "Cascade - 1" 5 6 "Rooting"
                         None 4 true true true true true true true "QR Code")
          = label_lines label_data.
Proof.
  apply (label_sheet_cells
           (repeat (LabelData.mk "u" "Acme" "Cascade - 1" 5 6 "Rooting"
                      None 4 true true true true true true true "QR Code") 8)
           3 2 ltac:(lia) ltac:(lia) 7
           (mk_drawn 1 0 1
              (label_lines (LabelData.mk "u" "Acme" "Cascade - 1" 5 6 "Rooting"
                              None 4 true true true true true true true
                              "QR Code")))).
  reflexivity.
Defined.





(** ** Statistics *)

Lemma isin_spec (v : Z) (ids : list Z) : isin v ids = true <-> In v ids.
Proof.
  unfold isin. rewrite existsb_exists. split.
  - intros (x & Hx & E). apply Z.eqb_eq in E. now subst.
  - intros H. exists v. split; [assumption | apply Z.eqb_refl].
Qed.

Lemma filter_isin_in {R : Type} (key : R -> Z) (ids : list Z) (l : list R)
    (r : R) :
  In r (filter (fun x => isin (key x) ids) l) <-> In r l /\ In (key r) ids.
Proof. rewrite filter_In. now rewrite isin_spec. Qed.

(** X23. Without "Include Archived Orders", the batches the Statistics
    page works on are exactly those linked to no order or to an order that
    is in the table and not completed: a batch whose order is completed,
    and equally a batch whose order has been deleted, is left out. When
    any batch is left, the contamination, transfer and rooting records
    are exactly those of the batches left. *)
Theorem statistics_leave_out_archived_and_orphaned (s : Store)
    (batches : list Batch.t) (infections : list Infection.t)
    (transfers : list Transfer.t) (rootings : list Rooting.t) :
  statistics_frames s false = (batches, infections, transfers, rootings) ->
  (forall b, In b batches <->
             In b (rows (explant_batches s))
             /\ (Batch.order_id b = None
                 \/ exists o, In o (rows (orders s))
                              /\ Batch.order_id b = Some (Order.id o)
                              /\ Order.completed o = 0))
  /\ (batches <> [] ->
      (forall r, In r infections <->
                 In r (rows (infection_records s))
                 /\ In (Infection.batch_id r) (map Batch.id batches))
      /\ (forall r, In r transfers <->
                    In r (rows (transfer_records s))
                    /\ In (Transfer.batch_id r) (map Batch.id batches))
      /\ (forall r, In r rootings <->
                    In r (rows (rooting_records s))
                    /\ In (Rooting.batch_id r) (map Batch.id batches))).
Proof.
  unfold statistics_frames. cbv iota.
  set (scope := filter _ (get_explant_batches s None)).
  assert (Hscope : forall b, In b scope <->
             In b (rows (explant_batches s))
             /\ (Batch.order_id b = None
                 \/ exists o, In o (rows (orders s))
                              /\ Batch.order_id b = Some (Order.id o)
                              /\ Order.completed o = 0)).
  { intros b. unfold scope. rewrite filter_In.
    unfold get_explant_batches, order_by_desc. cbn [truthy].
    rewrite sort_by_in. split.
    - intros [Hb Hlink]. split; [assumption|].
      destruct (Batch.order_id b) as [oid|]; [|now left]. right.
      apply isin_spec in Hlink. apply in_map_iff in Hlink as (o & <- & Ho).
      apply filter_In in Ho as [Ho Hc]. apply get_orders_in in Ho.
      apply Z.eqb_eq in Hc. now exists o.
    - intros [Hb [Hnone | (o & Ho & Hlink & Hc)]]; (split; [assumption|]).
      + now rewrite Hnone.
      + rewrite Hlink. apply isin_spec. apply in_map. apply filter_In.
        split; [now apply get_orders_in | now apply Z.eqb_eq]. }
  destruct scope as [|b0 bs] eqn:Es.
  - intros [= <- <- <- <-]. split; [exact Hscope | intros H; now contradiction H].
  - intros [= <- <- <- <-]. split; [exact Hscope|]. intros _.
    split; [|split]; intros r.
    + etransitivity;
        [exact (filter_isin_in Infection.batch_id (map Batch.id (b0 :: bs)) _ r)|].
      unfold get_infection_records, order_by_desc. cbn [truthy].
      now rewrite sort_by_in.
    + etransitivity;
        [exact (filter_isin_in Transfer.batch_id (map Batch.id (b0 :: bs)) _ r)|].
      unfold get_transfer_records, order_by_desc. cbn [truthy].
      now rewrite sort_by_in.
    + etransitivity;
        [exact (filter_isin_in Rooting.batch_id (map Batch.id (b0 :: bs)) _ r)|].
      unfold get_rooting_records, order_by_desc. cbn [truthy].
      now rewrite sort_by_in.
Qed.

Lemma statistics_leave_out_archived_and_orphaned_witness :
  (forall b, In b [] <->
             In b (rows (explant_batches store_order2))
             /\ (Batch.order_id b = None
                 \/ exists o, In o (rows (orders store_order2))
                              /\ Batch.order_id b = Some (Order.id o)
                              /\ Order.completed o = 0))
  /\ (@nil Batch.t <> [] ->
      (forall r, In r (rows (infection_records store_order2)) <->
                 In r (rows (infection_records store_order2))
                 /\ In (Infection.batch_id r) (map Batch.id []))
      /\ (forall r, In r (rows (transfer_records store_order2)) <->
                    In r (rows (transfer_records store_order2))
                    /\ In (Transfer.batch_id r) (map Batch.id []))
      /\ (forall r, In r (rows (rooting_records store_order2)) <->
                    In r (rows (rooting_records store_order2))
                    /\ In (Rooting.batch_id r) (map Batch.id []))).
Proof.
  exact (statistics_leave_out_archived_and_orphaned store_order2 [] _ _ _ eq_refl).
Defined.

(** *** The running total of explants *)

Lemma change_until_cons (D : date) (e : date * Z) (events : list (date * Z)) :
  change_until D (e :: events)
  = (if fst e <=? D then snd e else 0) + change_until D events.
Proof.
  destruct e as [d c]. unfold change_until, series_sum. cbn [filter fst snd].
  destruct (d <=? D); cbn [map fold_right snd]; lia.
Qed.

Lemma change_until_add (D d c : Z) (daily : list (date * Z)) :
  change_until D (add_change d c daily)
  = (if d <=? D then c else 0) + change_until D daily.
Proof.
  induction daily as [|[d' c'] rest IH]; simpl.
  - rewrite change_until_cons. reflexivity.
  - destruct (d <? d') eqn:E1; [now rewrite change_until_cons|].
    destruct (d =? d') eqn:E2.
    + apply Z.eqb_eq in E2. subst d'. rewrite !change_until_cons. simpl.
      destruct (d <=? D); lia.
    + rewrite !change_until_cons, IH. simpl. lia.
Qed.

Lemma change_until_groupby (D : date) (events : list (date * Z)) :
  change_until D (groupby_sum events) = change_until D events.
Proof.
  induction events as [|e events IH]; simpl; [reflexivity|].
  now rewrite change_until_add, change_until_cons, IH.
Qed.

Lemma add_change_dates (d c x : Z) (daily : list (date * Z)) :
  In x (map fst (add_change d c daily)) <-> x = d \/ In x (map fst daily).
Proof.
  induction daily as [|[d' c'] rest IH]; simpl.
  - intuition.
  - destruct (d <? d'); simpl; [intuition|].
    destruct (d =? d') eqn:E; simpl.
    + apply Z.eqb_eq in E. subst. intuition.
    + rewrite IH. intuition.
Qed.

Lemma groupby_dates (x : Z) (events : list (date * Z)) :
  In x (map fst (groupby_sum events)) <-> In x (map fst events).
Proof.
  induction events as [|e events IH]; simpl; [reflexivity|].
  rewrite add_change_dates, IH. intuition.
Qed.

Lemma add_change_ascending (d c : Z) (daily : list (date * Z)) :
  ascending daily -> ascending (add_change d c daily).
Proof.
  induction daily as [|[d' c'] rest IH]; simpl.
  - intros _. split; [constructor | exact I].
  - intros [Hall Hrest].
    destruct (d <? d') eqn:E1.
    + apply Z.ltb_lt in E1. simpl. split; [|now split].
      constructor; [simpl; lia|].
      eapply Forall_impl; [|exact Hall]. simpl. intros e He. lia.
    + apply Z.ltb_ge in E1. destruct (d =? d') eqn:E2; simpl.
      * now split.
      * apply Z.eqb_neq in E2. split; [|now apply IH].
        apply Forall_forall. intros e He.
        assert (Hd : In (fst e) (map fst (add_change d c rest)))
          by now apply in_map.
        apply add_change_dates in Hd as [-> | Hd]; [lia|].
        apply in_map_iff in Hd as (e' & <- & He').
        rewrite Forall_forall in Hall. now apply Hall.
Qed.

Lemma groupby_ascending (events : list (date * Z)) :
  ascending (groupby_sum events).
Proof.
  induction events as [|e events IH]; simpl; [exact I|].
  now apply add_change_ascending.
Qed.

Lemma cumsum_dates (acc : Z) (l : list (date * Z)) :
  map fst (cumsum acc l) = map fst l.
Proof.
  revert acc. induction l as [|[d c] rest IH]; intros acc; simpl;
    [reflexivity | now rewrite IH].
Qed.

Lemma find_none_date (D : date) (l : list (date * Z)) :
  find (fun e => fst e =? D) l = None -> ~ In D (map fst l).
Proof.
  intros H Hin. apply in_map_iff in Hin as (e & He & Hin).
  apply (find_none _ _ H) in Hin. cbv beta in Hin.
  apply Z.eqb_neq in Hin. apply Hin. exact He.
Qed.

(** In a date-ordered table of running totals, the row of day [D] holds
    the changes of all rows up to [D]. *)
Lemma cumsum_find (acc D : Z) (l : list (date * Z)) (e : date * Z) :
  ascending l ->
  find (fun e => fst e =? D) (cumsum acc l) = Some e ->
  snd e = acc + change_until D l.
Proof.
  revert acc. induction l as [|[d c] rest IH]; intros acc Hasc H;
    [discriminate|].
  destruct Hasc as [Hall Hrest]. simpl in H. rewrite change_until_cons. simpl.
  destruct (d =? D) eqn:E.
  - apply Z.eqb_eq in E. subst d. injection H as <-. simpl.
    rewrite Z.leb_refl.
    assert (Hz : change_until D rest = 0).
    { unfold change_until. clear IH Hrest.
      induction rest as [|[d' c'] rest IH']; [reflexivity|].
      inversion Hall as [|? ? Hd Hall']; subst. simpl in Hd. simpl.
      replace (d' <=? D) with false by (symmetry; apply Z.leb_gt; lia).
      now apply IH'. }
    lia.
  - apply Z.eqb_neq in E.
    assert (HD : In D (map fst rest)).
    { apply find_some in H as [Hin HfD]. apply Z.eqb_eq in HfD.
      rewrite <- HfD. rewrite <- (cumsum_dates (acc + c) rest). now apply in_map. }
    apply in_map_iff in HD as (e' & He' & Hin').
    rewrite Forall_forall in Hall. specialize (Hall e' Hin').
    unfold date in *.
    replace (d <=? D) with true by (symmetry; apply Z.leb_le; lia).
    rewrite (IH (acc + c) Hrest H). lia.
Qed.

Lemma change_until_no_event (D : date) (events : list (date * Z)) :
  ~ In D (map fst events) -> change_until D events = change_until (D - 1) events.
Proof.
  induction events as [|[d c] rest IH]; intros Hno; [reflexivity|].
  rewrite !change_until_cons. simpl in *.
  rewrite IH by tauto.
  assert (d <> D) by tauto.
  destruct (d <=? D) eqn:E1, (d <=? D - 1) eqn:E2; try reflexivity.
  - apply Z.leb_le in E1. apply Z.leb_gt in E2. lia.
  - apply Z.leb_gt in E1. apply Z.leb_le in E2. lia.
Qed.

Lemma change_until_before_all (D : date) (events : list (date * Z)) :
  (forall d, In d (map fst events) -> D < d) -> change_until D events = 0.
Proof.
  induction events as [|[d c] rest IH]; intros Hall; [reflexivity|].
  rewrite change_until_cons. simpl in *.
  replace (d <=? D) with false
    by (symmetry; apply Z.leb_gt; apply Hall; now left).
  rewrite IH; [reflexivity|]. intros x Hx. apply Hall. now right.
Qed.

(** The forward fill: every charted day carries the total of the changes
    up to that day. *)
Lemma ffill_totals (events : list (date * Z)) (k : nat) (start : date)
    (carry : option Z) (D v : Z) :
  match carry with
  | Some c => c = change_until (start - 1) events
  | None => forall d, In d (map fst events) -> start <= d
  end ->
  In (D, v)
     (ffill carry (map (fun i => start + Z.of_nat i) (List.seq 0 k))
            (cumsum 0 (groupby_sum events))) ->
  start <= D < start + Z.of_nat k /\ v = change_until D events.
Proof.
  revert start carry. induction k as [|k IH]; intros start carry Hc Hin;
    [contradiction|].
  cbn [List.seq map ffill] in Hin. rewrite Z.add_0_r in Hin.
  set (totals := cumsum 0 (groupby_sum events)) in *.
  unfold date in *.
  assert (Hhere :
    coalesce match find (fun e => fst e =? start) totals with
             | Some e => Some (snd e)
             | None => carry
             end 0 = change_until start events).
  { destruct (find (fun e : Z * Z => fst e =? start) totals) as [e|] eqn:Ef.
    - cbn [coalesce].
      transitivity (0 + change_until start (groupby_sum events));
        [exact (cumsum_find 0 start (groupby_sum events) e
                  (groupby_ascending events) Ef)|].
      rewrite change_until_groupby. lia.
    - apply find_none_date in Ef. unfold totals in Ef.
      rewrite cumsum_dates in Ef.
      assert (Hno : ~ In start (map fst events))
        by (intros H; apply Ef; now apply groupby_dates).
      rewrite (change_until_no_event start events Hno).
      destruct carry as [c|]; cbn; [exact Hc|].
      symmetry. apply change_until_before_all. intros d Hd.
      specialize (Hc d Hd). lia. }
  destruct Hin as [Hin | Hin].
  - injection Hin as <- <-. split; [lia | exact Hhere].
  - rewrite <- seq_shift, map_map in Hin.
    rewrite (map_ext _ (fun i => (start + 1) + Z.of_nat i)) in Hin
      by (intros i; lia).
    apply IH in Hin as [Hr Hv]; [split; [lia | exact Hv]|].
    destruct (find (fun e : Z * Z => fst e =? start) totals) as [e|] eqn:Ef.
    + replace (start + 1 - 1) with start by lia.
      rewrite <- Hhere. reflexivity.
    + destruct carry as [c|].
      * replace (start + 1 - 1) with start by lia.
        rewrite <- Hhere. reflexivity.
      * intros d Hd. specialize (Hc d Hd).
        apply find_none_date in Ef. unfold totals in Ef.
        rewrite cumsum_dates in Ef.
        assert (d <> start).
        { intros ->. apply Ef. now apply groupby_dates. }
        lia.
Qed.

Lemma min_date_le (d : date) (ds : list date) :
  forall x, In x (d :: ds) -> min_date d ds <= x.
Proof.
  unfold min_date. induction ds as [|y ds IH]; simpl.
  - intros x [<- | []]. lia.
  - intros x [<- | [<- | Hx]].
    + specialize (IH d (or_introl eq_refl)). lia.
    + lia.
    + specialize (IH x (or_intror Hx)). lia.
Qed.

(** X24. On the "Total Explants Over Time" chart, every day shown lies
    between the first event and today, and its value is the sum of the
    changes of all events up to that day: the explants of the batches
    initiated, minus [num_infected] of the contamination records
    identified, plus [explants_out - explants_in] of the transfers made by
    then, over the frames the page works on. *)
Theorem explants_chart_is_running_total (s : Store) (include_archived : bool)
    (today : date) (chart : list (date * Z)) (D v : Z) :
  total_explants_over_time s include_archived today = Some chart ->
  In (D, v) chart ->
  D <= today
  /\ v = series_sum
           (map Batch.num_explants
              (filter (fun b => Batch.initiation_date b <=? D)
                 (fst (fst (fst (statistics_frames s include_archived))))))
         - series_sum
             (map Infection.num_infected
                (filter (fun r => Infection.identification_date r <=? D)
                   (snd (fst (fst (statistics_frames s include_archived))))))
         + series_sum
             (map (fun t => Transfer.explants_out t - Transfer.explants_in t)
                (filter (fun t => Transfer.transfer_date t <=? D)
                   (snd (fst (statistics_frames s include_archived))))).
Proof.
  unfold total_explants_over_time.
  destruct (statistics_frames s include_archived)
    as [[[batches infections] transfers] rootings].
  cbn [fst snd].
  destruct batches as [|b0 bs] eqn:Eb; [discriminate|]. rewrite <- Eb. clear Eb.
  set (events := explant_events batches infections transfers).
  destruct events as [|e0 es] eqn:Ee; [discriminate|].
  rewrite <- Ee. clear Ee e0 es.
  destruct (map fst (groupby_sum events)) as [|d ds] eqn:Ed; [discriminate|].
  intros [= <-] Hin. unfold date_range in Hin.
  apply (ffill_totals events) in Hin as [Hrange Hv].
  - split.
    + destruct (Z.leb_spec (min_date d ds) (today + 1)) as [Hle | Hgt].
      * rewrite Z2Nat.id in Hrange by lia. lia.
      * replace (Z.to_nat (today - min_date d ds + 1)) with 0%nat in Hrange
          by lia. lia.
    + rewrite Hv. unfold change_until, events, explant_events.
      rewrite !filter_app, !map_app, !series_sum_app.
      assert (H1 : forall l,
                 series_sum
                   (map snd
                      (filter (fun e => fst e <=? D)
                         (map (fun b => (Batch.initiation_date b,
                                         Batch.num_explants b)) l)))
                 = series_sum
                     (map Batch.num_explants
                        (filter (fun b => Batch.initiation_date b <=? D) l))).
      { induction l as [|x l IH]; [reflexivity|]. simpl.
        destruct (Batch.initiation_date x <=? D); simpl; now rewrite IH. }
      assert (H2 : forall l,
                 series_sum
                   (map snd
                      (filter (fun e => fst e <=? D)
                         (map (fun r => (Infection.identification_date r,
                                         - Infection.num_infected r)) l)))
                 = - series_sum
                       (map Infection.num_infected
                          (filter (fun r => Infection.identification_date r <=? D)
                                  l))).
      { induction l as [|x l IH]; [reflexivity|]. simpl.
        destruct (Infection.identification_date x <=? D); simpl; rewrite IH; lia. }
      assert (H3 : forall l,
                 series_sum
                   (map snd
                      (filter (fun e => fst e <=? D)
                         (map (fun t => (Transfer.transfer_date t,
                                         Transfer.explants_out t
                                         - Transfer.explants_in t)) l)))
                 = series_sum
                     (map (fun t => Transfer.explants_out t
                                    - Transfer.explants_in t)
                        (filter (fun t => Transfer.transfer_date t <=? D) l))).
      { induction l as [|x l IH]; [reflexivity|]. simpl.
        destruct (Transfer.transfer_date x <=? D); simpl; now rewrite IH. }
      rewrite H1, H2, H3. lia.
  - intros x Hx. apply (min_date_le d ds).
    rewrite <- Ed. now apply groupby_dates.
Qed.

Lemma explants_chart_is_running_total_witness :
  20 <= 25
  /\ 63 = series_sum
            (map Batch.num_explants
               (filter (fun b => Batch.initiation_date b <=? 20)
                  (fst (fst (fst (statistics_frames store_lifecycle false))))))
          - series_sum
              (map Infection.num_infected
                 (filter (fun r => Infection.identification_date r <=? 20)
                    (snd (fst (fst (statistics_frames store_lifecycle false))))))
          + series_sum
              (map (fun t => Transfer.explants_out t - Transfer.explants_in t)
                 (filter (fun t => Transfer.transfer_date t <=? 20)
                    (snd (fst (statistics_frames store_lifecycle false))))).
Proof.
  apply (explants_chart_is_running_total store_lifecycle false 25 _ 20 63 eq_refl).
  vm_compute. do 14 right. left. reflexivity.
Defined.

(** *** Per-cultivar totals *)

Lemma insert_by_NoDup {R K : Type} (le : R -> R -> bool) (key : R -> K)
    (x : R) (l : list R) :
  ~ In (key x) (map key l) -> NoDup (map key l) ->
  NoDup (map key (insert_by le x l)).
Proof.
  induction l as [|z l IH]; simpl; intros Hx Hnd.
  - constructor; [intros [] | constructor].
  - destruct (le x z); simpl.
    + constructor; assumption.
    + inversion Hnd as [|? ? Hz Hl]; subst. constructor.
      * intros Hin. apply in_map_iff in Hin as (y & Hy & Hin).
        apply insert_by_in in Hin as [-> | Hin].
        -- apply Hx. left. now symmetry.
        -- apply Hz. rewrite <- Hy. now apply in_map.
      * apply IH; [|assumption]. intros Hin. apply Hx. now right.
Qed.

Lemma sort_by_NoDup {R K : Type} (le : R -> R -> bool) (key : R -> K)
    (l : list R) :
  NoDup (map key l) -> NoDup (map key (sort_by le l)).
Proof.
  induction l as [|x l IH]; simpl; intros Hnd; [constructor|].
  inversion Hnd as [|? ? Hx Hl]; subst.
  apply insert_by_NoDup; [|now apply IH].
  intros Hin. apply Hx. apply in_map_iff in Hin as (y & Hy & Hin).
  apply sort_by_in in Hin. rewrite <- Hy. now apply in_map.
Qed.

Lemma filter_filter_impl {R : Type} (p q : R -> bool) (l : list R) :
  (forall x, In x l -> q x = true -> p x = true) ->
  filter q (filter p l) = filter q l.
Proof.
  induction l as [|x l IH]; simpl; intros H; [reflexivity|].
  destruct (p x) eqn:Ep; simpl.
  - destruct (q x); [f_equal|]; apply IH; intros y Hy; apply H; now right.
  - destruct (q x) eqn:Eq.
    + rewrite (H x (or_introl eq_refl) Eq) in Ep. discriminate.
    + apply IH. intros y Hy. apply H. now right.
Qed.

Lemma sum_filter_as_sum {R : Type} (f : R -> Z) (p : R -> bool) (l : list R) :
  series_sum (map f (filter p l))
  = series_sum (map (fun x => if p x then f x else 0) l).
Proof.
  induction l as [|x l IH]; simpl; [reflexivity|].
  destruct (p x); simpl; rewrite IH; lia.
Qed.

Lemma sum_filter_sorted {R : Type} (le : R -> R -> bool) (f : R -> Z)
    (p : R -> bool) (l : list R) :
  series_sum (map f (filter p (sort_by le l)))
  = series_sum (map f (filter p l)).
Proof. now rewrite !sum_filter_as_sum, sort_by_sum. Qed.

(** Over batch ids without repetition, the records of the batches add up
    batch by batch. *)
Lemma sum_by_batch (f : Infection.t -> Z) (ids : list Z) (l : list Infection.t) :
  NoDup ids ->
  series_sum (map f (filter (fun r => isin (Infection.batch_id r) ids) l))
  = series_sum
      (map (fun i =>
              series_sum (map f (filter (fun r => Infection.batch_id r =? i) l)))
           ids).
Proof.
  induction 1 as [|i ids Hi _ IH]; simpl.
  - induction l as [|x l IHl]; [reflexivity | exact IHl].
  - rewrite <- IH. clear IH.
    induction l as [|x l IHl]; simpl; [reflexivity|].
    destruct (Z.eqb_spec (Infection.batch_id x) i) as [E | E]; simpl.
    + replace (isin (Infection.batch_id x) ids) with false.
      * rewrite IHl. lia.
      * symmetry. apply not_true_is_false. intros H. apply isin_spec in H.
        now rewrite E in H.
    + destruct (isin (Infection.batch_id x) ids); simpl; rewrite IHl; lia.
Qed.

Lemma total_lost_all_recorded (batches : table Batch.t) (l : list Infection.t) :
  Forall (infection_ok batches) l ->
  cultivar_total_lost l = series_sum (map contribution l).
Proof.
  intros Hall. unfold cultivar_total_lost.
  destruct l as [|r l]; [reflexivity|].
  assert (Hsome : forall x, In x (r :: l) -> exists nl, Infection.num_lost x = Some nl).
  { intros x Hx. rewrite Forall_forall in Hall.
    destruct (Hall x Hx) as (_ & nl & _ & Hnl & _). now exists nl. }
  replace (existsb _ (r :: l)) with true.
  - f_equal. apply map_ext_in. intros x Hx.
    destruct (Hsome x Hx) as (nl & Hnl). unfold contribution. now rewrite Hnl.
  - symmetry. apply existsb_exists. exists r. split; [now left|].
    destruct (Hsome r (or_introl eq_refl)) as (nl & ->). reflexivity.
Qed.

Lemma at_most_one_by_id {R : Type} (id : R -> Z) (p : R -> bool) (i : Z)
    (l : list R) :
  NoDup (map id l) -> (forall x, p x = true -> id x = i) ->
  (List.length (filter p l) <= 1)%nat.
Proof.
  intros Hnd Hp. induction l as [|x l IH]; simpl; [lia|].
  inversion Hnd as [|? ? Hx Hl]; subst.
  destruct (p x) eqn:E; simpl; [|now apply IH].
  replace (filter p l) with (@nil R); [simpl; lia|].
  symmetry. apply filter_none. intros y Hy.
  destruct (p y) eqn:Ey; [|reflexivity].
  exfalso. apply Hx. rewrite (Hp x E), <- (Hp y Ey). now apply in_map.
Qed.

Lemma batches_with_orders_NoDup (batches : list Batch.t) (orders : list Order.t) :
  NoDup (map Batch.id batches) -> NoDup (map Order.id orders) ->
  NoDup (map (fun row => Batch.id (fst row))
             (batches_with_orders_of batches orders)).
Proof.
  intros Hb Ho. unfold batches_with_orders_of.
  induction batches as [|b bs IH]; simpl; [constructor|].
  inversion Hb as [|? ? Hx Hbs]; subst.
  rewrite map_app, map_map. cbn [fst].
  apply NoDup_app.
  - assert (Hlen : (List.length
                      (filter (fun o => fk_eqb (Batch.order_id b) (Order.id o))
                              orders) <= 1)%nat).
    { destruct (Batch.order_id b) as [oid|] eqn:E.
      - apply (at_most_one_by_id Order.id _ oid); [assumption|].
        intros o Hfk. cbn in Hfk. apply Z.eqb_eq in Hfk. now symmetry.
      - replace (filter _ orders) with (@nil Order.t); [simpl; lia|].
        symmetry. now apply filter_none. }
    destruct (filter _ orders) as [|o1 [|o2 os]]; simpl in *;
      [constructor | repeat constructor; intros [] | lia].
  - now apply IH.
  - intros i Hi1 Hi2. apply in_map_iff in Hi1 as (o & <- & _).
    apply in_map_iff in Hi2 as (row & Hrow & Hin).
    apply in_flat_map in Hin as (b' & Hb' & Hin).
    apply in_map_iff in Hin as (o' & <- & _). cbn in Hrow.
    apply Hx. rewrite <- Hrow. now apply in_map.
Qed.

Lemma statistics_frames_facts (s : Store) (include_archived : bool)
    (batches : list Batch.t) (infections : list Infection.t)
    (transfers : list Transfer.t) (rootings : list Rooting.t) :
  statistics_frames s include_archived
  = (batches, infections, transfers, rootings) ->
  batches <> [] ->
  NoDup (map Batch.id (rows (explant_batches s))) ->
  NoDup (map Batch.id batches)
  /\ forall ids,
       (forall i, In i ids -> In i (map Batch.id batches)) ->
       filter (fun r => isin (Infection.batch_id r) ids) infections
       = filter (fun r => isin (Infection.batch_id r) ids)
                (get_infection_records s None).
Proof.
  unfold statistics_frames. intros H Hne Hnd.
  assert (Hsorted : NoDup (map Batch.id (get_explant_batches s None))).
  { unfold get_explant_batches, order_by_desc. cbn [truthy].
    now apply sort_by_NoDup. }
  destruct include_archived.
  - injection H as <- <- _ _. split; [assumption | reflexivity].
  - set (scope := filter _ (get_explant_batches s None)) in *.
    assert (Hscope : NoDup (map Batch.id scope))
      by now apply NoDup_map_filter.
    destruct scope as [|b0 bs] eqn:Es.
    + injection H as <- _ _ _. now contradiction Hne.
    + injection H as <- <- _ _. split; [assumption|].
      intros ids Hsub. apply filter_filter_impl.
      intros r _ Hr. apply isin_spec in Hr. apply Hsub in Hr.
      now apply (isin_spec (Infection.batch_id r) (map Batch.id (b0 :: bs))).
Qed.

(** X25. On every database the application can produce, the "Total Lost"
    of a cultivar in the per-cultivar statistics is the sum, over the
    batches filed under that cultivar, of the total lost that the
    contamination page computes for each of them, and "Total Explants" is
    the sum of their initial counts. *)
Theorem cultivar_total_lost_adds_up_batch_totals (s : Store)
    (include_archived : bool) (stats : list CultivarStats.t)
    (row : CultivarStats.t) :
  attainable s ->
  per_cultivar_statistics s include_archived = Some stats ->
  In row stats ->
  CultivarStats.Total_Lost row
  = series_sum
      (map (fun b => get_total_infections_for_batch s (Batch.id b))
           (cultivar_batches_of s include_archived (CultivarStats.Cultivar row)))
  /\ CultivarStats.Total_Explants row
     = series_sum
         (map Batch.num_explants
              (cultivar_batches_of s include_archived (CultivarStats.Cultivar row))).
Proof.
  intros Hatt Hstats Hrow. apply attainable_consistent in Hatt.
  destruct Hatt as [(Hno & _) (Hnb & _) _ _ _ _ _ _ _ _ Hi _ _ _ _].
  unfold per_cultivar_statistics, cultivar_batches_of in *.
  destruct (statistics_frames s include_archived)
    as [[[batches infections] transfers] rootings] eqn:Ef.
  cbn [fst snd] in *.
  destruct (get_orders s) as [|o0 os] eqn:Eo; [discriminate|]. rewrite <- Eo in *.
  destruct batches as [|b0 bs] eqn:Eb; [discriminate|]. rewrite <- Eb in *.
  assert (Hne : batches <> []) by (rewrite Eb; discriminate).
  clear Eb b0 bs Eo o0 os.
  injection Hstats as <-. apply in_map_iff in Hrow as (c & <- & _).
  cbn [CultivarStats.Total_Lost CultivarStats.Total_Explants
       CultivarStats.Cultivar].
  destruct (statistics_frames_facts s include_archived _ _ _ _ Ef Hne Hnb)
    as [Hnd Hinf].
  set (cb := filter (fun row => String.eqb (Order.cultivar (snd row)) c)
               (batches_with_orders_of batches (get_orders s))).
  set (ids := map (fun row => Batch.id (fst row)) cb).
  assert (Hids : NoDup ids).
  { unfold ids, cb. apply NoDup_map_filter.
    apply batches_with_orders_NoDup; [assumption|].
    unfold get_orders, order_by_desc. now apply sort_by_NoDup. }
  assert (Hsub : forall i, In i ids -> In i (map Batch.id batches)).
  { intros i Hin. unfold ids in Hin. apply in_map_iff in Hin as (r & <- & Hr).
    unfold cb in Hr. apply filter_In in Hr as [Hr _].
    unfold batches_with_orders_of in Hr.
    apply in_flat_map in Hr as (b & Hb & Hr).
    apply in_map_iff in Hr as (o & <- & _). now apply in_map. }
  split; [|now rewrite map_map].
  rewrite (Hinf ids Hsub).
  rewrite (total_lost_all_recorded (explant_batches s)).
  - unfold get_infection_records, order_by_desc. cbn [truthy].
    rewrite sum_filter_sorted, (sum_by_batch contribution ids _ Hids).
    unfold ids. rewrite !map_map. f_equal. apply map_ext. intros r.
    now rewrite total_infections_as_sum.
  - apply Forall_filter. apply Forall_forall. intros r Hr.
    apply get_infection_records_in in Hr.
    rewrite Forall_forall in Hi. now apply Hi.
Qed.

Lemma cultivar_total_lost_adds_up_batch_totals_witness :
  5 = series_sum
        (map (fun b => get_total_infections_for_batch store_lifecycle (Batch.id b))
             (cultivar_batches_of store_lifecycle false "Cascade"))
  /\ 40 = series_sum
            (map Batch.num_explants
                 (cultivar_batches_of store_lifecycle false "Cascade")).
Proof.
  apply (cultivar_total_lost_adds_up_batch_totals store_lifecycle false
           [CultivarStats.mk "Cascade" 40 25 0 5]
           (CultivarStats.mk "Cascade" 40 25 0 5) attainable_store_lifecycle).
  - reflexivity.
  - left. reflexivity.
Defined.

(** ** A new batch starts clean *)

Lemma new_batch_form_stored s now oid name n et mt d h a notes ps s' bid :
  new_batch_form s now oid name n et mt d h a notes ps = Success (s', bid) ->
  exists oid' ps',
    add_explant_batch s now oid' name n et mt (or_none h) (or_none a) d notes ps'
    = (s', bid)
    /\ 1 <= n.
Proof.
  intros H. unfold new_batch_form in H. form_inv H. widget_inv.
  apply success_inj in H. exists a1, a0. split; assumption.
Qed.

(** X26. On every database the application can produce, a batch entered
    through the "Initiate New Explant Batch" form starts with all its
    explants healthy and nothing transferred: its id is new, so no
    contamination or transfer record of an earlier, deleted batch counts
    against it, on the contamination page and in the batch summary
    alike. *)
Theorem new_batch_starts_healthy s now oid name n et mt d h a notes ps s' bid :
  attainable s ->
  new_batch_form s now oid name n et mt d h a notes ps = Success (s', bid) ->
  1 <= n
  /\ healthy_remaining s' bid = Some n
  /\ get_total_infections_for_batch s' bid = 0
  /\ exists sm, get_batch_summary s' bid = Some sm
                /\ healthy sm = n /\ total_infected sm = 0
                /\ total_transferred sm = 0.
Proof.
  intros Hatt H. apply attainable_consistent in Hatt.
  destruct Hatt as [_ Kb _ _ _ _ _ _ _ _ Hi Ht _ _ _].
  apply new_batch_form_stored in H as (oid' & ps' & Hadd & Hn).
  pose proof (primary_key_insert Batch.id
                (fun i => Batch.mk i oid' name n et mt (or_none h) (or_none a) d
                            (Some notes) now ps')
                (explant_batches s) (fun i => eq_refl) Kb) as (Hnd' & _ & _).
  destruct Kb as (_ & _ & Hids). rewrite Forall_forall in Hids, Hi, Ht.
  unfold add_explant_batch in Hadd. cbn in Hadd. injection Hadd as <- <-.
  set (bid := seq (explant_batches s) + 1) in *.
  set (new := Batch.mk bid oid' name n et mt (or_none h) (or_none a) d
                (Some notes) now ps') in *.
  assert (Hold : forall i, In i (map Batch.id (rows (explant_batches s))) ->
                           i <> bid).
  { intros i Hin. apply in_map_iff in Hin as (b & <- & Hb).
    specialize (Hids b Hb). unfold bid. lia. }
  assert (Hinf : filter (fun r => Infection.batch_id r =? bid)
                   (rows (infection_records s)) = []).
  { apply filter_none. intros r Hr. apply Z.eqb_neq.
    destruct (Hi r Hr) as [Hin _]. now apply Hold. }
  assert (Htr : filter (fun r => Transfer.batch_id r =? bid)
                  (rows (transfer_records s)) = []).
  { apply filter_none. intros r Hr. apply Z.eqb_neq.
    destruct (Ht r Hr) as [Hin _]. now apply Hold. }
  assert (Hrows : filter (fun b => Batch.id b =? bid)
                    (rows (explant_batches s) ++ [new]) = [new]).
  { rewrite filter_app. cbn. rewrite Z.eqb_refl.
    rewrite filter_none; [reflexivity|].
    intros b Hb. apply Z.eqb_neq. apply Hold. now apply in_map. }
  assert (Htotal : get_total_infections_for_batch
                     (with_explant_batches s
                        (mk_table (rows (explant_batches s) ++ [new]) bid)) bid
                   = 0).
  { unfold get_total_infections_for_batch. cbn. now rewrite Hinf. }
  split; [exact Hn|]. split; [|split; [exact Htotal|]].
  - unfold healthy_remaining.
    destruct (filter _ (get_explant_batches _ None)) as [|y ty] eqn:Ey.
    + exfalso.
      assert (Hin : In new (filter (fun b => Batch.id b =? bid)
                              (get_explant_batches
                                 (with_explant_batches s
                                    (mk_table (rows (explant_batches s) ++ [new])
                                       bid)) None))).
      { apply filter_In. split; [|apply Z.eqb_refl].
        unfold get_explant_batches, order_by_desc. cbn [truthy].
        apply sort_by_in. cbn. apply in_app_iff. right. now left. }
      rewrite Ey in Hin. contradiction.
    + apply filter_head_in in Ey as [Hy Hyb]. apply get_explant_batches_in in Hy.
      apply Z.eqb_eq in Hyb.
      assert (y = new).
      { apply (unique_by_key Batch.id _ _ _ Hnd' Hy).
        - cbn. apply in_app_iff. right. now left.
        - exact Hyb. }
      subst y. rewrite Htotal. f_equal. cbn. lia.
  - unfold get_batch_summary. cbn [explant_batches with_explant_batches rows
                                   infection_records transfer_records].
    rewrite Hrows, Hinf, Htr. cbn. eexists. split; [reflexivity|].
    cbn. repeat split. lia.
Qed.

Lemma new_batch_starts_healthy_witness :
  1 <= 40
  /\ healthy_remaining store_batch1 1 = Some 40
  /\ get_total_infections_for_batch store_batch1 1 = 0
  /\ exists sm, get_batch_summary store_batch1 1 = Some sm
                /\ healthy sm = 40 /\ total_infected sm = 0
                /\ total_transferred sm = 0.
Proof.
  apply (new_batch_starts_healthy store_order1 1 (Some 1) "B-1" 40 "Node"
           "50% MS" 6 EmptyString EmptyString EmptyString
           (Some "Hop Latent Viroid") store_batch1 1).
  - eapply evolves_step; [apply evolves_refl|]. apply act_step.
    eapply (step_new_order empty_store 0 "Acme" "Cascade" 10 5 "Clones" 5 false
              EmptyString). reflexivity.
  - reflexivity.
Defined.

(** ** References point at ids that were handed out *)

Lemma issued_mono {R : Type} (t t' : table R) (i : Z) :
  seq t <= seq t' -> issued t i -> issued t' i.
Proof. unfold issued. lia. Qed.

Lemma in_issued {R : Type} (id : R -> Z) (t : table R) (i : Z) :
  primary_key id t -> In i (map id (rows t)) -> issued t i.
Proof.
  intros (_ & _ & Hall) Hin. apply in_map_iff in Hin as (r & <- & Hr).
  rewrite Forall_forall in Hall. exact (Hall r Hr).
Qed.

Lemma issued_insert {R : Type} (mk : Z -> R) (t : table R) (i : Z) :
  issued t i -> issued (fst (sql_insert mk t)) i.
Proof. apply issued_mono. simpl. lia. Qed.

Ltac issued_grow s :=
  first [ apply (issued_mono (orders s)); [simpl; lia|]
        | apply (issued_mono (explant_batches s)); [simpl; lia|]
        | apply (issued_mono (transfer_records s)); [simpl; lia|] ].

(** Rows that were there before still point at issued ids: counters only
    go up. *)
Ltac links_kept s L :=
  eapply Forall_impl; [|exact L]; cbn beta;
  let x := fresh "x" in
  let Hx := fresh "Hx" in
  intros x Hx;
  lazymatch type of Hx with
  | _ /\ _ => destruct Hx as [? ?]; split
  | _ => idtac
  end;
  intros; issued_grow s; eauto.

Lemma db_effect_links (s s' : Store) :
  consistent s -> links_issued s -> db_effect s s' -> links_issued s'.
Proof.
  intros [Ko Kb Ki Kt Kr Kd Kl Ku Ho Hb Hi Ht Hr Hd Hl] [Lb Lt Lr Ld Ll] Heff.
  destruct Heff as
    [ now c cv np ps od dq rec notes Hnp Hdq ->
    | oid c cv np ps od dq rec notes Hnp Hdq ->
    | oid -> | oid d -> | oid ->
    | now oid name n et mt h a d notes ps Hn Hoid ->
    | b oid name n et mt h a d notes ps Hn Hoid ->
    | b ->
    | now b nl na ty d notes Hin Hnl Hna ->
    | rid b nl na ty d notes Hin Hnl Hna ->
    | rid ->
    | now b par d ein eout media h a mult notes Hin Hpar Hein Heout ->
    | tid b par d ein eout media h a mult notes Hin Hpar Hein Heout ->
    | tid ->
    | now tid b np d nr rd notes Hnp Hnr Htid ->
    | rid nr rd Hnr ->
    | rid tid b np d nr rd notes Hnp Hnr Htid Hbin ->
    | rid ->
    | now oid b n d m notes Hn Hoid Hbid ->
    | rid oid b n d m notes Hn Hoid Hbid ->
    | rid ->
    | now oid uuid c cv od d st ps n notes lid Hn Hoid Hadd
    | lid -> ].
  - (* add_order *)
    constructor; try assumption.
    + links_kept s Lb.
    + links_kept s Ld.
    + links_kept s Ll.
  - constructor; assumption.
  - constructor; assumption.
  - constructor; assumption.
  - constructor; assumption.
  - (* add_explant_batch *)
    constructor; try assumption.
    + apply rows_insert; [links_kept s Lb|]. simpl. intros o Hso.
      apply (in_issued Order.id); [assumption | now apply Hoid].
    + links_kept s Lr.
    + links_kept s Ld.
  - (* update_explant_batch *)
    constructor; try assumption.
    apply rows_update; [assumption|]. simpl. intros x _ _ o Hso.
    apply (in_issued Order.id); [assumption | now apply Hoid].
  - (* delete_explant_batch *)
    constructor; try assumption; cbn.
    + now apply (rows_delete _ (fun x => Batch.id x =? b)).
    + now apply (rows_delete _ (fun r => Transfer.batch_id r =? b)).
    + now apply (rows_delete _ (fun r => Rooting.batch_id r =? b)).
  - constructor; assumption.
  - constructor; assumption.
  - constructor; assumption.
  - (* add_transfer_record *)
    constructor; try assumption.
    + apply rows_insert; [links_kept s Lt|]. simpl. intros p Hp.
      issued_grow s. apply (in_issued Transfer.id); [assumption | now apply Hpar].
    + links_kept s Lr.
  - (* update_transfer_record *)
    constructor; try assumption.
    apply rows_update; [assumption|]. simpl. intros x _ _ p Hp.
    exact (in_issued Transfer.id (transfer_records s) p Kt
             (proj2 (Hpar p Hp))).
  - (* delete_transfer_record *)
    constructor; try assumption; cbn.
    + now apply (rows_delete _ (fun r => Transfer.id r =? tid)).
    + now apply (rows_delete _ (fun r => fk_eqb (Rooting.transfer_id r) tid)).
  - (* add_rooting_record *)
    constructor; try assumption.
    apply rows_insert; [assumption|]. simpl.
    destruct Htid as (t & Hrow & -> & <-). split.
    + apply (in_issued Batch.id); [assumption|].
      rewrite Forall_forall in Ht. now destruct (Ht t Hrow).
    + intros i Hi'. injection Hi' as <-.
      apply (in_issued Transfer.id); [assumption | now apply in_map].
  - (* update_rooting_record *)
    constructor; try assumption.
    apply rows_update; [assumption|]. simpl. intros r Hrow _.
    rewrite Forall_forall in Lr. exact (Lr r Hrow).
  - (* update_rooting_record_full *)
    constructor; try assumption.
    apply rows_update; [assumption|]. simpl. intros r _ _. split.
    + now apply (in_issued Batch.id).
    + intros i Hi'. apply (in_issued Transfer.id); [assumption | now apply Htid].
  - (* delete_rooting_record *)
    constructor; try assumption. now apply rows_delete.
  - (* add_delivery_record *)
    constructor; try assumption.
    apply rows_insert; [assumption|]. simpl. split.
    + intros o Hso. injection Hso as <-. now apply (in_issued Order.id).
    + intros i Hi'. apply (in_issued Batch.id); [assumption | now apply Hbid].
  - (* update_delivery_record *)
    constructor; try assumption.
    apply rows_update; [assumption|]. simpl. intros r _ _. split.
    + intros o Hso. injection Hso as <-. now apply (in_issued Order.id).
    + intros i Hi'. apply (in_issued Batch.id); [assumption | now apply Hbid].
  - (* delete_delivery_record *)
    constructor; try assumption. now apply rows_delete.
  - (* add_label *)
    unfold add_label in Hadd. destruct (existsb _ _); [discriminate|].
    apply success_fst in Hadd. subst s'.
    constructor; try assumption.
    set (mk := fun i => Label.mk i oid uuid c cv od d st ps (Some n)
                          (Some notes) now).
    apply (rows_insert _ mk (labels s)); [assumption|]. simpl.
    now apply (in_issued Order.id).
  - (* delete_label *)
    constructor; try assumption. now apply rows_delete.
Qed.

Lemma evolves_links (s s' : Store) :
  consistent s -> links_issued s -> evolves s s' -> links_issued s'.
Proof.
  intros Hc Hl Hev. induction Hev as [|s s1 s2 Hev IH Ha]; [assumption|].
  eapply db_effect_links.
  - eapply evolves_consistent; eassumption.
  - now apply IH.
  - now apply action_db_effect.
Qed.

Lemma links_issued_empty_store : links_issued empty_store.
Proof. constructor; constructor. Qed.

Lemma attainable_links_issued (s : Store) : attainable s -> links_issued s.
Proof.
  apply evolves_links;
    [apply consistent_empty_store | apply links_issued_empty_store].
Qed.

Lemma flat_map_nil {A B : Type} (f : A -> list B) (l : list A) :
  (forall x, In x l -> f x = []) -> flat_map f l = [].
Proof.
  induction l as [|x l IH]; simpl; intros H; [reflexivity|].
  rewrite H by now left. apply IH. intros y Hy. apply H. now right.
Qed.




(** X28. A new order starts with nothing attached. Whatever was recorded
    and deleted before, the order that the New Order form has just added
    has no batch, no delivery record, no label batch and no pathogen
    listed under its id: rows left behind by a deleted order are not taken
    over, since the new id lies above every id handed out so far. *)
Theorem new_order_starts_unreferenced (s : Store) (now : Z)
    (client_name cultivar : string) (num_plants delivery_quantity : Z)
    (plant_size : string) (order_date : date) (is_recurring : bool)
    (notes : string) (s' : Store) (order_id : Z) :
  attainable s ->
  new_order_form s now client_name cultivar num_plants delivery_quantity
    plant_size order_date is_recurring notes = Success (s', order_id) ->
  In order_id (map Order.id (rows (orders s')))
  /\ get_explant_batches s' (Some order_id) = []
  /\ get_delivery_records s' (Some order_id) None = []
  /\ get_labels s' (Some order_id) = []
  /\ get_pathogens_for_order s' order_id = [].
Proof.
  intros Hat H.
  pose proof (attainable_consistent s Hat) as Hc.
  destruct (attainable_links_issued s Hat) as [Lb _ _ Ld Ll].
  destruct (ok_order_keys s Hc) as (_ & Hseq & _).
  unfold new_order_form in H. form_inv H. widget_inv.
  apply success_inj in H.
  assert (Hs : s' = fst (add_order s now client_name cultivar num_plants
                           plant_size order_date delivery_quantity
                           is_recurring notes)) by now rewrite H.
  assert (Hid : order_id = seq (orders s) + 1).
  { change (order_id = snd (add_order s now client_name cultivar num_plants
                              plant_size order_date delivery_quantity
                              is_recurring notes)). now rewrite H. }
  clear H. subst s' order_id.
  rewrite Forall_forall in Lb, Ld, Ll.
  assert (Htruthy : truthy (Some (seq (orders s) + 1)) = true).
  { simpl. apply negb_true_iff, Z.eqb_neq. lia. }
  split; [|split; [|split; [|split]]].
  - simpl. rewrite map_app. apply in_app_iff. right. now left.
  - unfold get_explant_batches. rewrite Htruthy. cbn.
    rewrite filter_none; [reflexivity|]. intros b Hb.
    destruct (Batch.order_id b) as [o|] eqn:Eo; [|reflexivity]. simpl.
    apply Z.eqb_neq. specialize (Lb b Hb o Eo). unfold issued in Lb. lia.
  - unfold get_delivery_records. rewrite Htruthy. cbn.
    rewrite filter_none; [reflexivity|]. intros r Hr.
    destruct (Delivery.order_id r) as [o|] eqn:Eo; [|reflexivity]. simpl.
    apply Z.eqb_neq. destruct (Ld r Hr) as [Ho _]. specialize (Ho o Eo).
    unfold issued in Ho. lia.
  - unfold get_labels. rewrite Htruthy. cbn.
    rewrite filter_none; [reflexivity|]. intros l Hl.
    apply Z.eqb_neq. specialize (Ll l Hl). unfold issued in Ll. lia.
  - unfold get_pathogens_for_order. cbn.
    replace (flat_map _ _) with (@nil string); [reflexivity|].
    symmetry. apply flat_map_nil. intros b Hb.
    destruct (Batch.order_id b) as [o|] eqn:Eo; [|reflexivity]. simpl.
    specialize (Lb b Hb o Eo). unfold issued in Lb.
    destruct (o =? seq (orders s) + 1) eqn:Eq; [|reflexivity].
    apply Z.eqb_eq in Eq. lia.
Qed.

Lemma new_order_starts_unreferenced_witness :
  In 2 (map Order.id (rows (orders store_order2)))
  /\ get_explant_batches store_order2 (Some 2) = []
  /\ get_delivery_records store_order2 (Some 2) None = []
  /\ get_labels store_order2 (Some 2) = []
  /\ get_pathogens_for_order store_order2 2 = [].
Proof.
  apply (new_order_starts_unreferenced store_order1_deleted 7 "Birch"
           "Centennial" 20 10 "Teens" 70 false EmptyString store_order2 2).
  - unfold attainable.
    eapply evolves_step; [|
      apply act_step; eapply (step_delete_order store_lifecycle 1);
      reflexivity].
    exact attainable_store_lifecycle.
  - reflexivity.
Defined.
